(** * Shortlisting decision engine: a shallow embedding of [shortlist.py]

    The development embeds the three criterion evaluators
    ([check_experience], [check_compensation], [check_location]), the
    retry wrapper [LLMClient.generate_content], the Airtable client and the
    aggregator loop of [main] as functions over an explicit history of
    external effects, and proves the properties of the specification
    against them.

    Modelling conventions.
    - Airtable field values are JSON scalars ([value]).  A number is held
      by its exact value, a [Q]: every [int] and every finite [float] has
      one.  Comparisons are exact, as in Python.  The division of a rate
      by a snapshot rate rounds its result to a binary64 float
      ([round64]), as Python does.  The years of experience,
      [total_days / 365.25], are kept exact: the count of days is an
      integer and 365.25 is a float, so the rounded quotient is positive,
      or at least 4, exactly when the exact one is.
    - A Python [dict] with string keys is a [gmap string _].
    - Python exceptions are the constructors of [exn]; a computation
      returns an [outcome].
    - Every external service (Airtable, the Gemini model, the Nominatim
      geocoder) is an oracle of the [World]; its answer may depend on the
      whole history of effects performed so far, so the same request may be
      answered differently at different times.
    - [print] and [logging] calls are not recorded; the evaluation of
      their arguments is, where it may raise. *)

From Stdlib Require Import ZArith QArith String Ascii List Lia Lqa DecimalString.
From Stdlib Require Import Floats.SpecFloat.
From stdpp Require Import base gmap strings list fin_maps.

Local Open Scope Z_scope.

(** ** Values, records and exceptions *)

Inductive value : Type :=
  | VNone
  | VNum (q : Q)
  | VStr (s : string).

(** An Airtable record: [{"id": ..., "fields": {...}}]. *)
Record record : Type := mkRecord {
  rec_id : string;
  rec_fields : gmap string value
}.

Inductive exn : Type :=
  | AttributeError
  | TypeError
  | ValueError
  | KeyError
  | IndexError
  | ZeroDivisionError
  | OverflowError
  | AirtableAPIError
  | ServiceError.

Inductive outcome (A : Type) : Type :=
  | Ok (a : A)
  | Raise (e : exn).
Arguments Ok {A} a.
Arguments Raise {A} e.

Definition exn_eqb (a b : exn) : bool :=
  match a, b with
  | AttributeError, AttributeError | TypeError, TypeError
  | ValueError, ValueError | KeyError, KeyError | IndexError, IndexError
  | ZeroDivisionError, ZeroDivisionError | OverflowError, OverflowError
  | AirtableAPIError, AirtableAPIError | ServiceError, ServiceError => true
  | _, _ => false
  end.

(** ** The Python built-ins the engine relies on

    String case conversion, stripping, date parsing and number formatting
    belong to the Python runtime, not to the repository; the engine is
    embedded over this interface and [ascii_runtime] below implements it for
    ASCII text, ISO dates and decimal numbers.

    - [strptime s] is [datetime.strptime(s, "%Y-%m-%d")] as a proleptic
      Gregorian ordinal, [None] standing for [ValueError];
    - [num_str] is [str(x)] and [num_fmt1 x] is [f"{x:.1f}"];
    - [str_format t kw] is [str.format] applied to the template [t] with
      the keyword arguments [kw], their values already rendered as text. *)
Class PyRuntime : Type := {
  str_lower : string -> string;
  str_upper : string -> string;
  str_strip : string -> string;
  strptime : string -> option Z;
  num_str : Q -> string;
  num_fmt1 : Q -> string;
  str_format : string -> list (string * string) -> outcome string
}.

(** ** External effects *)

(** The four HTTP verbs of [AirtableClient._request]. *)
Inductive request : Type :=
  | Get (table : string) (formula : string)
  | Post (table : string) (fields : gmap string value)
  | Patch (table : string) (record_id : string) (fields : gmap string value)
  | Delete (table : string) (record_id : string).

Inductive event : Type :=
  | EvRequest (r : request)        (* one HTTP round-trip to Airtable *)
  | EvClassify (prompt : string)   (* one call of [generate_content] *)
  | EvGemini (prompt : string)     (* one attempt on the model API *)
  | EvSleep (seconds : Z)          (* [time.sleep] *)
  | EvGeocode (query : string).    (* one Nominatim lookup *)

(** The outside world.  [http] answers with the ["records"] entry of the
    JSON body ([None] when the key is absent); [gemini] answers with
    [response.text]; [nominatim] answers with the [address] of the location
    found, [None] when nothing is found. *)
Record World : Type := mkWorld {
  http : list event -> request -> outcome (option (list record));
  gemini : list event -> string -> outcome (option string);
  nominatim : list event -> string -> outcome (option string);
  today : Z;
  CONVERSION_RATES : gmap string Q
}.

(** ** The effect monad: history passing with exceptions *)

Definition eff (A : Type) : Type := list event -> outcome A * list event.

Definition ret {A} (a : A) : eff A := fun h => (Ok a, h).

Definition bind {A B} (c : eff A) (k : A -> eff B) : eff B :=
  fun h =>
    match c h with
    | (Ok a, h') => k a h'
    | (Raise e, h') => (Raise e, h')
    end.

Definition raise {A} (e : exn) : eff A := fun h => (Raise e, h).

Definition lift {A} (o : outcome A) : eff A := fun h => (o, h).

(** [try: c except handled: handler]. An exception raised by the handler
    itself is not caught again. *)
Definition try_except {A} (c : eff A) (handled : exn -> bool)
    (handler : exn -> eff A) : eff A :=
  fun h =>
    match c h with
    | (Ok a, h') => (Ok a, h')
    | (Raise e, h') => if handled e then handler e h' else (Raise e, h')
    end.

(** Perform one external effect: record it, then ask the oracle at the
    history that precedes it. *)
Definition perform {A} (ev : event) (oracle : list event -> outcome A) : eff A :=
  fun h => (oracle h, h ++ [ev]).

#[global] Instance eff_ret : MRet eff := @ret.
#[global] Instance eff_bind : MBind eff := fun A B k c => bind c k.

(** ** Python helpers *)

Definition dict_get {V} (d : gmap string V) (k : string) (dflt : V) : V :=
  default dflt (d !! k).

(** [d.get(k)]: a missing key reads as [None]. *)
Definition dict_get_none (d : gmap string value) (k : string) : value :=
  dict_get d k VNone.

(** Truthiness of a JSON scalar. *)
Definition truthy (v : value) : bool :=
  match v with
  | VNone => false
  | VNum q => negb (Qeq_bool q 0)
  | VStr s => negb (String.eqb s EmptyString)
  end.

(** [x.lower()] and [x.upper()] exist on strings only. *)
Definition py_lower `{PyRuntime} (v : value) : outcome string :=
  match v with
  | VStr s => Ok (str_lower s)
  | _ => Raise AttributeError
  end.

Definition py_upper `{PyRuntime} (v : value) : outcome string :=
  match v with
  | VStr s => Ok (str_upper s)
  | _ => Raise AttributeError
  end.

(** [f"{v}"]. *)
Definition py_str `{PyRuntime} (v : value) : string :=
  match v with
  | VNone => "None"
  | VNum q => num_str q
  | VStr s => s
  end.

(** *** Floats

    A Python [float] is an IEEE 754 binary64 number, and [/] rounds the
    exact quotient to the nearest one, ties to even.  The Standard
    Library's [SFdiv] is that division; on two integers it gives the
    correctly rounded quotient whatever their size. *)

Definition Z2SF (z : Z) : spec_float :=
  match z with
  | 0 => S754_zero false
  | Zpos p => S754_finite false p 0
  | Zneg p => S754_finite true p 0
  end.

(** The binary64 number nearest to a rational, ties to even: a zero below
    the smallest float, an infinity above the largest. *)
Definition round64 (q : Q) : spec_float :=
  SFdiv 53 1024 (Z2SF (Qnum q)) (Z2SF (Zpos (Qden q))).

(** The exact value of a finite float. *)
Definition SF2Q (f : spec_float) : Q :=
  match f with
  | S754_finite s m e =>
      let z := if s then Zneg m else Zpos m in
      if 0 <=? e then inject_Z (z * 2 ^ e) else Qmake z (Z.to_pos (2 ^ (- e)))
  | _ => 0
  end.

(** The numbers a float holds exactly: every float, the integers up to
    [2 ^ 53] and the larger ones with enough trailing zero bits.  On these
    an [int] operand and the [float] of the same value divide alike. *)
Definition is_binary64 (q : Q) : bool :=
  match round64 q with
  | S754_zero _ => Qeq_bool q 0
  | S754_finite _ _ _ as f => Qeq_bool (SF2Q f) q
  | _ => false
  end.

(** [f <= y] for a float and an integer or float bound: Python compares
    the exact values. *)
Definition float_le (f : spec_float) (y : Q) : bool :=
  match f with
  | S754_zero _ => Qle_bool 0 y
  | S754_finite _ _ _ => Qle_bool (SF2Q f) y
  | S754_infinity negative => negative
  | S754_nan => false
  end.

(** [x / y] on numbers: the float nearest to the quotient.  This is what
    Python returns when both operands are exactly representable
    ([is_binary64]), and when the dividend is zero.  An [int] that no
    float holds is divided otherwise (it is rounded first when the other
    operand is a [float], and an overflow raises), which the exact value
    does not tell: the properties of a rounded quotient are stated on
    representable operands. *)
Definition py_div (x : value) (y : Q) : outcome spec_float :=
  match x with
  | VNum q => if Qeq_bool y 0 then Raise ZeroDivisionError
              else Ok (round64 (q / y))
  | _ => Raise TypeError
  end.

(** [x >= y] against a number. *)
Definition py_ge (x : value) (y : Q) : outcome bool :=
  match x with
  | VNum q => Ok (Qle_bool y q)
  | _ => Raise TypeError
  end.

Definition is_none (v : value) : bool :=
  match v with VNone => true | _ => false end.

(** [datetime.strptime(v, "%Y-%m-%d")]. *)
Definition py_strptime `{PyRuntime} (v : value) : outcome Z :=
  match v with
  | VStr s => match strptime s with Some d => Ok d | None => Raise ValueError end
  | _ => Raise TypeError
  end.

(** [s.split(",")[-1]]: the text after the last comma. *)
Fixpoint last_segment_from (acc : string) (s : string) : string :=
  match s with
  | EmptyString => acc
  | String c s' =>
      if Ascii.eqb c ","%char then last_segment_from s' s'
      else last_segment_from acc s'
  end.

Definition last_segment (s : string) : string := last_segment_from s s.

(** Sequencing of a [for] loop whose body updates the loop variables. *)
Fixpoint for_each {S A} (body : S -> A -> eff S) (l : list A) (st : S) : eff S :=
  match l with
  | [] => ret st
  | x :: xs => st' ← body st x; for_each body xs st'
  end.

(** ** [config.py] *)

Definition APPLICANTS_TABLE : string := "Applicants".
Definition PERSONAL_DETAILS_TABLE : string := "Personal Details".
Definition WORK_EXPERIENCE_TABLE : string := "Work Experience".
Definition SALARY_PREFERENCES_TABLE : string := "Salary Preferences".
Definition SHORTLISTED_LEADS_TABLE : string := "Shortlisted Leads".

Definition ALLOWED_LOCATIONS : list string :=
  ["India"; "United States"; "Canada"; "UK"; "Germany"].
(** [str(ALLOWED_LOCATIONS)], as an f-string renders the list. *)
Definition ALLOWED_LOCATIONS_str : string :=
  "['India', 'United States', 'Canada', 'UK', 'Germany']".
Definition MIN_AVAILABILITY_HRS : Q := 20.
Definition MAX_RATE_USD : Q := 100.
Definition MIN_YEARS_EXPERIENCE : Q := 4.

Definition nl : string := String (ascii_of_nat 10) EmptyString.

(** The longest duration, in seconds, that fits a signed 64-bit count of
    nanoseconds: [(2 ^ 63 - 1) // 10 ^ 9]. *)
Definition SLEEP_MAX : Z := 9223372036.

Section Engine.
Context `{rt : PyRuntime} (w : World).

(** ** [airtable_utils.AirtableClient] *)

(** Every failure of the round-trip is re-raised as [AirtableAPIError]. *)
Definition _request (r : request) : eff (option (list record)) :=
  try_except (perform (EvRequest r) (fun h => http w h r))
    (fun _ => true) (fun _ => raise AirtableAPIError).

Definition create_record (table_name : string) (fields : gmap string value) :=
  _request (Post table_name fields).

Definition update_record (table_name record_id : string)
    (fields : gmap string value) :=
  _request (Patch table_name record_id fields).

Definition delete_record (table_name record_id : string) :=
  _request (Delete table_name record_id).

(** [params] is always [{"filterByFormula": formula}] in the engine. *)
Definition fetch_records (table_name formula : string) :=
  _request (Get table_name formula).

Definition upsert_record (table_name : string) (record_id : option string)
    (fields : gmap string value) :=
  match record_id with
  | Some rid => if String.eqb rid EmptyString then create_record table_name fields
                else update_record table_name rid fields
  | None => create_record table_name fields
  end.

(** ** [llm_utils.LLMClient] *)

(** [time.sleep(seconds)] on an [int].  The duration is first converted
    to CPython's signed 64-bit count of nanoseconds, which raises
    [OverflowError] when it does not fit; a negative duration is then
    refused with [ValueError].  Neither pauses. *)
Definition sleep (seconds : Z) : eff unit :=
  if (seconds <? - SLEEP_MAX) || (SLEEP_MAX <? seconds) then raise OverflowError
  else if seconds <? 0 then raise ValueError
  else perform (EvSleep seconds) (fun _ => Ok tt).

(** The [for attempt in range(max_retries)] loop, over the attempts that
    remain. *)
Fixpoint generate_content_loop (prompt : string) (max_retries backoff_factor : Z)
    (attempts : list Z) : eff (option string) :=
  match attempts with
  | [] => ret None
  | attempt :: rest =>
      try_except
        (perform (EvGemini prompt) (fun h => gemini w h prompt))
        (fun _ => true)
        (fun _ =>
           if attempt <? max_retries - 1
           then (_ ← sleep (backoff_factor ^ attempt);
                 generate_content_loop prompt max_retries backoff_factor rest)
           else ret None)
  end.

Definition range (n : Z) : list Z := map Z.of_nat (seq 0 (Z.to_nat n)).

Definition generate_content (prompt : string) (max_retries backoff_factor : Z)
    : eff (option string) :=
  _ ← perform (EvClassify prompt) (fun _ => Ok tt);
  generate_content_loop prompt max_retries backoff_factor (range max_retries).

(** The engine always calls [generate_content(prompt, max_tokens=512)]. *)
Definition classify (prompt : string) : eff (option string) :=
  generate_content prompt 3 2.

Definition is_yes (prompt_result : option string) : bool :=
  match prompt_result with
  | Some s => String.eqb s "Yes"
  | None => false
  end.

(** ** [shortlist.create_shortlisted_lead] *)

Definition create_shortlisted_lead (applicant_id : value) (reason : string)
    : eff unit :=
  resp ← fetch_records SHORTLISTED_LEADS_TABLE
           ("{Applicants} = " +:+ py_str applicant_id);
  match default [] resp with
  | r :: _ =>
      _ ← update_record SHORTLISTED_LEADS_TABLE (rec_id r)
            {[ "Score Reason" := VStr reason ]};
      ret tt
  | [] => ret tt
  end.

(** ** [shortlist.check_experience] *)

(** [prompt.format(company_name=...)]: the template is a literal with the
    single field [{company_name}], so the result is the template with the
    name spliced in. *)
Definition experience_prompt (company_name : string) : string :=
  "You are an expert in technology companies. Your task is to "
  +:+ "determine if the given company is widely considered a top-tier "
  +:+ "or 'FAANG-level' technology company in terms of prestige, "
  +:+ "engineering talent, and compensation. "
  +:+ "Answer only 'Yes' or 'No'. Do not make mistakes. "
  +:+ "Example: If the company is 'Google', answer 'Yes'. "
  +:+ "If the company is 'Infosys', answer 'No'. "
  +:+ "Company: '" +:+ company_name +:+ "'".

(** The loop variables of [check_experience]. *)
Record exp_state : Type := mkExp {
  total_days : Z;
  worked_at_tier_1 : bool;
  temp_tier_1 : bool
}.

Definition exp_init : exp_state :=
  {| total_days := 0; worked_at_tier_1 := false; temp_tier_1 := false |}.

(** The body of the [try] block of one iteration. *)
Definition experience_dates (exp : gmap string value) (st : exp_state)
    : eff exp_state :=
  let start_date_str := dict_get_none exp "Start" in
  let end_date_str := dict_get_none exp "End" in
  if negb (truthy start_date_str) || negb (truthy end_date_str)
  then ret st
  else
    start_date ← lift (py_strptime start_date_str);
    end_lower ← lift (py_lower end_date_str);
    end_date ← (if String.eqb end_lower "present"
                then ret (today w)
                else lift (py_strptime end_date_str));
    let days := end_date - start_date in
    ret {| total_days := total_days st + days;
           worked_at_tier_1 := temp_tier_1 st && (0 <? days);
           temp_tier_1 := temp_tier_1 st |}.

Definition set_temp_tier_1 (st : exp_state) : exp_state :=
  {| total_days := total_days st;
     worked_at_tier_1 := worked_at_tier_1 st;
     temp_tier_1 := true |}.

Definition is_value_or_type_error (e : exn) : bool :=
  match e with ValueError | TypeError => true | _ => false end.

(** One iteration of [for experience_data in experiences]. *)
Definition experience_body (st : exp_state) (experience_data : record)
    : eff exp_state :=
  let exp := rec_fields experience_data in
  company ← lift (py_lower (dict_get exp "Company" (VStr EmptyString)));
  prompt_result ← classify (experience_prompt company);
  let st1 := if is_yes prompt_result then set_temp_tier_1 st else st in
  try_except (experience_dates exp st1) is_value_or_type_error
    (fun _ => ret st1).

Definition total_years_of (days : Z) : Q := (inject_Z days / (36525 # 100))%Q.

Definition experience_verdict (st : exp_state) : bool * string :=
  let total_years := total_years_of (total_days st) in
  if (Qle_bool MIN_YEARS_EXPERIENCE total_years || worked_at_tier_1 st)
     && negb (Qle_bool total_years 0)
  then (true, "Experience: " +:+ num_fmt1 total_years +:+ " years, Tier-1: "
              +:+ (if worked_at_tier_1 st then "Yes" else "No"))
  else (false, "Experience: " +:+ num_fmt1 total_years
               +:+ " years (below min), Tier-1: No").

Definition applicants_filter (applicant_id : value) : string :=
  "{Applicants} = '" +:+ py_str applicant_id +:+ "'".

Definition check_experience (applicant_id : value) : eff (bool * string) :=
  resp ← fetch_records WORK_EXPERIENCE_TABLE (applicants_filter applicant_id);
  let experiences := default [] resp in
  st ← for_each experience_body experiences exp_init;
  ret (experience_verdict st).

(** ** [shortlist.check_compensation] *)

Definition first_fields (records : list record) : gmap string value :=
  match records with
  | r :: _ => rec_fields r
  | [] => ∅
  end.

Definition check_compensation (applicant_id : value) : eff (bool * string) :=
  resp ← fetch_records SALARY_PREFERENCES_TABLE (applicants_filter applicant_id);
  let salary := first_fields (default [] resp) in
  if decide (salary = ∅)
  then ret (false, "No salary information available.")
  else
    let rate := dict_get salary "Preferred Rate" (VNum 0) in
    currency ← lift (py_upper (dict_get salary "Currency" (VStr "USD")));
    let availability := dict_get salary "Availability (hrs/wk)" (VNum 0) in
    let conversion := dict_get (CONVERSION_RATES w) currency 1%Q in
    (* the argument of [print("Preferred Rate (USD):", ...)] *)
    _ ← lift (py_div rate conversion);
    rate_ok ← (if is_none rate then ret false
               else (converted ← lift (py_div rate conversion);
                     ret (float_le converted MAX_RATE_USD)));
    availability_ok ← (if is_none availability then ret false
                       else lift (py_ge availability MIN_AVAILABILITY_HRS));
    if rate_ok && availability_ok
    then ret (true, "Compensation: $" +:+ py_str rate +:+ "/hr, "
                    +:+ py_str availability +:+ " hrs/wk")
    else
      let reason :=
        (if negb rate_ok
         then "Compensation: Rate $" +:+ py_str rate +:+ " (>100) "
         else EmptyString)
        +:+ (if negb availability_ok
             then "Availability " +:+ py_str availability +:+ "hrs (<20)"
             else EmptyString) in
      ret (false, str_strip reason).

(** ** [shortlist.check_location] *)

(** The f-string of the fallback prompt, the location already spliced in. *)
Definition location_prompt (location : string) : string :=
  "You are a location expert. Your task is to determine if a "
  +:+ "given place name refers to any location in the allowed "
  +:+ "locations list, even if there are spelling mistakes or minor "
  +:+ "variations. Use your knowledge to infer the intended location. "
  +:+ "If the location matches (directly or by correcting a spelling "
  +:+ "mistake), answer 'Yes'. Otherwise, answer 'No'. "
  +:+ "Allowed locations: " +:+ ALLOWED_LOCATIONS_str +:+ ". "
  +:+ "Place name: '" +:+ location +:+ "'. "
  +:+ "Respond only with 'Yes' or 'No'.".

Definition location_allowed (personal : gmap string value) (key : string)
    : bool * string :=
  (true, "Location: " +:+ py_str (dict_get_none personal key) +:+ " (Allowed)").

Definition location_rejected (personal : gmap string value) : bool * string :=
  (false, "Location: " +:+ py_str (dict_get_none personal "Location")
          +:+ " (Not in allowed list)").

(** The [try] block: [Some r] when it executes [return r], [None] when
    control falls through to the statement after the [try]. *)
Definition location_geocode (personal : gmap string value) (location : string)
    : eff (option (bool * string)) :=
  found ← perform (EvGeocode location) (fun h => nominatim w h location);
  address ← match found with
            | Some a => ret a
            | None => raise AttributeError
            end;
  let country := str_strip (last_segment address) in
  if existsb (String.eqb country) ALLOWED_LOCATIONS
  then ret (Some (location_allowed personal "location"))
  else ret None.

(** The keyword arguments of [prompt.format(...)]. *)
Definition location_kw (location : string) : list (string * string) :=
  [("location", location); ("allowed_locations", ALLOWED_LOCATIONS_str)].

(** The [except AttributeError] block. *)
Definition location_fallback (personal : gmap string value) (location : string)
    : eff (option (bool * string)) :=
  prompt ← lift (str_format (location_prompt location) (location_kw location));
  prompt_result ← classify prompt;
  if is_yes prompt_result
  then ret (Some (location_allowed personal "Location"))
  else ret None.

Definition check_location (applicant_id : value) : eff (bool * string) :=
  resp ← fetch_records PERSONAL_DETAILS_TABLE (applicants_filter applicant_id);
  let personal := first_fields (default [] resp) in
  location ← lift (py_lower (dict_get personal "Location" (VStr EmptyString)));
  returned ← try_except (location_geocode personal location)
               (fun _ => true)
               (fun e => if exn_eqb e AttributeError
                         then location_fallback personal location
                         else ret None);
  match returned with
  | Some r => ret r
  | None => ret (location_rejected personal)
  end.

(** ** [shortlist.main] *)

Definition verdict_status (exp_ok comp_ok loc_ok : bool) : string :=
  if exp_ok && comp_ok && loc_ok then "Shortlisted" else "Not Shortlisted".

Definition final_reason_of (status exp_reason comp_reason loc_reason : string)
    : string :=
  "Candidate " +:+ status +:+ " for the following reasons:" +:+ nl
  +:+ "- " +:+ exp_reason +:+ nl +:+ "- " +:+ comp_reason +:+ nl
  +:+ "- " +:+ loc_reason.

Definition status_fields (status : string) : gmap string value :=
  {[ "Shortlist Status" := VStr status ]}.

(** The body of [for record in applicants_to_review]. *)
Definition process_applicant (record : record) : eff unit :=
  applicant_id ← match rec_fields record !! "Applicant ID" with
                 | Some v => ret v
                 | None => raise KeyError
                 end;
  '(exp_ok, exp_reason) ← check_experience applicant_id;
  '(comp_ok, comp_reason) ← check_compensation applicant_id;
  '(loc_ok, loc_reason) ← check_location applicant_id;
  let status := verdict_status exp_ok comp_ok loc_ok in
  let final_reason := final_reason_of status exp_reason comp_reason loc_reason in
  _ ← update_record APPLICANTS_TABLE (rec_id record) (status_fields status);
  if String.eqb status "Shortlisted"
  then (_ ← sleep 5; create_shortlisted_lead applicant_id final_reason)
  else ret tt.

Definition pending_filter : string :=
  "OR({Shortlist Status} = '', {Shortlist Status} = 'Pending')".

Definition main : eff unit :=
  try_except
    (resp ← fetch_records APPLICANTS_TABLE pending_filter;
     let applicants_to_review := default [] resp in
     match applicants_to_review with
     | [] => ret tt
     | _ => for_each (fun _ record => process_applicant record)
              applicants_to_review tt
     end)
    (fun _ => true)
    (fun _ => ret tt).

End Engine.

(** ** A reference runtime

    An executable instance of [PyRuntime] for ASCII text, dates written
    [YYYY-MM-DD] and numbers with a short decimal expansion.  It is used to
    run the engine on concrete inputs. *)

Module Runtime.

Definition is_upper (c : ascii) : bool :=
  let n := nat_of_ascii c in (65 <=? n)%nat && (n <=? 90)%nat.
Definition is_lower (c : ascii) : bool :=
  let n := nat_of_ascii c in (97 <=? n)%nat && (n <=? 122)%nat.
Definition is_digit (c : ascii) : bool :=
  let n := nat_of_ascii c in (48 <=? n)%nat && (n <=? 57)%nat.
Definition is_space (c : ascii) : bool :=
  let n := nat_of_ascii c in
  ((9 <=? n)%nat && (n <=? 13)%nat) || (n =? 32)%nat.

Definition lower_char (c : ascii) : ascii :=
  if is_upper c then ascii_of_nat (nat_of_ascii c + 32) else c.
Definition upper_char (c : ascii) : ascii :=
  if is_lower c then ascii_of_nat (nat_of_ascii c - 32) else c.

Fixpoint map_string (f : ascii -> ascii) (s : string) : string :=
  match s with
  | EmptyString => EmptyString
  | String c s' => String (f c) (map_string f s')
  end.

Definition lower : string -> string := map_string lower_char.
Definition upper : string -> string := map_string upper_char.

Fixpoint lstrip (s : string) : string :=
  match s with
  | String c s' => if is_space c then lstrip s' else s
  | EmptyString => EmptyString
  end.

Definition rev_string (s : string) : string :=
  string_of_list_ascii (rev (list_ascii_of_string s)).

Definition strip (s : string) : string :=
  rev_string (lstrip (rev_string (lstrip s))).

(** *** Decimal numerals *)

Fixpoint digits_value (acc : Z) (s : string) : option Z :=
  match s with
  | EmptyString => Some acc
  | String c s' =>
      if is_digit c
      then digits_value (10 * acc + Z.of_nat (nat_of_ascii c - 48)) s'
      else None
  end.

Definition parse_digits (min_len max_len : nat) (s : string) : option Z :=
  let n := String.length s in
  if (min_len <=? n)%nat && (n <=? max_len)%nat then digits_value 0 s else None.

(** [s.split(sep)] for a one-character separator. *)
Fixpoint split_on (sep : ascii) (cur : string) (s : string) : list string :=
  match s with
  | EmptyString => [rev_string cur]
  | String c s' =>
      if Ascii.eqb c sep then rev_string cur :: split_on sep EmptyString s'
      else split_on sep (String c cur) s'
  end.

(** *** Dates: the proleptic Gregorian ordinal of [date.toordinal] *)

Definition is_leap (y : Z) : bool :=
  ((y mod 4 =? 0) && negb (y mod 100 =? 0)) || (y mod 400 =? 0).

Definition days_in_month (y m : Z) : Z :=
  if m =? 2 then (if is_leap y then 29 else 28)
  else if (m =? 4) || (m =? 6) || (m =? 9) || (m =? 11) then 30
  else 31.

Definition days_before_year (y : Z) : Z :=
  let p := y - 1 in 365 * p + p / 4 - p / 100 + p / 400.

Fixpoint days_before_month (y : Z) (m : nat) : Z :=
  match m with
  | O => 0
  | S k => days_before_month y k + days_in_month y (Z.of_nat (S k))
  end.

Definition ymd_to_ordinal (y m d : Z) : Z :=
  days_before_year y + days_before_month y (Z.to_nat (m - 1)) + d.

Definition parse_ymd (s : string) : option Z :=
  match split_on "-"%char EmptyString s with
  | [ys; ms; ds] =>
      match parse_digits 4 4 ys, parse_digits 1 2 ms, parse_digits 1 2 ds with
      | Some y, Some m, Some d =>
          if (1 <=? y) && (1 <=? m) && (m <=? 12) && (1 <=? d)
             && (d <=? days_in_month y m)
          then Some (ymd_to_ordinal y m d)
          else None
      | _, _, _ => None
      end
  | _ => None
  end.

(** *** Number formatting *)

Definition string_of_Z (z : Z) : string :=
  DecimalString.NilZero.string_of_int (Z.to_int z).

(** The digits of [r / d] after the decimal point, at most [n] of them. *)
Fixpoint fraction_digits (n : nat) (r d : Z) : string :=
  match n with
  | O => EmptyString
  | S k =>
      if r =? 0 then EmptyString
      else string_of_Z (10 * r / d) +:+ fraction_digits k (10 * r mod d) d
  end.

Definition show_num (q : Q) : string :=
  let n := Qnum q in
  let d := Z.pos (Qden q) in
  let a := Z.abs n in
  (if n <? 0 then "-" else EmptyString)
  +:+ string_of_Z (a / d)
  +:+ (if a mod d =? 0 then EmptyString else "." +:+ fraction_digits 12 (a mod d) d).

(** Rounding to the nearest tenth, ties to even. *)
Definition round_tenths (q : Q) : Z :=
  let n := 10 * Z.abs (Qnum q) in
  let d := Z.pos (Qden q) in
  let f := n / d in
  let r := n mod d in
  if 2 * r <? d then f
  else if d <? 2 * r then f + 1
  else if Z.even f then f else f + 1.

Definition show_fmt1 (q : Q) : string :=
  let t := round_tenths q in
  (if Qnum q <? 0 then "-" else EmptyString)
  +:+ string_of_Z (t / 10) +:+ "." +:+ string_of_Z (t mod 10).

(** *** [str.format]

    The fragment of the format mini-language made of literal text, the
    escapes [{{] and [}}], and replacement fields [{name}] that name a
    keyword argument.  [field] is [None] in literal text and holds the
    characters read so far inside a replacement field.  Conversions,
    format specifications and attribute or index lookups are outside the
    fragment and are rejected. *)

Fixpoint lookup_kw (k : string) (kw : list (string * string)) : option string :=
  match kw with
  | [] => None
  | (k', v) :: kw' => if String.eqb k k' then Some v else lookup_kw k kw'
  end.

Definition all_digits (s : string) : bool :=
  forallb is_digit (list_ascii_of_string s).

Definition prepend (p : string) (o : outcome string) : outcome string :=
  match o with
  | Ok s => Ok (p +:+ s)
  | Raise e => Raise e
  end.

Definition field_special (c : ascii) : bool :=
  Ascii.eqb c "{"%char || Ascii.eqb c "!"%char || Ascii.eqb c ":"%char
  || Ascii.eqb c "."%char || Ascii.eqb c "["%char.

Fixpoint format_from (kw : list (string * string)) (field : option string)
    (s : string) : outcome string :=
  match field, s with
  | None, EmptyString => Ok EmptyString
  | None, String c s' =>
      if Ascii.eqb c "{"%char then
        match s' with
        | EmptyString => Raise ValueError
        | String c' s'' =>
            if Ascii.eqb c' "{"%char then prepend "{" (format_from kw None s'')
            else format_from kw (Some EmptyString) s'
        end
      else if Ascii.eqb c "}"%char then
        match s' with
        | String c' s'' =>
            if Ascii.eqb c' "}"%char then prepend "}" (format_from kw None s'')
            else Raise ValueError
        | EmptyString => Raise ValueError
        end
      else prepend (String c EmptyString) (format_from kw None s')
  | Some name, EmptyString => Raise ValueError
  | Some name, String c s' =>
      if Ascii.eqb c "}"%char then
        let name := rev_string name in
        if all_digits name then Raise IndexError
        else match lookup_kw name kw with
             | Some v => prepend v (format_from kw None s')
             | None => Raise KeyError
             end
      else if field_special c then Raise ValueError
      else format_from kw (Some (String c name)) s'
  end.

Definition format (template : string) (kw : list (string * string))
    : outcome string :=
  format_from kw None template.

End Runtime.

#[global] Instance ascii_runtime : PyRuntime := {|
  str_lower := Runtime.lower;
  str_upper := Runtime.upper;
  str_strip := Runtime.strip;
  strptime := Runtime.parse_ymd;
  num_str := Runtime.show_num;
  num_fmt1 := Runtime.show_fmt1;
  str_format := Runtime.format
|}.


(** ** Specification-level vocabulary

    The definitions below do not embed code; they name what the
    properties talk about. *)

(** [emits P c]: running [c] only appends events to the history, and every
    event it appends satisfies [P]. *)
Definition emits {A} (P : event -> Prop) (c : eff A) : Prop :=
  forall h, exists new, snd (c h) = h ++ new /\ Forall P new.

Definition is_llm_event (prompt : string) (ev : event) : Prop :=
  match ev with
  | EvClassify p | EvGemini p => p = prompt
  | EvSleep _ => True
  | _ => False
  end.

(** The number of calls of [generate_content] recorded in a history. *)
Definition classify_calls (h : list event) : nat :=
  List.length (List.filter (fun ev => match ev with EvClassify _ => true | _ => false end) h).

Definition request_table (r : request) : string :=
  match r with
  | Get t _ | Post t _ | Patch t _ _ | Delete t _ => t
  end.

(** An operation on the lead table, of any kind. *)
Definition is_lead_op (ev : event) : bool :=
  match ev with
  | EvRequest r => String.eqb (request_table r) SHORTLISTED_LEADS_TABLE
  | _ => false
  end.

(** The creation of a record, in any table. *)
Definition is_create (ev : event) : bool :=
  match ev with
  | EvRequest (Post _ _) => true
  | _ => false
  end.

(** The write of a verdict onto an applicant record. *)
Definition status_write (record_id status : string) : event :=
  EvRequest (Patch APPLICANTS_TABLE record_id {[ "Shortlist Status" := VStr status ]}).

(** An event of an evaluator: a read outside the lead table, a call of
    the model, a pause or a geocoder lookup. *)
Definition is_evaluation (ev : event) : Prop :=
  is_lead_op ev = false /\ is_create ev = false.

Definition no_create (ev : event) : Prop := is_create ev = false.

(** The preferred rate in the base currency: the float that the division
    by the snapshot rate gives. *)
Definition converted_rate (rate snapshot_rate : Q) : spec_float :=
  round64 (rate / snapshot_rate).

(** A converted rate that is at most the configured maximum. *)
Definition within_maximum (converted : spec_float) : Prop :=
  float_le converted MAX_RATE_USD = true.

(** A pause that [time.sleep] takes: not negative, and of at most
    [10 ^ 8] seconds, some three years.  What a platform does with a
    longer pause that still fits the count of nanoseconds is not
    modelled, and no property is stated there. *)
Definition can_sleep (seconds : Z) : Prop := 0 <= seconds <= 100000000.



Section Vocabulary.
Context `{rt : PyRuntime} (w : World).

(** A work-history entry is well typed when its company is text (or
    missing) and its end date is not a number. *)
Definition entry_wf (experience_data : record) : bool :=
  let exp := rec_fields experience_data in
  match dict_get exp "Company" (VStr EmptyString) with
  | VStr _ => match dict_get_none exp "End" with
              | VNum _ => false
              | _ => true
              end
  | _ => false
  end.

(** The elapsed days of an entry: the difference between the parsed end
    and start dates, ["present"] standing for today; [None] when a date
    is missing or does not parse. *)
Definition entry_span (exp : gmap string value) : option Z :=
  let start_date_str := dict_get_none exp "Start" in
  let end_date_str := dict_get_none exp "End" in
  if truthy start_date_str && truthy end_date_str then
    match py_strptime start_date_str, end_date_str with
    | Ok start_date, VStr e =>
        if String.eqb (str_lower e) "present" then Some (today w - start_date)
        else match strptime e with
             | Some end_date => Some (end_date - start_date)
             | None => None
             end
    | _, _ => None
    end
  else None.

Definition entry_days (experience_data : record) : Z :=
  default 0 (entry_span (rec_fields experience_data)).

Definition sum_days (experiences : list record) : Z :=
  fold_right Z.add 0 (map entry_days experiences).

(** The prompt sent for an entry. *)
Definition entry_prompt (experience_data : record) : string :=
  match py_lower (dict_get (rec_fields experience_data) "Company" (VStr EmptyString)) with
  | Ok company => experience_prompt company
  | Raise _ => experience_prompt EmptyString
  end.

(** The answers of the Classification Port to the entries of a work
    history, asked in order from history [h], with the history reached. *)
Fixpoint classify_all (h : list event) (experiences : list record)
    : list (option string) * list event :=
  match experiences with
  | [] => ([], h)
  | x :: xs =>
      match classify w (entry_prompt x) h with
      | (Ok answer, h') =>
          let '(answers, h'') := classify_all h' xs in (answer :: answers, h'')
      | (Raise _, h') => ([], h')
      end
  end.

(** An entry as the loop sees it: the answer of the port and the span. *)
Definition observed : Type := option string * option Z.

Definition observe (h : list event) (experiences : list record) : list observed :=
  zip (fst (classify_all h experiences))
      (map (fun x => entry_span (rec_fields x)) experiences).

(** One iteration of the loop, on an observed entry. *)
Definition experience_step (st : exp_state) (o : observed) : exp_state :=
  let temp := temp_tier_1 st || is_yes (fst o) in
  match snd o with
  | Some days =>
      {| total_days := total_days st + days;
         worked_at_tier_1 := temp && (0 <? days);
         temp_tier_1 := temp |}
  | None =>
      {| total_days := total_days st;
         worked_at_tier_1 := worked_at_tier_1 st;
         temp_tier_1 := temp |}
  end.

Definition experience_fold (st : exp_state) (l : list observed) : exp_state :=
  fold_left experience_step l st.

(** The suffix of a reversed history that starts at its first (that is,
    most recent) entry with a span. *)
Fixpoint from_last_dated (rev_entries : list observed) : list observed :=
  match rev_entries with
  | [] => []
  | (answer, None) :: older => from_last_dated older
  | (answer, Some days) :: older => rev_entries
  end.

(** The flag as a property of the whole history: the last entry whose
    dates parse has a positive span, and that entry or one processed
    before it was classified ["Yes"]. *)
Definition tier_1_flag (l : list observed) : bool :=
  match from_last_dated (rev l) with
  | (answer, Some days) :: older =>
      (0 <? days) && existsb (fun o => is_yes (fst o)) ((answer, Some days) :: older)
  | _ => false
  end.

(** Every attempt on the model fails, at any time. *)
Definition model_always_fails : Prop :=
  forall h prompt, exists e, gemini w h prompt = Raise e.

(** The pass condition of the Experience Evaluator as the specification
    words it. *)
Definition experience_passes (total_years : Q) (worked : bool) : Prop :=
  ((MIN_YEARS_EXPERIENCE <= total_years)%Q \/ worked = true) /\ (0 < total_years)%Q.

End Vocabulary.


(** ** Concrete worlds

    Small worlds on which the engine runs by computation.  Their oracles
    do not look at the history: every table has a fixed content, and the
    model and the geocoder answer by the text they are given. *)

Module Examples.

Definition work_entry (company start_date end_date : string) : record :=
  mkRecord "recWork"
    (list_to_map [("Company", VStr company); ("Start", VStr start_date);
                  ("End", VStr end_date)]).

Definition salary_record (rate : Q) (currency : string) (hours : Q) : record :=
  mkRecord "recSalary"
    (list_to_map [("Preferred Rate", VNum rate); ("Currency", VStr currency);
                  ("Availability (hrs/wk)", VNum hours)]).

Definition personal_record (location : string) : record :=
  mkRecord "recPerson" (list_to_map [("Location", VStr location)]).

Definition applicant : record :=
  mkRecord "recApplicant" (list_to_map [("Applicant ID", VNum 7)]).

Record tables : Type := mkTables {
  work : list record;
  salary : list record;
  personal : list record;
  leads : list record
}.

Definition table_content (t : tables) (name : string) : list record :=
  if String.eqb name WORK_EXPERIENCE_TABLE then work t
  else if String.eqb name SALARY_PREFERENCES_TABLE then salary t
  else if String.eqb name PERSONAL_DETAILS_TABLE then personal t
  else if String.eqb name SHORTLISTED_LEADS_TABLE then leads t
  else if String.eqb name APPLICANTS_TABLE then [applicant]
  else [].

(** A model that holds Google, and nothing else, to be tier-1, and that
    matches no place name. *)
Definition model_google (prompt : string) : outcome (option string) :=
  if String.eqb prompt (experience_prompt "google") then Ok (Some "Yes")
  else Ok (Some "No").

(** A model that answers ["Yes"] to everything. *)
Definition model_yes (prompt : string) : outcome (option string) :=
  Ok (Some "Yes").

(** A model whose every attempt fails. *)
Definition model_down (prompt : string) : outcome (option string) :=
  Raise ServiceError.

(** A geocoder that knows Berlin only. *)
Definition geocoder_berlin (query : string) : outcome (option string) :=
  if String.eqb query "berlin" then Ok (Some "Berlin, Germany") else Ok None.

(** The snapshot: the integers 1 and 83 and the float [0.9]. *)
Definition rates : gmap string Q :=
  list_to_map [("USD", 1%Q); ("EUR", SF2Q (round64 (9 # 10))); ("INR", 83%Q)].

Definition world (t : tables) (model geocoder : string -> outcome (option string))
    : World :=
  {| http := fun _ r =>
               match r with
               | Get name _ => Ok (Some (table_content t name))
               | _ => Ok None
               end;
     gemini := fun _ prompt => model prompt;
     nominatim := fun _ query => geocoder query;
     today := 739923;
     CONVERSION_RATES := rates |}.

(** Five years at a company that is not tier-1, 50 USD an hour, 25 hours
    a week, in Berlin. *)
Definition steady : tables :=
  {| work := [work_entry "Infosys" "2019-01-01" "2024-01-01"];
     salary := [salary_record 50 "USD" 25];
     personal := [personal_record "Berlin"];
     leads := [] |}.

(** Work histories for the tier-1 flag: a day at Google that does not
    count, and a year at Infosys. *)
Definition google_no_days : record := work_entry "Google" "2020-01-01" "2020-01-01".
Definition infosys_year : record := work_entry "Infosys" "2020-01-01" "2021-01-01".

Definition career (experiences : list record) : World :=
  world {| work := experiences; salary := []; personal := []; leads := [] |}
    model_google geocoder_berlin.

(** A salary record with an availability and nothing else. *)
Definition no_rate : tables :=
  {| work := [work_entry "Infosys" "2019-01-01" "2024-01-01"];
     salary := [mkRecord "recSalary"
                  (list_to_map [("Availability (hrs/wk)", VNum 30)])];
     personal := [personal_record "Berlin"];
     leads := [] |}.

(** The steady applicant without a salary record. *)
Definition no_salary : tables :=
  {| work := work steady; salary := []; personal := personal steady; leads := [] |}.

(** The steady applicant in a place the geocoder does not know. *)
Definition lost : tables :=
  {| work := work steady; salary := salary steady;
     personal := [personal_record "Atlantis"]; leads := [] |}.

(** The steady applicant with braces in the location text. *)
Definition braces : tables :=
  {| work := work steady; salary := salary steady;
     personal := [personal_record "Remote {India}"]; leads := [] |}.

(** The steady applicant once the automation has created the lead. *)
Definition with_lead : tables :=
  {| work := work steady; salary := salary steady; personal := personal steady;
     leads := [mkRecord "recLead" ∅] |}.

End Examples.


(** ** Vocabulary for the retry loop *)

(** The events of [k] failed attempts on the model, the first of them
    numbered [first]: each attempt is followed by its pause. *)
Fixpoint failed_attempts (prompt : string) (backoff_factor first : Z) (k : nat)
    : list event :=
  match k with
  | O => []
  | S k' =>
      EvGemini prompt :: EvSleep (backoff_factor ^ first)
        :: failed_attempts prompt backoff_factor (first + 1) k'
  end.

(** The history at which attempt number [i] of a call of
    [generate_content] from history [h] is made, the earlier ones having
    failed. *)
Definition attempt_history (h : list event) (prompt : string) (backoff_factor : Z)
    (i : nat) : list event :=
  h ++ EvClassify prompt :: failed_attempts prompt backoff_factor 0 i.

(** The prompts of the calls of [generate_content] recorded in a history,
    oldest first. *)
Fixpoint classify_prompts (h : list event) : list string :=
  match h with
  | [] => []
  | EvClassify prompt :: h' => prompt :: classify_prompts h'
  | _ :: h' => classify_prompts h'
  end.

(** The number of lookups of the geocoder recorded in a history. *)
Fixpoint geocode_calls (h : list event) : nat :=
  match h with
  | [] => 0
  | EvGeocode _ :: h' => S (geocode_calls h')
  | _ :: h' => geocode_calls h'
  end.

(** The number of attempts on the model recorded in a history. *)
Fixpoint gemini_attempts (h : list event) : nat :=
  match h with
  | [] => 0
  | EvGemini _ :: h' => S (gemini_attempts h')
  | _ :: h' => gemini_attempts h'
  end.

Module MoreExamples.
Import Examples.

(** A model whose first attempt of the run fails and whose later
    attempts answer ["Yes"]. *)
Definition flaky : World :=
  {| http := http (world steady model_yes geocoder_berlin);
     gemini := fun h prompt =>
                 match gemini_attempts h with
                 | O => Raise ServiceError
                 | S _ => Ok (Some "Yes")
                 end;
     nominatim := fun _ query => geocoder_berlin query;
     today := 739923;
     CONVERSION_RATES := rates |}.

Definition fields_record (rid : string) (l : list (string * value)) : record :=
  mkRecord rid (list_to_map l).

(** A year at Google. *)
Definition google_year : record := work_entry "Google" "2020-01-01" "2021-01-01".

(** An entry whose end date came back as a number. *)
Definition numeric_end : record :=
  fields_record "recWork"
    [("Company", VStr "Infosys"); ("Start", VStr "2019-01-01"); ("End", VNum 2024)].

(** An entry whose company came back as a number. *)
Definition numeric_company : record :=
  fields_record "recWork"
    [("Company", VNum 42); ("Start", VStr "2019-01-01"); ("End", VStr "2024-01-01")].

(** An entry that ends before it starts. *)
Definition backwards : record := work_entry "Google" "2021-01-01" "2020-01-01".

Definition with_work (experiences : list record) : tables :=
  {| work := experiences; salary := salary steady; personal := personal steady;
     leads := [] |}.

Definition with_salary (fields : list (string * value)) : tables :=
  {| work := work steady; salary := [fields_record "recSalary" fields];
     personal := personal steady; leads := [] |}.

Definition with_personal (records : list record) : tables :=
  {| work := work steady; salary := salary steady; personal := records;
     leads := [] |}.

(** A geocoder that knows Berlin and Paris. *)
Definition geocoder_europe (query : string) : outcome (option string) :=
  if String.eqb query "berlin" then Ok (Some "Berlin, Germany")
  else if String.eqb query "paris" then Ok (Some "Paris, Ile-de-France, France")
  else Ok None.

(** A geocoder that is unreachable. *)
Definition geocoder_down (query : string) : outcome (option string) :=
  Raise ServiceError.

(** Airtable with the tables of [t], refusing every write. *)
Definition read_only (t : tables) : World :=
  {| http := fun _ r =>
               match r with
               | Get name _ => Ok (Some (table_content t name))
               | _ => Raise ServiceError
               end;
     gemini := fun _ prompt => model_yes prompt;
     nominatim := fun _ query => geocoder_berlin query;
     today := 739923;
     CONVERSION_RATES := rates |}.

(** Airtable unreachable. *)
Definition offline : World :=
  {| http := fun _ _ => Raise ServiceError;
     gemini := fun _ prompt => model_yes prompt;
     nominatim := fun _ query => geocoder_berlin query;
     today := 739923;
     CONVERSION_RATES := rates |}.

End MoreExamples.

(** A text without a comma. *)
Fixpoint comma_free (s : string) : bool :=
  match s with
  | EmptyString => true
  | String c s' => negb (Ascii.eqb c ","%char) && comma_free s'
  end.

Module ErrorExamples.
Import Examples MoreExamples.

(** A salary record whose preferred rate is an explicit null. *)
Definition null_rate : tables :=
  with_salary [("Preferred Rate", VNone); ("Currency", VStr "USD");
               ("Availability (hrs/wk)", VNum 25)].

(** A salary record whose availability is an explicit null. *)
Definition null_availability : tables :=
  with_salary [("Preferred Rate", VNum 50); ("Currency", VStr "USD");
               ("Availability (hrs/wk)", VNone)].

(** The float [1.38]. *)
Definition cad_rate : Q := SF2Q (round64 (138 # 100)).

(** 138 Canadian dollars an hour, 25 hours a week, at a snapshot rate of
    1.38. *)
Definition canadian : World :=
  let w := world (with_salary [("Preferred Rate", VNum 138); ("Currency", VStr "CAD");
                               ("Availability (hrs/wk)", VNum 25)])
             model_google geocoder_berlin in
  {| http := http w;
     gemini := gemini w;
     nominatim := nominatim w;
     today := today w;
     CONVERSION_RATES := <[ "CAD" := cad_rate ]> rates |}.

(** A personal record whose location is a number. *)
Definition numeric_location : tables :=
  with_personal [fields_record "recPerson" [("Location", VNum 10115)]].

Definition in_paris : tables :=
  with_personal [personal_record "Paris"].

End ErrorExamples.

Module BatchExamples.
Import Examples MoreExamples.

(** A record of the applicants table without an applicant id. *)
Definition no_id : record := fields_record "recNoId" [].

(** The steady world with three pending applicants, the second of which
    has no id. *)
Definition batch : World :=
  {| http := fun _ r =>
               match r with
               | Get name _ =>
                   if String.eqb name APPLICANTS_TABLE
                   then Ok (Some [applicant; no_id; applicant])
                   else Ok (Some (table_content steady name))
               | _ => Ok None
               end;
     gemini := fun _ prompt => model_google prompt;
     nominatim := fun _ query => geocoder_berlin query;
     today := 739923;
     CONVERSION_RATES := rates |}.

End BatchExamples.


(** ** [llm_evaluate.py]

    The script that asks the model for a summary of every new applicant
    and writes the parsed answer back.  It is a caller of
    [LLMClient.generate_content], [LLMClient.with_template] and of the
    Airtable client. *)

Module LLMEvaluate.

(** *** The regular expressions of [parse_llm_response]

    [re.search] tries the pattern at every position from the left and
    answers with the first match.  Each of the four patterns starts with
    a literal label, so a match at a position is decided by what follows
    the label there.

    Texts are strings of bytes, and the digits are the ASCII digits: on
    ASCII text that is what [\d] matches and what [int] reads.  In
    Python [\d] also matches the decimal digits of other scripts; the
    properties of the parsed score are stated for ASCII answers
    ([ascii_text]). *)

(** [starts_with p s]: what follows [p] when [s] starts with [p]. *)
Fixpoint starts_with (p s : string) : option string :=
  match p, s with
  | EmptyString, _ => Some s
  | String a p', String b s' => if Ascii.eqb a b then starts_with p' s' else None
  | String _ _, EmptyString => None
  end.

Definition is_newline (c : ascii) : bool := Ascii.eqb c (ascii_of_nat 10).

(** The characters up to the first newline, and whether there is one. *)
Fixpoint take_line (s : string) : string * bool :=
  match s with
  | EmptyString => (EmptyString, false)
  | String c s' =>
      if is_newline c then (EmptyString, true)
      else let '(line, found) := take_line s' in (String c line, found)
  end.

(** The longest run of digits at the head, and what follows it. *)
Fixpoint take_digits (s : string) : string * string :=
  match s with
  | EmptyString => (EmptyString, EmptyString)
  | String c s' =>
      if Runtime.is_digit c
      then let '(ds, rest) := take_digits s' in (String c ds, rest)
      else (EmptyString, s)
  end.

Definition is_empty (s : string) : bool :=
  match s with EmptyString => true | _ => false end.

(** [label(.+?)\n] at the head of [s]. *)
Definition match_line (label s : string) : option string :=
  match starts_with label s with
  | Some rest =>
      let '(line, found) := take_line rest in
      if found && negb (is_empty line) then Some line else None
  | None => None
  end.

(** [Score: (\d+)\n] at the head of [s]. *)
Definition match_score (s : string) : option string :=
  match starts_with "Score: " s with
  | Some rest =>
      let '(ds, after) := take_digits rest in
      match after with
      | String c _ => if is_newline c && negb (is_empty ds) then Some ds else None
      | EmptyString => None
      end
  | None => None
  end.

(** Where a lazy [(.+?)$] stops on the rest of the text: at its end, or
    before a newline that ends it. *)
Fixpoint dollar_trim (s : string) : string :=
  match s with
  | EmptyString => EmptyString
  | String c EmptyString => String c EmptyString
  | String c (String d EmptyString) =>
      if is_newline d then String c EmptyString
      else String c (String d EmptyString)
  | String c s' => String c (dollar_trim s')
  end.

(** [Follow-Ups:(.+?)$] with [re.DOTALL] at the head of [s]. *)
Definition match_follow_ups (s : string) : option string :=
  match starts_with "Follow-Ups:" s with
  | Some rest => if is_empty rest then None else Some (dollar_trim rest)
  | None => None
  end.

(** [re.search]: the first position at which the pattern matches. *)
Fixpoint search {A} (match_at : string -> option A) (s : string) : option A :=
  match match_at s with
  | Some x => Some x
  | None =>
      match s with
      | EmptyString => None
      | String _ s' => search match_at s'
      end
  end.

(** [int(digits)] on a run of ASCII digits; CPython refuses more than
    4300 digits with [ValueError]. *)
Definition py_int (digits : string) : outcome Z :=
  if (4300 <? String.length digits)%nat then Raise ValueError
  else match Runtime.digits_value 0 digits with
       | Some n => Ok n
       | None => Raise ValueError
       end.

Definition PROMPT_HEAD : string :=
  "You are a world-class recruiting analyst. "
  +:+ "I will provide you with a JSON object containing an applicant's "
  +:+ "profile." +:+ nl +:+ "Your task is to analyze the profile and do four things "
  +:+ "EXACTLY as specified below." +:+ nl +:+ nl +:+ "JSON Profile:" +:+ nl.

Definition PROMPT_TAIL : string :=
  nl +:+ nl
  +:+ "Based on the profile, provide the following four items. Return ONLY "
  +:+ "the text for these four items and nothing else. Follow the format "
  +:+ "precisely." +:+ nl +:+ nl
  +:+ "Summary: <A concise summary of the applicant's profile in 75 words or "
  +:+ "less.>" +:+ nl
  +:+ "Score: <An integer quality score from 1 to 10, where 10 is best.>" +:+ nl
  +:+ "Issues: <A comma-separated list of any missing, incomplete, or "
  +:+ "contradictory fields. If there are no issues, write 'None'.>" +:+ nl
  +:+ "Follow-Ups: <A bulleted list of up to three follow-up questions to ask "
  +:+ "the candidate to clarify gaps or learn more. If none, write 'None'.>" +:+ nl.

Definition PROMPT_TEMPLATE : string :=
  PROMPT_HEAD +:+ "{json_data}" +:+ PROMPT_TAIL.

Definition evaluation_filter : string :=
  "AND({Compressed JSON} != '', {LLM Summary} = '')".

Definition parse_error_fields : gmap string value :=
  {[ "LLM Summary" := VStr "Error: Failed to parse LLM response." ]}.

Section Script.
Context `{rt : PyRuntime} (w : World).

(** [LLMClient.with_template]. *)
Definition with_template (template : string) (kwargs : list (string * string))
    : outcome string :=
  str_format template kwargs.

(** The value of [parsed_data] after the three [if]s, [Raise] when
    [int] refuses the score. *)
Definition parsed_fields (text : string) : outcome (gmap string value) :=
  let summaries := search (match_line "Summary: ") text in
  let score := search match_score text in
  let issues := search (match_line "Issues: ") text in
  let follow_ups := search match_follow_ups text in
  let with_summary : gmap string value :=
    match summaries with
    | Some g => <[ "LLM Summary" := VStr g ]> ∅
    | None => ∅
    end in
  match (match score with
         | Some g =>
             match py_int g with
             | Ok n => Ok (<[ "LLM Score" := VNum (inject_Z n) ]> with_summary)
             | Raise e => Raise e
             end
         | None => Ok with_summary
         end) with
  | Raise e => Raise e
  | Ok with_score =>
      Ok (match follow_ups with
          | Some g =>
              <[ "LLM Follow-Ups" :=
                   VStr (str_strip g
                         +:+ match issues with
                             | Some gi => nl +:+ "(Issues: " +:+ gi +:+ ")"
                             | None => EmptyString
                             end) ]> with_score
          | None => with_score
          end)
  end.

(** [None] is Python's [None], returned from the [except] clause. *)
Definition parse_llm_response (response_text : string)
    : option (gmap string value) :=
  match parsed_fields (str_strip response_text) with
  | Ok parsed_data => Some parsed_data
  | Raise _ => None
  end.

Definition fetch_applicants : eff (list record) :=
  response ← fetch_records w APPLICANTS_TABLE evaluation_filter;
  ret (default [] response).

Definition evaluate_applicant (json_str : value)
    : eff (option (gmap string value)) :=
  prompt ← lift (with_template PROMPT_TEMPLATE [("json_data", py_str json_str)]);
  llm_response ← generate_content w prompt 3 2;
  match llm_response with
  | Some text =>
      if is_empty text then ret None else ret (parse_llm_response text)
  | None => ret None
  end.

(** [if parsed_data:] holds for a dictionary with at least one key. *)
Definition usable (parsed_data : option (gmap string value)) : bool :=
  match parsed_data with
  | Some d => if decide (d = ∅) then false else true
  | None => false
  end.

(** The body of [for record in applicants]. *)
Definition evaluate_record (record : record) : eff unit :=
  let record_id := rec_id record in
  let json_str := dict_get_none (rec_fields record) "Compressed JSON" in
  if negb (truthy json_str) then ret tt
  else
    parsed_data ← evaluate_applicant json_str;
    match parsed_data with
    | Some d =>
        if usable parsed_data
        then (_ ← update_record w APPLICANTS_TABLE record_id d; ret tt)
        else (_ ← update_record w APPLICANTS_TABLE record_id parse_error_fields;
              ret tt)
    | None =>
        _ ← update_record w APPLICANTS_TABLE record_id parse_error_fields;
        ret tt
    end.

Definition main : eff unit :=
  try_except
    (applicants ← fetch_applicants;
     match applicants with
     | [] => ret tt
     | _ => for_each (fun _ record => evaluate_record record) applicants tt
     end)
    (fun _ => true)
    (fun _ => ret tt).

End Script.

End LLMEvaluate.


(** ** Vocabulary for the parsed answers of the model *)

(** [occurs label s]: [label] is found somewhere in [s]. *)
Fixpoint occurs (label s : string) : bool :=
  match LLMEvaluate.starts_with label s with
  | Some _ => true
  | None =>
      match s with
      | EmptyString => false
      | String _ s' => occurs label s'
      end
  end.

(** A text without a newline. *)
Fixpoint one_line (s : string) : bool :=
  match s with
  | EmptyString => true
  | String c s' => negb (LLMEvaluate.is_newline c) && one_line s'
  end.

(** A text made of ASCII digits. *)
Fixpoint digits_only (s : string) : bool :=
  match s with
  | EmptyString => true
  | String c s' => Runtime.is_digit c && digits_only s'
  end.

(** A text of ASCII characters. *)
Fixpoint ascii_text (s : string) : bool :=
  match s with
  | EmptyString => true
  | String c s' => (nat_of_ascii c <? 128)%nat && ascii_text s'
  end.

(** A text that ends with a newline. *)
Fixpoint ends_with_newline (s : string) : bool :=
  match s with
  | EmptyString => false
  | String c EmptyString => LLMEvaluate.is_newline c
  | String _ s' => ends_with_newline s'
  end.

(** An answer in the format the prompt asks for. *)
Definition render_response (summary score issues follow_ups : string) : string :=
  "Summary: " +:+ summary +:+ nl
  +:+ "Score: " +:+ score +:+ nl
  +:+ "Issues: " +:+ issues +:+ nl
  +:+ "Follow-Ups:" +:+ follow_ups.

(** What [llm_evaluate.main] writes on an applicant, given the answer of
    [generate_content]: the parsed fields when there is at least one, the
    error marker otherwise. *)
Definition evaluation_fields `{rt : PyRuntime} (answer : option string)
    : gmap string value :=
  match answer with
  | Some text =>
      if LLMEvaluate.is_empty text then LLMEvaluate.parse_error_fields
      else match LLMEvaluate.parse_llm_response text with
           | Some d => if decide (d = ∅) then LLMEvaluate.parse_error_fields else d
           | None => LLMEvaluate.parse_error_fields
           end
  | None => LLMEvaluate.parse_error_fields
  end.

Module EvaluateExamples.
Import Examples MoreExamples.

Definition profile : record :=
  fields_record "recNew" [("Compressed JSON", VStr "{}")].

Definition answer : string :=
  render_response "Strong backend engineer." "8" "None" " - Why leave?".

(** Airtable with one applicant to evaluate, accepting every write, and
    a given model. *)
Definition desk (model : string -> outcome (option string)) : World :=
  {| http := fun _ r =>
               match r with
               | Get _ _ => Ok (Some [profile])
               | _ => Ok None
               end;
     gemini := fun _ prompt => model prompt;
     nominatim := fun _ query => geocoder_berlin query;
     today := 739923;
     CONVERSION_RATES := rates |}.

End EvaluateExamples.


(** ** [decompress.py]

    The script that spreads the compressed profile of an applicant over
    the three child tables.  It talks to Airtable through [requests]
    directly, so an HTTP error status only raises where the code calls
    [raise_for_status].  Field values are JSON scalars and lists (linked
    records are lists of record ids).  The body of [main] decodes the
    profile with [json.loads] and is not embedded; its helpers are. *)

Module Decompress.

#[warnings="-register-all"]
Inductive jvalue : Type :=
  | JNull
  | JNum (q : Q)
  | JStr (s : string)
  | JList (items : list jvalue).

(** A record as Airtable lists it: it always has an ["id"], so it is a
    non-empty dictionary; a missing ["fields"] entry is the empty map. *)
Record airtable_record : Type := mkAirtableRecord {
  record_id : string;
  record_fields : gmap string jvalue
}.

Inductive error : Type :=
  | HTTPError            (* [raise_for_status] on a 4xx or 5xx answer *)
  | RequestException     (* the round-trip itself failed *)
  | IndexError
  | TypeError
  | KeyError.

(** The calls of [requests]: [params] is the query dictionary of a GET,
    [payload] the ["fields"] entry of the JSON body. *)
Inductive call : Type :=
  | GET (table_name : string) (params : gmap string jvalue)
  | DELETE (table_name record_id : string)
  | PATCH (table_name record_id : string) (payload : gmap string jvalue)
  | POST (table_name : string) (payload : gmap string jvalue).

(** An HTTP answer: whether the status is below 400, and the ["records"]
    and ["offset"] entries of the body ([None] and [JNull] when
    absent). *)
Record response : Type := mkResponse {
  ok : bool;
  data_records : option (list airtable_record);
  data_offset : jvalue
}.

(** The server answers a call at the history of the calls made so far. *)
Definition server : Type := list call -> call -> error + response.

Definition io (A : Type) : Type := list call -> (error + A) * list call.

Definition io_ret {A} (a : A) : io A := fun h => (inr a, h).

Definition io_bind {A B} (c : io A) (k : A -> io B) : io B :=
  fun h =>
    match c h with
    | (inr a, h') => k a h'
    | (inl e, h') => (inl e, h')
    end.

Definition io_lift {A} (r : error + A) : io A := fun h => (r, h).

#[global] Instance io_mret : MRet io := @io_ret.
#[global] Instance io_mbind : MBind io := fun A B k c => io_bind c k.

Definition WORK_EXPERIENCE_TABLE : string := "Work Experience".

(** Truthiness of a JSON value. *)
Definition truthy (v : jvalue) : bool :=
  match v with
  | JNull => false
  | JNum q => negb (Qeq_bool q 0)
  | JStr s => negb (String.eqb s EmptyString)
  | JList items => match items with [] => false | _ => true end
  end.

(** [v[0]]. *)
Definition subscript0 (v : jvalue) : error + jvalue :=
  match v with
  | JList (x :: _) => inr x
  | JList [] => inl IndexError
  | JStr (String c _) => inr (JStr (String c EmptyString))
  | JStr EmptyString => inl IndexError
  | JNull | JNum _ => inl TypeError
  end.

(** [a == b]. *)
Fixpoint jvalue_eqb (a b : jvalue) : bool :=
  match a, b with
  | JNull, JNull => true
  | JNum p, JNum q => Qeq_bool p q
  | JStr s, JStr t => String.eqb s t
  | JList l, JList m =>
      (fix items_eqb (l m : list jvalue) : bool :=
         match l, m with
         | [], [] => true
         | x :: l', y :: m' => jvalue_eqb x y && items_eqb l' m'
         | _, _ => false
         end) l m
  | _, _ => false
  end.

(** [fields.get("Applicants", [None])[0]]. *)
Definition first_applicant (record : airtable_record) : error + jvalue :=
  subscript0 (dict_get (record_fields record) "Applicants" (JList [JNull])).

Fixpoint find_existing_record (records : list airtable_record) (applicant_id : jvalue)
    : error + option airtable_record :=
  match records with
  | [] => inr None
  | record :: rest =>
      match first_applicant record with
      | inl e => inl e
      | inr first =>
          if jvalue_eqb first applicant_id then inr (Some record)
          else find_existing_record rest applicant_id
      end
  end.

Section Script.
Variable airtable : server.

(** One call of [requests]: record it and ask the server. *)
Definition request (c : call) : io response :=
  fun h => (airtable h c, h ++ [c]).

Definition raise_for_status (r : response) : io unit :=
  if ok r then io_ret tt else io_lift (inl HTTPError).

(** The [while True] loop of [get_all_records]; [None] when the fuel
    runs out before a page comes without an offset. *)
Fixpoint get_all_records_loop (fuel : nat) (table_name : string)
    (params : gmap string jvalue) (records : list airtable_record)
    : io (option (list airtable_record)) :=
  match fuel with
  | O => io_ret None
  | S fuel' =>
      r ← request (GET table_name params);
      _ ← raise_for_status r;
      let records' := records ++ default [] (data_records r) in
      let offset := data_offset r in
      if negb (truthy offset) then io_ret (Some records')
      else get_all_records_loop fuel' table_name (<[ "offset" := offset ]> params)
             records'
  end.

Definition get_all_records (fuel : nat) (table_name : string)
    (filterByFormula fields : jvalue) : io (option (list airtable_record)) :=
  let params : gmap string jvalue := ∅ in
  let params := if truthy filterByFormula
                then <[ "filterByFormula" := filterByFormula ]> params
                else params in
  let params := if truthy fields then <[ "fields[]" := fields ]> params
                else params in
  get_all_records_loop fuel table_name params [].

Fixpoint delete_work_experience_for_applicant
    (work_experiences : list airtable_record) (applicant_id : jvalue) : io unit :=
  match work_experiences with
  | [] => io_ret tt
  | record :: rest =>
      first ← io_lift (first_applicant record);
      _ ← (if jvalue_eqb first applicant_id
           then (r ← request (DELETE WORK_EXPERIENCE_TABLE (record_id record));
                 raise_for_status r)
           else io_ret tt);
      delete_work_experience_for_applicant rest applicant_id
  end.

Definition upsert_single_record (table_name : string)
    (present_records : list airtable_record)
    (applicant_record : gmap string jvalue) : io unit :=
  applicants ← io_lift (match applicant_record !! "Applicants" with
                        | Some v => inr v
                        | None => inl KeyError
                        end);
  applicant_id ← io_lift (subscript0 applicants);
  existing ← io_lift (find_existing_record present_records applicant_id);
  match existing with
  | Some found =>
      _ ← request (PATCH table_name (record_id found) applicant_record);
      io_ret tt
  | None =>
      r ← request (POST table_name applicant_record);
      raise_for_status r
  end.

Fixpoint post_each (applicant_records : list (gmap string jvalue)) : io unit :=
  match applicant_records with
  | [] => io_ret tt
  | exp :: rest =>
      r ← request (POST WORK_EXPERIENCE_TABLE exp);
      _ ← raise_for_status r;
      post_each rest
  end.

Definition upsert_work_experience (applicant_id : jvalue)
    (present_work_exp_records : list airtable_record)
    (applicant_records : list (gmap string jvalue)) : io unit :=
  _ ← delete_work_experience_for_applicant present_work_exp_records applicant_id;
  post_each applicant_records.

End Script.

(** *** Vocabulary *)

(** A record that is linked to an applicant other than [applicant_id]. *)
Definition other_applicant (applicant_id : jvalue) (record : airtable_record) : Prop :=
  exists first, first_applicant record = inr first
                /\ jvalue_eqb first applicant_id = false.

(** A record that is linked to [applicant_id]. *)
Definition same_applicant (applicant_id : jvalue) (record : airtable_record) : Prop :=
  exists first, first_applicant record = inr first
                /\ jvalue_eqb first applicant_id = true.

(** The test of the loops, as a boolean, on records whose link can be
    read. *)
Definition linked_to (applicant_id : jvalue) (record : airtable_record) : bool :=
  match first_applicant record with
  | inr first => jvalue_eqb first applicant_id
  | inl _ => false
  end.

Definition readable (record : airtable_record) : Prop :=
  exists first, first_applicant record = inr first.

(** A server that accepts every call. *)
Definition always_ok (airtable : server) : Prop :=
  forall h c, exists r, airtable h c = inr r /\ ok r = true.

(** The pages a server hands out for a table, from history [h] and query
    [params]: every page but the last carries an offset, which the next
    query repeats. *)
Fixpoint serves (airtable : server) (table_name : string) (h : list call)
    (params : gmap string jvalue) (pages : list response) : Prop :=
  match pages with
  | [] => False
  | page :: later =>
      airtable h (GET table_name params) = inr page
      /\ ok page = true
      /\ match later with
         | [] => truthy (data_offset page) = false
         | _ => truthy (data_offset page) = true
                /\ serves airtable table_name (h ++ [GET table_name params])
                     (<[ "offset" := data_offset page ]> params) later
         end
  end.

(** The queries that fetch those pages. *)
Fixpoint page_queries (table_name : string) (params : gmap string jvalue)
    (pages : list response) : list call :=
  match pages with
  | [] => []
  | page :: later =>
      GET table_name params
        :: page_queries table_name (<[ "offset" := data_offset page ]> params) later
  end.

Definition page_records (pages : list response) : list airtable_record :=
  concat (map (fun page => default [] (data_records page)) pages).

(** *** Examples *)

Definition linked (rid applicant : string) : airtable_record :=
  mkAirtableRecord rid {[ "Applicants" := JList [JStr applicant] ]}.

Definition unlinked (rid : string) : airtable_record :=
  mkAirtableRecord rid {[ "Company" := JStr "Infosys" ]}.

Definition empty_link (rid : string) : airtable_record :=
  mkAirtableRecord rid {[ "Applicants" := JList [] ]}.

(** A server that accepts every call and has nothing to list. *)
Definition accepting : server :=
  fun _ _ => inr (mkResponse true None JNull).

(** A server that answers every call with an error status. *)
Definition refusing : server :=
  fun _ _ => inr (mkResponse false None JNull).

Definition page_one : response :=
  mkResponse true (Some [linked "rec1" "recA"; linked "rec2" "recB"]) (JStr "itr2").

Definition page_two : response :=
  mkResponse true (Some [linked "rec3" "recA"]) JNull.

(** A server that lists a table in two pages. *)
Definition paging : server :=
  fun _ c =>
    match c with
    | GET _ params =>
        match params !! "offset" with
        | Some _ => inr page_two
        | None => inr page_one
        end
    | _ => inr (mkResponse true None JNull)
    end.

End Decompress.


(** * Properties *)

(** ** The effect monad *)

Ltac eff_unfold :=
  unfold mbind, eff_bind, mret, eff_ret, bind, ret, raise, lift, try_except,
    perform in *.

Lemma bind_ok {A B} (c : eff A) (k : A -> eff B) h a h' :
  c h = (Ok a, h') -> (x ← c; k x) h = k a h'.
Proof. intros Hc. eff_unfold. now rewrite Hc. Qed.

Lemma bind_raise {A B} (c : eff A) (k : A -> eff B) h e h' :
  c h = (Raise e, h') -> (x ← c; k x) h = (Raise e, h').
Proof. intros Hc. eff_unfold. now rewrite Hc. Qed.

Lemma emits_ret {A} P (a : A) : emits P (ret a).
Proof. intros h. exists []. simpl. rewrite app_nil_r. auto. Qed.

Lemma emits_raise {A} P e : emits P (@raise A e).
Proof. intros h. exists []. simpl. rewrite app_nil_r. auto. Qed.

Lemma emits_lift {A} P (o : outcome A) : emits P (lift o).
Proof. intros h. exists []. simpl. rewrite app_nil_r. auto. Qed.

Lemma emits_perform {A} (P : event -> Prop) ev (oracle : list event -> outcome A) :
  P ev -> emits P (perform ev oracle).
Proof. intros Hev h. exists [ev]. simpl. auto. Qed.

Lemma emits_bind {A B} P (c : eff A) (k : A -> eff B) :
  emits P c -> (forall a, emits P (k a)) -> emits P (x ← c; k x).
Proof.
  intros Hc Hk h. destruct (Hc h) as (n1 & E1 & F1).
  eff_unfold. destruct (c h) as [[a|e] h1]; simpl in *; subst h1.
  - destruct (Hk a (h ++ n1)) as (n2 & E2 & F2).
    exists (n1 ++ n2). rewrite E2, app_assoc. split; [reflexivity|].
    apply Forall_app; auto.
  - exists n1. auto.
Qed.

Lemma emits_try_except {A} P (c : eff A) handled handler :
  emits P c -> (forall e, emits P (handler e)) -> emits P (try_except c handled handler).
Proof.
  intros Hc Hk h. destruct (Hc h) as (n1 & E1 & F1).
  eff_unfold. destruct (c h) as [[a|e] h1]; simpl in *; subst h1.
  - exists n1. auto.
  - destruct (handled e).
    + destruct (Hk e (h ++ n1)) as (n2 & E2 & F2).
      exists (n1 ++ n2). rewrite E2, app_assoc. split; [reflexivity|].
      apply Forall_app; auto.
    + exists n1. auto.
Qed.

Lemma emits_for_each {S A} P (body : S -> A -> eff S) l :
  (forall st x, emits P (body st x)) -> forall st, emits P (for_each body l st).
Proof.
  intros Hb. induction l as [|x xs IH]; intros st; simpl.
  - apply emits_ret.
  - apply emits_bind; auto.
Qed.

Lemma emits_weaken {A} (P Q : event -> Prop) (c : eff A) :
  (forall ev, P ev -> Q ev) -> emits P c -> emits Q c.
Proof.
  intros HPQ Hc h. destruct (Hc h) as (n & E & F).
  exists n. split; [assumption|]. eapply Forall_impl; eauto.
Qed.

(** ** The Classification Port *)

Section Port.
Context `{rt : PyRuntime} (w : World).

Lemma classify_calls_app h1 h2 :
  classify_calls (h1 ++ h2) = (classify_calls h1 + classify_calls h2)%nat.
Proof. unfold classify_calls. now rewrite List.filter_app, List.length_app. Qed.

(** A pause of a length that [time.sleep] accepts. *)
Lemma sleep_run seconds h :
  0 <= seconds <= SLEEP_MAX -> sleep seconds h = (Ok tt, h ++ [EvSleep seconds]).
Proof.
  intros [Hlo Hhi]. unfold sleep.
  replace (seconds <? - SLEEP_MAX) with false
    by (symmetry; apply Z.ltb_ge; unfold SLEEP_MAX; lia).
  replace (SLEEP_MAX <? seconds) with false by (symmetry; apply Z.ltb_ge; lia).
  replace (seconds <? 0) with false by (symmetry; apply Z.ltb_ge; lia).
  reflexivity.
Qed.

(** The retry loop never raises when its pauses are ones that
    [time.sleep] accepts, whatever attempts remain. *)
Lemma generate_content_loop_returns prompt max_retries backoff_factor attempts :
  Forall (fun attempt => 0 <= backoff_factor ^ attempt <= SLEEP_MAX) attempts ->
  forall h, exists answer new,
    generate_content_loop w prompt max_retries backoff_factor attempts h
    = (Ok answer, h ++ new)
    /\ Forall (is_llm_event prompt) new
    /\ classify_calls new = 0%nat.
Proof.
  induction 1 as [|attempt rest Hsleep _ IH]; intros h; simpl.
  - exists None, []. rewrite app_nil_r. auto.
  - eff_unfold. destruct (gemini w h prompt) as [text|e].
    + exists text, [EvGemini prompt]. repeat split; repeat constructor; simpl; auto.
    + destruct (attempt <? max_retries - 1).
      * rewrite (sleep_run _ _ Hsleep).
        destruct (IH ((h ++ [EvGemini prompt]) ++ [EvSleep (backoff_factor ^ attempt)]))
          as (answer & new & E & F & C).
        exists answer, (EvGemini prompt :: EvSleep (backoff_factor ^ attempt) :: new).
        rewrite E, <- !app_assoc. simpl. repeat split; auto.
        repeat constructor; simpl; auto.
      * exists None, [EvGemini prompt]. repeat split; repeat constructor; simpl; auto.
Qed.

Lemma classify_pauses :
  Forall (fun attempt => 0 <= 2 ^ attempt <= SLEEP_MAX) (range 3).
Proof. repeat constructor; vm_compute; discriminate. Qed.

(** A call of the port, [generate_content] with its default three
    attempts and pauses of 1 and 2 seconds, never raises: it answers
    with a text or with [None], and records itself once. *)
Lemma classify_returns prompt h :
  exists answer new,
    classify w prompt h = (Ok answer, h ++ EvClassify prompt :: new)
    /\ Forall (is_llm_event prompt) new
    /\ classify_calls new = 0%nat.
Proof.
  unfold classify, generate_content. eff_unfold.
  destruct (generate_content_loop_returns prompt 3 2 (range 3) classify_pauses
              (h ++ [EvClassify prompt]))
    as (answer & new & E & F & C).
  exists answer, new. rewrite E, <- app_assoc. auto.
Qed.

End Port.


(** ** The Experience Evaluator *)

Section Experience.
Context `{rt : PyRuntime} (w : World).

(** One iteration on a well-typed entry: a call of the port, then the
    step on what was observed. *)
Lemma experience_body_run st x h :
  entry_wf x = true ->
  exists answer h',
    classify w (entry_prompt x) h = (Ok answer, h')
    /\ experience_body w st x h
       = (Ok (experience_step st (answer, entry_span w (rec_fields x))), h').
Proof.
  intros Hwf. unfold entry_wf in Hwf.
  destruct (classify_returns w (entry_prompt x) h) as (answer & new & E & _ & _).
  exists answer, (h ++ EvClassify (entry_prompt x) :: new). split; [exact E|].
  unfold experience_body, entry_prompt in *.
  destruct (dict_get (rec_fields x) "Company" (VStr EmptyString)) as [|q|company];
    try discriminate.
  cbn [py_lower] in *. eff_unfold. rewrite E.
  unfold experience_dates, entry_span, experience_step. cbn [fst snd].
  destruct st as [total worked temp]. cbn [temp_tier_1 total_days worked_at_tier_1].
  destruct (dict_get_none (rec_fields x) "End") as [|q|e]; try discriminate;
    destruct (dict_get_none (rec_fields x) "Start") as [|q|s];
    destruct (is_yes answer); cbn -[String.eqb Z.add Z.sub Z.ltb];
    rewrite ?orb_true_r, ?orb_false_r, ?andb_false_r; eff_unfold;
    try reflexivity;
    repeat match goal with
      | |- context [negb (Qeq_bool ?q 0)] => destruct (Qeq_bool q 0); cbn -[String.eqb Z.add Z.sub Z.ltb]
      | |- context [negb (String.eqb ?s EmptyString)] => destruct (String.eqb s EmptyString); cbn -[String.eqb Z.add Z.sub Z.ltb]
      | |- context [strptime ?s] => destruct (strptime s); cbn -[String.eqb Z.add Z.sub Z.ltb]
      | |- context [String.eqb (str_lower ?s) "present"] =>
          destruct (String.eqb (str_lower s) "present"); cbn -[String.eqb Z.add Z.sub Z.ltb]
      end;
    rewrite ?orb_true_r, ?orb_false_r, ?andb_false_r; try reflexivity.
Qed.

Lemma classify_all_cons h x xs answer h' :
  classify w (entry_prompt x) h = (Ok answer, h') ->
  classify_all w h (x :: xs)
  = (answer :: fst (classify_all w h' xs), snd (classify_all w h' xs)).
Proof.
  intros E. simpl. rewrite E. now destruct (classify_all w h' xs).
Qed.

(** The loop of [check_experience] is the fold of [experience_step] over
    the observed entries; it never raises on well-typed entries. *)
Lemma experience_loop_run experiences :
  Forall (fun x => entry_wf x = true) experiences ->
  forall st h,
    for_each (experience_body w) experiences st h
    = (Ok (experience_fold st (observe w h experiences)),
       snd (classify_all w h experiences)).
Proof.
  induction 1 as [|x xs Hx Hxs IH]; intros st h.
  - reflexivity.
  - destruct (experience_body_run st x h Hx) as (answer & h' & Ec & Eb).
    cbn [for_each]. rewrite (bind_ok _ _ _ _ _ Eb), IH.
    unfold observe. rewrite (classify_all_cons _ _ _ _ _ Ec). reflexivity.
Qed.


Lemma classify_all_length experiences :
  forall h, List.length (fst (classify_all w h experiences)) = List.length experiences.
Proof.
  induction experiences as [|x xs IH]; intros h; [reflexivity|].
  destruct (classify_returns w (entry_prompt x) h) as (answer & new & E & _).
  rewrite (classify_all_cons _ _ _ _ _ E). simpl. now rewrite IH.
Qed.

Lemma observe_spans h experiences :
  map snd (observe w h experiences)
  = map (fun x => entry_span w (rec_fields x)) experiences.
Proof.
  unfold observe. apply snd_zip.
  rewrite length_map. pose proof (classify_all_length experiences h) as E.
  unfold length in *. lia.
Qed.

Lemma observe_answers h experiences :
  map fst (observe w h experiences) = fst (classify_all w h experiences).
Proof.
  unfold observe. apply fst_zip.
  rewrite length_map. pose proof (classify_all_length experiences h) as E.
  unfold length in *. lia.
Qed.

(** The day counter adds up the spans, whatever the answers of the port. *)
Lemma experience_fold_total l :
  forall st,
    total_days (experience_fold st l)
    = total_days st + fold_right Z.add 0 (map (fun o => default 0 (snd o)) l).
Proof.
  unfold experience_fold.
  induction l as [|[answer span] l IH]; intros st; cbn [fold_left map fold_right].
  - lia.
  - rewrite IH. unfold experience_step. destruct span; simpl; lia.
Qed.

Lemma observe_total h experiences :
  total_days (experience_fold exp_init (observe w h experiences))
  = sum_days w experiences.
Proof.
  rewrite experience_fold_total. simpl. unfold sum_days, entry_days.
  f_equal. rewrite <- (map_map snd (fun o => default 0 o)), observe_spans.
  now rewrite map_map.
Qed.

Lemma years_positive (days : Z) :
  negb (Qle_bool (total_years_of days) 0) = true <-> (0 < total_years_of days)%Q.
Proof.
  rewrite negb_true_iff. split.
  - intros Hn. apply Qnot_le_lt. intros Hle.
    apply Qle_bool_iff in Hle. congruence.
  - intros Hlt. destruct (Qle_bool (total_years_of days) 0) eqn:E; [|reflexivity].
    apply Qle_bool_iff in E. exfalso. eapply Qlt_not_le; eauto.
Qed.

Lemma experience_verdict_passes st :
  fst (experience_verdict st) = true
  <-> experience_passes (total_years_of (total_days st)) (worked_at_tier_1 st).
Proof.
  unfold experience_verdict, experience_passes.
  destruct (_ && _) eqn:E; cbn [fst].
  - split; [intros _|reflexivity].
    apply andb_true_iff in E as [Ea Eb]. apply years_positive in Eb.
    apply orb_true_iff in Ea as [Ea|Ea]; [apply Qle_bool_iff in Ea|]; auto.
  - split; [discriminate|]. intros [Ha Hb]. apply years_positive in Hb.
    rewrite Hb, andb_true_r in E.
    destruct Ha as [Ha|Ha]; [apply Qle_bool_iff in Ha|]; rewrite Ha in E;
      rewrite ?orb_true_r in E; discriminate.
Qed.

(** The evaluator on a well-typed work history: it returns the verdict
    on the state the loop ends in. *)
Lemma check_experience_run applicant_id h resp :
  http w h (Get WORK_EXPERIENCE_TABLE (applicants_filter applicant_id)) = Ok resp ->
  Forall (fun x => entry_wf x = true) (default [] resp) ->
  let experiences := default [] resp in
  let h1 := h ++ [EvRequest (Get WORK_EXPERIENCE_TABLE (applicants_filter applicant_id))] in
  check_experience w applicant_id h
  = (Ok (experience_verdict (experience_fold exp_init (observe w h1 experiences))),
     snd (classify_all w h1 experiences)).
Proof.
  intros Hfetch Hwf experiences h1.
  unfold check_experience, fetch_records, _request.
  eff_unfold. rewrite Hfetch. fold experiences. fold h1.
  now rewrite (experience_loop_run experiences Hwf exp_init h1).
Qed.

(** C2.  The Experience Evaluator adds up the elapsed days of all the
    entries of the work history, whatever the port answered about them,
    divides by 365.25, and passes exactly when the total number of years
    reaches the minimum or the tier-1 flag is set, and the total is
    positive.  So an applicant whose total reaches the minimum and is
    positive passes whatever the flag. *)
Theorem check_experience_spec applicant_id h resp :
  http w h (Get WORK_EXPERIENCE_TABLE (applicants_filter applicant_id)) = Ok resp ->
  Forall (fun x => entry_wf x = true) (default [] resp) ->
  let experiences := default [] resp in
  let h1 := h ++ [EvRequest (Get WORK_EXPERIENCE_TABLE (applicants_filter applicant_id))] in
  let total_years := (inject_Z (sum_days w experiences) / (36525 # 100))%Q in
  let worked := worked_at_tier_1 (experience_fold exp_init (observe w h1 experiences)) in
  exists ok reason,
    check_experience w applicant_id h
    = (Ok (ok, reason), snd (classify_all w h1 experiences))
    /\ (ok = true <-> experience_passes total_years worked)
    /\ ((MIN_YEARS_EXPERIENCE <= total_years)%Q -> (0 < total_years)%Q -> ok = true).
Proof.
  intros Hfetch Hwf experiences h1 total_years worked.
  rewrite (check_experience_run applicant_id h resp Hfetch Hwf).
  fold experiences h1.
  set (st := experience_fold exp_init (observe w h1 experiences)).
  pose proof (experience_verdict_passes st) as Hv.
  unfold st in Hv at 2. rewrite observe_total in Hv.
  destruct (experience_verdict st) as [ok reason] eqn:Ev. cbn [fst] in Hv.
  exists ok, reason. split; [reflexivity|]. split; [exact Hv|].
  intros Hmin Hpos. apply Hv. split; auto.
Qed.

End Experience.


(** The theorem at work: five years at Infosys, which the model does not
    hold to be tier-1. *)
Lemma check_experience_spec_witness :
  let w := Examples.world Examples.steady Examples.model_google Examples.geocoder_berlin in
  let get := Get WORK_EXPERIENCE_TABLE (applicants_filter (VNum 7)) in
  let experiences := Examples.work Examples.steady in
  http w [] get = Ok (Some experiences)
  /\ Forall (fun x => entry_wf x = true) experiences
  /\ exists ok reason,
       check_experience w (VNum 7) []
       = (Ok (ok, reason), snd (classify_all w [EvRequest get] experiences))
       /\ (ok = true <->
           experience_passes
             (inject_Z (sum_days w experiences) / (36525 # 100))%Q
             (worked_at_tier_1
                (experience_fold exp_init (observe w [EvRequest get] experiences))))
       /\ ((MIN_YEARS_EXPERIENCE <= inject_Z (sum_days w experiences) / (36525 # 100))%Q ->
           (0 < inject_Z (sum_days w experiences) / (36525 # 100))%Q -> ok = true).
Proof.
  intros w get experiences.
  assert (Hfetch : http w [] get = Ok (Some experiences)) by reflexivity.
  assert (Hwf : Forall (fun x => entry_wf x = true) experiences)
    by (repeat constructor).
  split; [exact Hfetch|]. split; [exact Hwf|].
  exact (check_experience_spec w (VNum 7) [] (Some experiences) Hfetch Hwf).
Defined.


(** ** The tier-1 flag *)

Lemma experience_fold_snoc st l o :
  experience_fold st (l ++ [o]) = experience_step (experience_fold st l) o.
Proof. unfold experience_fold. now rewrite fold_left_app. Qed.

(** The classification memory [temp_tier_1] is cumulative: it is never
    reset. *)
Lemma temp_tier_1_cumulative l :
  temp_tier_1 (experience_fold exp_init l) = existsb (fun o => is_yes (fst o)) l.
Proof.
  induction l as [|o l IH] using rev_ind; [reflexivity|].
  rewrite experience_fold_snoc, existsb_app. cbn [existsb].
  rewrite orb_false_r. unfold experience_step.
  destruct (snd o); cbn [temp_tier_1]; now rewrite IH.
Qed.

Lemma existsb_rev {A} (f : A -> bool) l : existsb f (rev l) = existsb f l.
Proof.
  induction l as [|x l IH]; [reflexivity|].
  cbn [rev existsb]. rewrite existsb_app, IH. cbn [existsb].
  rewrite orb_false_r. apply orb_comm.
Qed.

(** The flag after the loop, as a property of the entries observed. *)
Lemma worked_at_tier_1_fold l :
  worked_at_tier_1 (experience_fold exp_init l) = tier_1_flag l.
Proof.
  induction l as [|[answer span] l IH] using rev_ind; [reflexivity|].
  rewrite experience_fold_snoc. unfold tier_1_flag. rewrite rev_app_distr.
  cbn [rev app from_last_dated]. unfold experience_step. cbn [fst snd].
  destruct span as [days|].
  - cbn [worked_at_tier_1 existsb fst]. rewrite temp_tier_1_cumulative, existsb_rev.
    rewrite (orb_comm (is_yes answer)). apply andb_comm.
  - cbn [worked_at_tier_1]. exact IH.
Qed.

Section Tier1.
Context `{rt : PyRuntime} (w : World).

(** C3, as the code has it.  After the loop the flag is set exactly when
    the last entry whose dates parse has a positive duration and that
    entry, or any entry processed before it, was classified ["Yes"]: the
    duration test is re-derived from the last dated entry, the
    classification is remembered across entries. *)
Theorem worked_at_tier_1_spec experiences h :
  Forall (fun x => entry_wf x = true) experiences ->
  exists st,
    for_each (experience_body w) experiences exp_init h
    = (Ok st, snd (classify_all w h experiences))
    /\ worked_at_tier_1 st = tier_1_flag (observe w h experiences).
Proof.
  intros Hwf. eexists. split.
  - apply experience_loop_run, Hwf.
  - apply worked_at_tier_1_fold.
Qed.

End Tier1.


Lemma worked_at_tier_1_spec_witness :
  let experiences := [Examples.google_no_days; Examples.infosys_year] in
  let w := Examples.career experiences in
  Forall (fun x => entry_wf x = true) experiences
  /\ exists st,
       for_each (experience_body w) experiences exp_init []
       = (Ok st, snd (classify_all w [] experiences))
       /\ worked_at_tier_1 st = tier_1_flag (observe w [] experiences).
Proof.
  intros experiences w.
  assert (Hwf : Forall (fun x => entry_wf x = true) experiences)
    by (repeat constructor).
  split; [exact Hwf|].
  exact (worked_at_tier_1_spec w experiences [] Hwf).
Defined.

(** C3 as stated fails.  Google, the only entry classified ["Yes"], has
    no positive duration, and Infosys, visited last, is not tier-1; yet
    the flag ends up set and the applicant passes on it.  With Infosys
    alone, the same last entry, the flag ends up unset. *)
Lemma worked_at_tier_1_not_last_entry_only :
  let both := [Examples.google_no_days; Examples.infosys_year] in
  let last := [Examples.infosys_year] in
  observe (Examples.career both) [] both
    = [(Some "Yes", Some 0); (Some "No", Some 366)]
  /\ fst (for_each (experience_body (Examples.career both)) both exp_init [])
     = Ok {| total_days := 366; worked_at_tier_1 := true; temp_tier_1 := true |}
  /\ fst (check_experience (Examples.career both) (VNum 7) [])
     = Ok (true, "Experience: 1.0 years, Tier-1: Yes")
  /\ fst (for_each (experience_body (Examples.career last)) last exp_init [])
     = Ok {| total_days := 366; worked_at_tier_1 := false; temp_tier_1 := false |}
  /\ fst (check_experience (Examples.career last) (VNum 7) [])
     = Ok (false, "Experience: 1.0 years (below min), Tier-1: No").
Proof. vm_compute. repeat split; reflexivity. Qed.


(** ** The Compensation Evaluator *)

Section Compensation.
Context `{rt : PyRuntime} (w : World).

Lemma Qeq_bool_false (x y : Q) : ~ (x == y)%Q -> Qeq_bool x y = false.
Proof.
  intros Hne. destruct (Qeq_bool x y) eqn:E; [|reflexivity].
  apply Qeq_bool_iff in E. contradiction.
Qed.

Lemma dict_get_empty {V} (k : string) (dflt : V) : dict_get ∅ k dflt = dflt.
Proof. unfold dict_get. now rewrite lookup_empty. Qed.

Lemma Qle_bool_proper (x x' y : Q) : (x == x')%Q -> Qle_bool x y = Qle_bool x' y.
Proof.
  intros E. apply eq_true_iff_eq. rewrite !Qle_bool_iff. now rewrite E.
Qed.

(** Dividing by the integer 1 changes nothing. *)
Lemma round64_div_1 (q : Q) : round64 (q / 1) = round64 q.
Proof.
  unfold round64, Qdiv, Qmult, Qinv. cbn. now rewrite Z.mul_1_r, Pos.mul_1_r.
Qed.

(** A number that a float holds exactly is compared by its own value. *)
Lemma float_le_binary64 (q y : Q) :
  is_binary64 q = true -> float_le (round64 q) y = Qle_bool q y.
Proof.
  unfold is_binary64, float_le. destruct (round64 q); try discriminate;
    intros E; apply Qeq_bool_iff in E.
  - apply Qle_bool_proper. now symmetry.
  - now apply Qle_bool_proper.
Qed.

(** The evaluator on a record whose fields have the types of the data
    model: it returns, and the verdict is the conjunction of the two
    tests. *)
Lemma check_compensation_run applicant_id h resp rate currency hours :
  http w h (Get SALARY_PREFERENCES_TABLE (applicants_filter applicant_id)) = Ok resp ->
  let salary := first_fields (default [] resp) in
  dict_get salary "Preferred Rate" (VNum 0) = VNum rate ->
  dict_get salary "Currency" (VStr "USD") = VStr currency ->
  dict_get salary "Availability (hrs/wk)" (VNum 0) = VNum hours ->
  let conversion := dict_get (CONVERSION_RATES w) (str_upper currency) 1%Q in
  ~ (conversion == 0)%Q ->
  exists reason,
    check_compensation w applicant_id h
    = (Ok (float_le (round64 (rate / conversion)) MAX_RATE_USD
           && Qle_bool MIN_AVAILABILITY_HRS hours, reason),
       h ++ [EvRequest (Get SALARY_PREFERENCES_TABLE (applicants_filter applicant_id))])
    /\ (salary = ∅ -> reason = "No salary information available.").
Proof.
  intros Hfetch salary Hrate Hcur Hhours conversion Hconv.
  unfold check_compensation, fetch_records, _request.
  eff_unfold. rewrite Hfetch. fold salary.
  destruct (decide (salary = ∅)) as [Hempty|Hne].
  - rewrite Hempty, dict_get_empty in Hhours. injection Hhours as <-.
    exists "No salary information available.". split; [|reflexivity].
    now rewrite andb_false_r.
  - rewrite Hrate, Hcur, Hhours. cbn [py_upper py_div py_ge is_none].
    fold conversion. rewrite (Qeq_bool_false _ _ Hconv).
    destruct (float_le (round64 (rate / conversion)) MAX_RATE_USD
              && Qle_bool MIN_AVAILABILITY_HRS hours);
      eexists; (split; [reflexivity|]); intros; contradiction.
Qed.

(** C5.  The preferred rate is divided by the snapshot rate of the
    record's currency code, and the evaluator passes exactly when the
    converted rate is at most the maximum and the availability is at
    least the minimum.  The converted rate is the float that the
    division gives: 138 at a snapshot rate of 1.38 converts to
    100.00000000000001 and is over the maximum.  An unknown code counts
    as rate 1, so that the preferred rate itself is compared.  Rates
    are numbers that a float holds exactly. *)
Theorem check_compensation_spec applicant_id h resp rate currency hours :
  http w h (Get SALARY_PREFERENCES_TABLE (applicants_filter applicant_id)) = Ok resp ->
  let salary := first_fields (default [] resp) in
  dict_get salary "Preferred Rate" (VNum 0) = VNum rate ->
  dict_get salary "Currency" (VStr "USD") = VStr currency ->
  dict_get salary "Availability (hrs/wk)" (VNum 0) = VNum hours ->
  is_binary64 rate = true ->
  let code := str_upper currency in
  (forall r, CONVERSION_RATES w !! code = Some r ->
     is_binary64 r = true /\ ~ (r == 0)%Q) ->
  exists ok reason,
    check_compensation w applicant_id h
    = (Ok (ok, reason),
       h ++ [EvRequest (Get SALARY_PREFERENCES_TABLE (applicants_filter applicant_id))])
    /\ (forall r, CONVERSION_RATES w !! code = Some r ->
          (ok = true <-> within_maximum (converted_rate rate r)
                         /\ (MIN_AVAILABILITY_HRS <= hours)%Q))
    /\ (CONVERSION_RATES w !! code = None ->
          (ok = true <-> (rate <= MAX_RATE_USD)%Q /\ (MIN_AVAILABILITY_HRS <= hours)%Q)).
Proof.
  intros Hfetch salary Hrate Hcur Hhours Hfloat code Hnz.
  assert (Hconv : ~ (dict_get (CONVERSION_RATES w) code 1 == 0)%Q).
  { unfold dict_get. destruct (CONVERSION_RATES w !! code) as [r|] eqn:E; cbn.
    - now apply Hnz.
    - discriminate. }
  destruct (check_compensation_run applicant_id h resp rate currency hours
              Hfetch Hrate Hcur Hhours Hconv) as (reason & Hrun & _).
  eexists _, reason. split; [exact Hrun|].
  fold code. unfold dict_get, within_maximum, converted_rate.
  split; [intros r Hr | intros Hr]; rewrite Hr; cbn [default from_option id];
    rewrite andb_true_iff, Qle_bool_iff; [reflexivity|].
  rewrite round64_div_1, (float_le_binary64 _ _ Hfloat), Qle_bool_iff. reflexivity.
Qed.


(** C10.  A salary record without a preferred rate is evaluated with rate
    0 (and one without a currency with ["USD"]): whatever the positive
    conversion rate, the rate test holds, and the evaluator passes as soon
    as the availability reaches the minimum. *)
Theorem check_compensation_missing_rate applicant_id h resp currency hours :
  http w h (Get SALARY_PREFERENCES_TABLE (applicants_filter applicant_id)) = Ok resp ->
  let salary := first_fields (default [] resp) in
  salary !! "Preferred Rate" = None ->
  salary !! "Availability (hrs/wk)" = Some (VNum hours) ->
  (MIN_AVAILABILITY_HRS <= hours)%Q ->
  dict_get salary "Currency" (VStr "USD") = VStr currency ->
  (0 < dict_get (CONVERSION_RATES w) (str_upper currency) 1)%Q ->
  check_compensation w applicant_id h
  = (Ok (true, "Compensation: $" +:+ num_str 0 +:+ "/hr, " +:+ num_str hours +:+ " hrs/wk"),
     h ++ [EvRequest (Get SALARY_PREFERENCES_TABLE (applicants_filter applicant_id))])
  /\ (salary !! "Currency" = None -> currency = "USD").
Proof.
  intros Hfetch salary Hrate Hhours Hmin Hcur Hpos. split.
  - unfold check_compensation, fetch_records, _request.
    eff_unfold. rewrite Hfetch. fold salary.
    destruct (decide (salary = ∅)) as [Hempty|Hne].
    { rewrite Hempty, lookup_empty in Hhours. discriminate. }
    assert (Hr0 : dict_get salary "Preferred Rate" (VNum 0) = VNum 0)
      by (unfold dict_get; now rewrite Hrate).
    assert (Hh0 : dict_get salary "Availability (hrs/wk)" (VNum 0) = VNum hours)
      by (unfold dict_get; now rewrite Hhours).
    rewrite Hcur, Hr0, Hh0. cbn [py_upper py_div py_ge is_none py_str].
    set (conversion := dict_get (CONVERSION_RATES w) (str_upper currency) 1%Q) in *.
    rewrite Qeq_bool_false by (intros E; rewrite E in Hpos; discriminate).
    assert (Hr : float_le (round64 (0 / conversion)) MAX_RATE_USD = true)
      by reflexivity.
    assert (Ha : Qle_bool MIN_AVAILABILITY_HRS hours = true)
      by now apply Qle_bool_iff.
    rewrite Hr, Ha. reflexivity.
  - intros Hnone. unfold dict_get in Hcur. rewrite Hnone in Hcur.
    now injection Hcur.
Qed.

End Compensation.

Lemma check_compensation_spec_witness :
  let w := Examples.world Examples.steady Examples.model_google Examples.geocoder_berlin in
  let get := Get SALARY_PREFERENCES_TABLE (applicants_filter (VNum 7)) in
  let salary := first_fields (Examples.salary Examples.steady) in
  http w [] get = Ok (Some (Examples.salary Examples.steady))
  /\ dict_get salary "Preferred Rate" (VNum 0) = VNum 50
  /\ dict_get salary "Currency" (VStr "USD") = VStr "USD"
  /\ dict_get salary "Availability (hrs/wk)" (VNum 0) = VNum 25
  /\ is_binary64 50 = true
  /\ (forall r, CONVERSION_RATES w !! "USD" = Some r ->
        is_binary64 r = true /\ ~ (r == 0)%Q)
  /\ exists ok reason,
       check_compensation w (VNum 7) [] = (Ok (ok, reason), [EvRequest get])
       /\ (forall r, CONVERSION_RATES w !! "USD" = Some r ->
             (ok = true <-> within_maximum (converted_rate 50 r)
                            /\ (MIN_AVAILABILITY_HRS <= 25)%Q))
       /\ (CONVERSION_RATES w !! "USD" = None ->
             (ok = true <-> (50 <= MAX_RATE_USD)%Q /\ (MIN_AVAILABILITY_HRS <= 25)%Q)).
Proof.
  intros w get salary.
  assert (Hfetch : http w [] get = Ok (Some (Examples.salary Examples.steady)))
    by reflexivity.
  assert (Hrate : dict_get salary "Preferred Rate" (VNum 0) = VNum 50)
    by (vm_compute; reflexivity).
  assert (Hcur : dict_get salary "Currency" (VStr "USD") = VStr "USD")
    by (vm_compute; reflexivity).
  assert (Hhours : dict_get salary "Availability (hrs/wk)" (VNum 0) = VNum 25)
    by (vm_compute; reflexivity).
  assert (Hfloat : is_binary64 50 = true) by (vm_compute; reflexivity).
  assert (Hnz : forall r, CONVERSION_RATES w !! "USD" = Some r ->
                  is_binary64 r = true /\ ~ (r == 0)%Q).
  { intros r Hr. vm_compute in Hr. injection Hr as <-.
    split; [vm_compute; reflexivity|discriminate]. }
  repeat (split; [assumption|]).
  exact (check_compensation_spec w (VNum 7) [] _ 50 "USD" 25
           Hfetch Hrate Hcur Hhours Hfloat Hnz).
Defined.

Lemma check_compensation_missing_rate_witness :
  let w := Examples.world Examples.no_rate Examples.model_google Examples.geocoder_berlin in
  let get := Get SALARY_PREFERENCES_TABLE (applicants_filter (VNum 7)) in
  let salary := first_fields (Examples.salary Examples.no_rate) in
  http w [] get = Ok (Some (Examples.salary Examples.no_rate))
  /\ salary !! "Preferred Rate" = None
  /\ salary !! "Availability (hrs/wk)" = Some (VNum 30)
  /\ (MIN_AVAILABILITY_HRS <= 30)%Q
  /\ dict_get salary "Currency" (VStr "USD") = VStr "USD"
  /\ (0 < dict_get (CONVERSION_RATES w) (str_upper "USD") 1)%Q
  /\ check_compensation w (VNum 7) []
     = (Ok (true, "Compensation: $0/hr, 30 hrs/wk"), [EvRequest get])
  /\ (salary !! "Currency" = None -> "USD" = "USD").
Proof.
  intros w get salary.
  assert (Hfetch : http w [] get = Ok (Some (Examples.salary Examples.no_rate)))
    by reflexivity.
  assert (Hrate : salary !! "Preferred Rate" = None) by (vm_compute; reflexivity).
  assert (Hhours : salary !! "Availability (hrs/wk)" = Some (VNum 30))
    by (vm_compute; reflexivity).
  assert (Hmin : (MIN_AVAILABILITY_HRS <= 30)%Q) by (vm_compute; discriminate).
  assert (Hcur : dict_get salary "Currency" (VStr "USD") = VStr "USD")
    by (vm_compute; reflexivity).
  assert (Hpos : (0 < dict_get (CONVERSION_RATES w) (str_upper "USD") 1)%Q)
    by (vm_compute; reflexivity).
  repeat (split; [assumption|]).
  exact (check_compensation_missing_rate w (VNum 7) [] _ "USD" 30
           Hfetch Hrate Hhours Hmin Hcur Hpos).
Defined.


(** ** The Location Evaluator *)

Lemma is_yes_iff answer : is_yes answer = true <-> answer = Some "Yes".
Proof.
  destruct answer as [s|]; simpl; [|split; discriminate].
  rewrite String.eqb_eq. split; [now intros ->|now intros [= ->]].
Qed.

Section Location.
Context `{rt : PyRuntime} (w : World).

(** The primary path: the geocoder resolves the text to an allow-listed
    country. *)
Lemma check_location_geocoded applicant_id h resp text address :
  http w h (Get PERSONAL_DETAILS_TABLE (applicants_filter applicant_id)) = Ok resp ->
  let personal := first_fields (default [] resp) in
  dict_get personal "Location" (VStr EmptyString) = VStr text ->
  let h1 := h ++ [EvRequest (Get PERSONAL_DETAILS_TABLE (applicants_filter applicant_id))] in
  nominatim w h1 (str_lower text) = Ok (Some address) ->
  existsb (String.eqb (str_strip (last_segment address))) ALLOWED_LOCATIONS = true ->
  check_location w applicant_id h
  = (Ok (location_allowed personal "location"), h1 ++ [EvGeocode (str_lower text)]).
Proof.
  intros Hfetch personal Htext h1 Hgeo Hallowed.
  unfold check_location, fetch_records, _request, location_geocode.
  eff_unfold. rewrite Hfetch. fold personal. rewrite Htext. cbn [py_lower].
  fold h1. rewrite Hgeo, Hallowed. reflexivity.
Qed.

(** The fallback path: the geocoder finds nothing, and the prompt goes
    through [str.format]. *)
Lemma check_location_fallback applicant_id h resp text prompt :
  http w h (Get PERSONAL_DETAILS_TABLE (applicants_filter applicant_id)) = Ok resp ->
  let personal := first_fields (default [] resp) in
  dict_get personal "Location" (VStr EmptyString) = VStr text ->
  let location := str_lower text in
  let h1 := h ++ [EvRequest (Get PERSONAL_DETAILS_TABLE (applicants_filter applicant_id))] in
  nominatim w h1 location = Ok None ->
  str_format (location_prompt location) (location_kw location) = Ok prompt ->
  exists answer new,
    classify w prompt (h1 ++ [EvGeocode location])
    = (Ok answer, h1 ++ EvGeocode location :: EvClassify prompt :: new)
    /\ classify_calls new = 0%nat
    /\ check_location w applicant_id h
       = (Ok (if is_yes answer then location_allowed personal "Location"
              else location_rejected personal),
          h1 ++ EvGeocode location :: EvClassify prompt :: new).
Proof.
  intros Hfetch personal Htext location h1 Hgeo Hfmt.
  destruct (classify_returns w prompt (h1 ++ [EvGeocode location]))
    as (answer & new & E & _ & C).
  rewrite <- app_assoc in E. cbn [app] in E.
  exists answer, new. split; [exact E|]. split; [exact C|].
  unfold check_location, fetch_records, _request, location_geocode,
    location_fallback.
  eff_unfold. rewrite Hfetch. fold personal. rewrite Htext. cbn [py_lower].
  fold location. fold h1. rewrite Hgeo. cbn [exn_eqb].
  rewrite Hfmt, E.
  now destruct (is_yes answer).
Qed.

(** When [str.format] rejects the prompt, the exception leaves the
    [except AttributeError] block: the port is not called and the
    evaluator raises. *)
Lemma check_location_format_error applicant_id h resp text e :
  http w h (Get PERSONAL_DETAILS_TABLE (applicants_filter applicant_id)) = Ok resp ->
  let personal := first_fields (default [] resp) in
  dict_get personal "Location" (VStr EmptyString) = VStr text ->
  let location := str_lower text in
  let h1 := h ++ [EvRequest (Get PERSONAL_DETAILS_TABLE (applicants_filter applicant_id))] in
  nominatim w h1 location = Ok None ->
  str_format (location_prompt location) (location_kw location) = Raise e ->
  check_location w applicant_id h = (Raise e, h1 ++ [EvGeocode location]).
Proof.
  intros Hfetch personal Htext location h1 Hgeo Hfmt.
  unfold check_location, fetch_records, _request, location_geocode,
    location_fallback.
  eff_unfold. rewrite Hfetch. fold personal. rewrite Htext. cbn [py_lower].
  fold location. fold h1. rewrite Hgeo. cbn [exn_eqb].
  now rewrite Hfmt.
Qed.

(** The two paths of the Location Evaluator, for a location whose
    fallback prompt is accepted by [str.format]: a location geocoded to
    an allow-listed country passes without any call of the port; a
    location the geocoder does not find costs exactly one call of the
    port and passes exactly when the answer is ["Yes"]. *)
Lemma check_location_spec applicant_id h resp text :
  http w h (Get PERSONAL_DETAILS_TABLE (applicants_filter applicant_id)) = Ok resp ->
  let personal := first_fields (default [] resp) in
  dict_get personal "Location" (VStr EmptyString) = VStr text ->
  let location := str_lower text in
  let h1 := h ++ [EvRequest (Get PERSONAL_DETAILS_TABLE (applicants_filter applicant_id))] in
  (forall address,
     nominatim w h1 location = Ok (Some address) ->
     existsb (String.eqb (str_strip (last_segment address))) ALLOWED_LOCATIONS = true ->
     exists reason new,
       check_location w applicant_id h = (Ok (true, reason), h ++ new)
       /\ classify_calls new = 0%nat)
  /\ (forall prompt,
        nominatim w h1 location = Ok None ->
        str_format (location_prompt location) (location_kw location) = Ok prompt ->
        exists ok reason new answer,
          check_location w applicant_id h = (Ok (ok, reason), h ++ new)
          /\ classify_calls new = 1%nat
          /\ fst (classify w prompt (h1 ++ [EvGeocode location])) = Ok answer
          /\ (ok = true <-> answer = Some "Yes")).
Proof.
  intros Hfetch personal Htext location h1. split.
  - intros address Hgeo Hallowed.
    rewrite (check_location_geocoded applicant_id h resp text address
               Hfetch Htext Hgeo Hallowed).
    eexists _, [_; _]. unfold h1. rewrite <- app_assoc. split; reflexivity.
  - intros prompt Hgeo Hfmt.
    destruct (check_location_fallback applicant_id h resp text prompt
                Hfetch Htext Hgeo Hfmt) as (answer & new & E & C & Hrun).
    fold location h1 in E, Hrun. rewrite Hrun, E. unfold h1.
    rewrite <- app_assoc. cbn [app fst].
    destruct (is_yes answer) eqn:Hyes; eexists _, _, _, answer;
      (split; [reflexivity|]);
      (split; [unfold classify_calls in *; cbn; now rewrite C|]);
      (split; [reflexivity|]); rewrite <- is_yes_iff, Hyes;
      unfold location_rejected; cbn; split; congruence.
Qed.

End Location.


(** ** A model that does not answer *)

Section ModelDown.
Context `{rt : PyRuntime} (w : World).

Hypothesis Hdown : model_always_fails w.

Lemma generate_content_loop_down prompt max_retries backoff_factor attempts :
  Forall (fun attempt => 0 <= backoff_factor ^ attempt <= SLEEP_MAX) attempts ->
  forall h,
    fst (generate_content_loop w prompt max_retries backoff_factor attempts h)
    = Ok None.
Proof.
  induction 1 as [|attempt rest Hsleep _ IH]; intros h; [reflexivity|].
  cbn [generate_content_loop]. eff_unfold.
  destruct (Hdown h prompt) as [e ->].
  destruct (attempt <? max_retries - 1); [|reflexivity].
  rewrite (sleep_run _ _ Hsleep). apply IH.
Qed.

Lemma classify_down prompt h : fst (classify w prompt h) = Ok None.
Proof.
  unfold classify, generate_content. eff_unfold.
  apply generate_content_loop_down, classify_pauses.
Qed.

Lemma classify_all_down experiences :
  forall h, Forall (fun answer => answer = None) (fst (classify_all w h experiences)).
Proof.
  induction experiences as [|x xs IH]; intros h; [constructor|].
  pose proof (classify_down (entry_prompt x) h) as Hc.
  destruct (classify w (entry_prompt x) h) as [[answer|e] h'] eqn:E;
    cbn [fst] in Hc; [|discriminate].
  injection Hc as ->.
  rewrite (classify_all_cons w _ _ _ _ _ E). constructor; [reflexivity|apply IH].
Qed.

Lemma experience_fold_no_yes l :
  Forall (fun o : observed => fst o = None) l ->
  forall st, temp_tier_1 st = false -> worked_at_tier_1 st = false ->
    worked_at_tier_1 (experience_fold st l) = false.
Proof.
  unfold experience_fold.
  induction 1 as [|[answer span] l Ho Hl IH]; intros st Ht Hw; [exact Hw|].
  cbn [fst] in Ho. subst answer. cbn [fold_left]. apply IH;
    unfold experience_step; cbn [fst snd is_yes]; rewrite Ht;
    destruct span; cbn; auto.
Qed.

(** C4, as the code has it.  When every attempt on the model fails, the
    port answers [None], and neither evaluator aborts: the Experience
    Evaluator goes on with the flag unset and decides on the years
    alone, and the fallback of the Location Evaluator answers that the
    location is not in the allowed list. *)
Theorem classification_failure_is_a_no applicant_id :
  (forall prompt h, fst (classify w prompt h) = Ok None)
  /\ (forall h resp,
        http w h (Get WORK_EXPERIENCE_TABLE (applicants_filter applicant_id)) = Ok resp ->
        Forall (fun x => entry_wf x = true) (default [] resp) ->
        let total_years := (inject_Z (sum_days w (default [] resp)) / (36525 # 100))%Q in
        exists ok reason,
          fst (check_experience w applicant_id h) = Ok (ok, reason)
          /\ (ok = true <->
              (MIN_YEARS_EXPERIENCE <= total_years)%Q /\ (0 < total_years)%Q))
  /\ (forall h resp text prompt,
        http w h (Get PERSONAL_DETAILS_TABLE (applicants_filter applicant_id)) = Ok resp ->
        dict_get (first_fields (default [] resp)) "Location" (VStr EmptyString) = VStr text ->
        nominatim w (h ++ [EvRequest (Get PERSONAL_DETAILS_TABLE (applicants_filter applicant_id))])
          (str_lower text) = Ok None ->
        str_format (location_prompt (str_lower text)) (location_kw (str_lower text))
        = Ok prompt ->
        fst (check_location w applicant_id h)
        = Ok (location_rejected (first_fields (default [] resp)))).
Proof.
  split; [intros; apply classify_down|]. split.
  - intros h resp Hfetch Hwf total_years.
    rewrite (check_experience_run w applicant_id h resp Hfetch Hwf). cbn [fst].
    set (st := experience_fold exp_init _).
    pose proof (experience_verdict_passes st) as Hok.
    unfold st in Hok at 2. rewrite observe_total in Hok.
    destruct (experience_verdict st) as [ok reason]. cbn [fst] in Hok.
    exists ok, reason. split; [reflexivity|].
    rewrite Hok. unfold experience_passes. fold total_years. unfold st.
    rewrite experience_fold_no_yes; [| | reflexivity | reflexivity].
    2:{ apply (proj1 (List.Forall_map fst (fun answer => answer = None) _)).
        rewrite observe_answers. apply classify_all_down. }
    split; [intros [[H|H] Hp]; [auto|discriminate] | intros [Hm Hp]; auto].
  - intros h resp text prompt Hfetch Htext Hgeo Hfmt.
    destruct (check_location_fallback w applicant_id h resp text prompt
                Hfetch Htext Hgeo Hfmt) as (answer & new & E & _ & Hrun).
    rewrite Hrun. pose proof (classify_down prompt
      (h ++ [EvRequest (Get PERSONAL_DETAILS_TABLE (applicants_filter applicant_id))]
         ++ [EvGeocode (str_lower text)])) as Hc.
    rewrite app_assoc in Hc. rewrite E in Hc. cbn [fst] in Hc.
    injection Hc as ->. reflexivity.
Qed.

End ModelDown.


(** ** The Decision Aggregator *)

Lemma emits_cases {A} P (c : eff A) h :
  emits P c ->
  exists o new, c h = (o, h ++ new) /\ Forall P new.
Proof.
  intros Hc. destruct (Hc h) as (new & E & F).
  destruct (c h) as [o h'] eqn:Ec. cbn [snd] in E. subst h'.
  exists o, new. auto.
Qed.

Section Aggregator.
Context `{rt : PyRuntime} (w : World).

Lemma request_run r h :
  _request w r h
  = (match http w h r with Ok x => Ok x | Raise _ => Raise AirtableAPIError end,
     h ++ [EvRequest r]).
Proof. unfold _request. eff_unfold. now destruct (http w h r). Qed.

Lemma request_ok r h x :
  http w h r = Ok x -> _request w r h = (Ok x, h ++ [EvRequest r]).
Proof. intros E. now rewrite request_run, E. Qed.

Lemma emits_request (P : event -> Prop) r : P (EvRequest r) -> emits P (_request w r).
Proof.
  intros HP h. exists [EvRequest r]. rewrite request_run. cbn [snd]. auto.
Qed.

Lemma emits_classify (P : event -> Prop) prompt :
  (forall ev, is_llm_event prompt ev -> P ev) -> emits P (classify w prompt).
Proof.
  intros HP h. destruct (classify_returns w prompt h) as (answer & new & E & F & _).
  exists (EvClassify prompt :: new). rewrite E. cbn [snd]. split; [reflexivity|].
  constructor; [apply HP; reflexivity|]. eapply Forall_impl; eauto.
Qed.

Lemma llm_event_is_evaluation prompt ev : is_llm_event prompt ev -> is_evaluation ev.
Proof. destruct ev; cbn; try contradiction; intros _; split; reflexivity. Qed.

Ltac emits_steps :=
  repeat first
    [ apply emits_ret | apply emits_raise | apply emits_lift
    | apply emits_bind; [|intros ?]
    | apply emits_try_except; [|intros ?]
    | apply emits_for_each; intros ? ?
    | apply emits_request; split; reflexivity
    | apply emits_request; reflexivity
    | apply emits_classify; apply llm_event_is_evaluation
    | apply emits_perform; split; reflexivity
    | apply emits_perform; reflexivity
    | match goal with
      | |- emits _ (if ?b then _ else _) => destruct b
      | |- emits _ (match ?x with _ => _ end) => destruct x
      | |- emits _ (let (_, _) := ?x in _) => destruct x
      end ].

Lemma check_experience_emits applicant_id :
  emits is_evaluation (check_experience w applicant_id).
Proof.
  unfold check_experience, fetch_records, experience_body, experience_dates.
  emits_steps.
Qed.

Lemma check_compensation_emits applicant_id :
  emits is_evaluation (check_compensation w applicant_id).
Proof. unfold check_compensation, fetch_records. emits_steps. Qed.

Lemma check_location_emits applicant_id :
  emits is_evaluation (check_location w applicant_id).
Proof.
  unfold check_location, fetch_records, location_geocode, location_fallback.
  emits_steps.
Qed.

Lemma create_shortlisted_lead_emits applicant_id reason :
  emits no_create (create_shortlisted_lead w applicant_id reason).
Proof.
  unfold create_shortlisted_lead, fetch_records, update_record. emits_steps.
Qed.

Lemma evaluation_no_create ev : is_evaluation ev -> no_create ev.
Proof. now intros [_ H]. Qed.

Lemma process_applicant_emits record : emits no_create (process_applicant w record).
Proof.
  unfold process_applicant.
  apply emits_bind; [destruct (_ !! _); [apply emits_ret|apply emits_raise]|].
  intros applicant_id. apply emits_bind.
  { eapply emits_weaken; [apply evaluation_no_create|apply check_experience_emits]. }
  intros [exp_ok exp_reason]. apply emits_bind.
  { eapply emits_weaken; [apply evaluation_no_create|apply check_compensation_emits]. }
  intros [comp_ok comp_reason]. apply emits_bind.
  { eapply emits_weaken; [apply evaluation_no_create|apply check_location_emits]. }
  intros [loc_ok loc_reason]. apply emits_bind.
  { apply emits_request. reflexivity. }
  intros _. destruct (String.eqb _ _); [|apply emits_ret].
  apply emits_bind; [apply emits_perform; reflexivity|].
  intros _. apply create_shortlisted_lead_emits.
Qed.

Lemma main_emits : emits no_create (main w).
Proof.
  unfold main, fetch_records. apply emits_try_except; [|intros; apply emits_ret].
  apply emits_bind; [apply emits_request; reflexivity|].
  intros resp. destruct (default [] resp); [apply emits_ret|].
  apply emits_for_each. intros _ record. apply process_applicant_emits.
Qed.

(** The tail of one iteration of [main], once the three evaluators have
    returned: the verdict is written, and only a ["Shortlisted"] verdict
    is followed by anything. *)
Lemma process_applicant_run record h applicant_id
      exp_ok exp_reason h1 comp_ok comp_reason h2 loc_ok loc_reason h3 :
  rec_fields record !! "Applicant ID" = Some applicant_id ->
  check_experience w applicant_id h = (Ok (exp_ok, exp_reason), h1) ->
  check_compensation w applicant_id h1 = (Ok (comp_ok, comp_reason), h2) ->
  check_location w applicant_id h2 = (Ok (loc_ok, loc_reason), h3) ->
  exists lead_ops,
    snd (process_applicant w record h)
    = h3 ++ status_write (rec_id record) (verdict_status exp_ok comp_ok loc_ok) :: lead_ops
    /\ Forall no_create lead_ops
    /\ (exp_ok && comp_ok && loc_ok = false -> lead_ops = []).
Proof.
  intros Hid He Hc Hl. unfold process_applicant. rewrite Hid.
  rewrite (bind_ok (ret applicant_id) _ h applicant_id h eq_refl).
  rewrite (bind_ok _ _ _ _ _ He). cbn beta iota.
  rewrite (bind_ok _ _ _ _ _ Hc). cbn beta iota.
  rewrite (bind_ok _ _ _ _ _ Hl). cbn beta iota.
  unfold update_record.
  set (status := verdict_status exp_ok comp_ok loc_ok).
  set (patch := Patch APPLICANTS_TABLE (rec_id record) (status_fields status)).
  pose proof (request_run patch h3) as Hreq.
  destruct (http w h3 patch) as [x|e].
  - rewrite (bind_ok _ _ _ _ _ Hreq).
    unfold status, verdict_status.
    destruct (exp_ok && comp_ok && loc_ok) eqn:Hall.
    + cbn [String.eqb Ascii.eqb Bool.eqb].
      destruct (emits_cases no_create
                  (_ ← sleep 5; create_shortlisted_lead w applicant_id
                     (final_reason_of "Shortlisted" exp_reason comp_reason loc_reason))
                  (h3 ++ [EvRequest patch])) as (o & new & E & F).
      { apply emits_bind; [apply emits_perform; reflexivity|].
        intros _. apply create_shortlisted_lead_emits. }
      rewrite E. cbn [snd]. exists new. rewrite <- app_assoc.
      subst patch status. unfold verdict_status. rewrite Hall.
      repeat split; auto. discriminate.
    + cbn [String.eqb Ascii.eqb Bool.eqb]. exists []. cbn [snd].
      subst patch status. unfold verdict_status. rewrite Hall.
      repeat split; auto.
  - rewrite (bind_raise _ _ _ _ _ Hreq). cbn [snd]. exists [].
    repeat split; auto.
Qed.


(** C1.  Once the three evaluators have returned, the status written on
    the applicant is ["Shortlisted"] exactly when the three booleans are
    all true, and ["Not Shortlisted"] otherwise. *)
Theorem verdict_is_conjunction record h applicant_id
      exp_ok exp_reason h1 comp_ok comp_reason h2 loc_ok loc_reason h3 :
  rec_fields record !! "Applicant ID" = Some applicant_id ->
  check_experience w applicant_id h = (Ok (exp_ok, exp_reason), h1) ->
  check_compensation w applicant_id h1 = (Ok (comp_ok, comp_reason), h2) ->
  check_location w applicant_id h2 = (Ok (loc_ok, loc_reason), h3) ->
  exists status lead_ops,
    snd (process_applicant w record h)
    = h3 ++ status_write (rec_id record) status :: lead_ops
    /\ (status = "Shortlisted"
        <-> exp_ok = true /\ comp_ok = true /\ loc_ok = true)
    /\ (status = "Shortlisted" \/ status = "Not Shortlisted")
    /\ status = (if exp_ok && comp_ok && loc_ok
                 then "Shortlisted" else "Not Shortlisted").
Proof.
  intros Hid He Hc Hl.
  destruct (process_applicant_run record h applicant_id _ _ _ _ _ _ _ _ _
              Hid He Hc Hl) as (lead_ops & Hrun & _ & _).
  exists (verdict_status exp_ok comp_ok loc_ok), lead_ops.
  split; [exact Hrun|]. unfold verdict_status.
  destruct exp_ok, comp_ok, loc_ok; cbn;
    (split; [split; [try discriminate; auto | intros (? & ? & ?); congruence]|]);
    auto.
Qed.

(** C7.  Without a salary record the Compensation Evaluator fails with
    the reason "No salary information available.", and the status
    written on the applicant, once the other evaluators have returned,
    is ["Not Shortlisted"]; nothing follows it. *)
Theorem no_salary_record_not_shortlisted record h applicant_id
      exp_ok exp_reason h1 resp :
  rec_fields record !! "Applicant ID" = Some applicant_id ->
  check_experience w applicant_id h = (Ok (exp_ok, exp_reason), h1) ->
  http w h1 (Get SALARY_PREFERENCES_TABLE (applicants_filter applicant_id)) = Ok resp ->
  default [] resp = [] ->
  let h2 := h1 ++ [EvRequest (Get SALARY_PREFERENCES_TABLE (applicants_filter applicant_id))] in
  check_compensation w applicant_id h1
  = (Ok (false, "No salary information available."), h2)
  /\ forall loc_ok loc_reason h3,
       check_location w applicant_id h2 = (Ok (loc_ok, loc_reason), h3) ->
       snd (process_applicant w record h)
       = h3 ++ [status_write (rec_id record) "Not Shortlisted"].
Proof.
  intros Hid He Hfetch Hnone h2.
  assert (Hc : check_compensation w applicant_id h1
               = (Ok (false, "No salary information available."), h2)).
  { unfold check_compensation, fetch_records.
    rewrite (bind_ok _ _ _ _ _ (request_ok _ _ _ Hfetch)), Hnone.
    cbn [first_fields].
    destruct (decide (∅ = ∅)) as [_|Hne]; [reflexivity|now destruct Hne]. }
  split; [exact Hc|]. intros loc_ok loc_reason h3 Hl.
  destruct (process_applicant_run record h applicant_id _ _ _ _ _ _ _ _ _
              Hid He Hc Hl) as (lead_ops & Hrun & _ & Hnil).
  rewrite Hrun, Hnil; [|now rewrite andb_false_r].
  unfold verdict_status. now rewrite andb_false_r.
Qed.

(** C9.  A run of [main] never creates a record.  The events of one
    iteration are
    those of the evaluators, none of which touches the lead table,
    followed by nothing (an evaluator raised), by the write of
    ["Not Shortlisted"] alone, or by the write of ["Shortlisted"] and
    then the lead operations.  And [create_shortlisted_lead] only reads
    when no lead record matches. *)
Theorem lead_write_only_on_shortlisted :
  emits no_create (main w)
  /\ (forall record h,
     exists evals tail,
       snd (process_applicant w record h) = h ++ evals ++ tail
       /\ Forall is_evaluation evals
       /\ (tail = []
           \/ tail = [status_write (rec_id record) "Not Shortlisted"]
           \/ exists lead_ops,
                tail = status_write (rec_id record) "Shortlisted" :: lead_ops
                /\ Forall no_create lead_ops))
  /\ (forall applicant_id reason h resp,
        http w h (Get SHORTLISTED_LEADS_TABLE ("{Applicants} = " +:+ py_str applicant_id))
        = Ok resp ->
        default [] resp = [] ->
        create_shortlisted_lead w applicant_id reason h
        = (Ok tt, h ++ [EvRequest (Get SHORTLISTED_LEADS_TABLE
                                     ("{Applicants} = " +:+ py_str applicant_id))])).
Proof.
  split; [apply main_emits|]. split.
  - intros record h.
    destruct (rec_fields record !! "Applicant ID") as [applicant_id|] eqn:Hid.
    2:{ exists [], []. unfold process_applicant. rewrite Hid. cbn.
        rewrite app_nil_r. auto. }
    destruct (emits_cases _ _ h (check_experience_emits applicant_id))
      as ([[exp_ok exp_reason]|e1] & n1 & E1 & F1).
    2:{ exists n1, []. unfold process_applicant. rewrite Hid.
        rewrite (bind_ok (ret applicant_id) _ h applicant_id h eq_refl).
        rewrite (bind_raise _ _ _ _ _ E1). cbn [snd]. rewrite app_nil_r. auto. }
    destruct (emits_cases _ _ (h ++ n1) (check_compensation_emits applicant_id))
      as ([[comp_ok comp_reason]|e2] & n2 & E2 & F2).
    2:{ exists (n1 ++ n2), []. unfold process_applicant. rewrite Hid.
        rewrite (bind_ok (ret applicant_id) _ h applicant_id h eq_refl).
        rewrite (bind_ok _ _ _ _ _ E1). cbn beta iota.
        rewrite (bind_raise _ _ _ _ _ E2). cbn [snd].
        rewrite app_nil_r, app_assoc. split; [reflexivity|].
        split; [apply Forall_app; auto|auto]. }
    destruct (emits_cases _ _ ((h ++ n1) ++ n2) (check_location_emits applicant_id))
      as ([[loc_ok loc_reason]|e3] & n3 & E3 & F3).
    2:{ exists (n1 ++ n2 ++ n3), []. unfold process_applicant. rewrite Hid.
        rewrite (bind_ok (ret applicant_id) _ h applicant_id h eq_refl).
        rewrite (bind_ok _ _ _ _ _ E1). cbn beta iota.
        rewrite (bind_ok _ _ _ _ _ E2). cbn beta iota.
        rewrite (bind_raise _ _ _ _ _ E3). cbn [snd].
        rewrite app_nil_r, <- !app_assoc. split; [reflexivity|].
        split; [repeat (apply Forall_app; split); auto|auto]. }
    destruct (process_applicant_run record h applicant_id _ _ _ _ _ _ _ _ _
                Hid E1 E2 E3) as (lead_ops & Hrun & Hops & Hnil).
    exists (n1 ++ n2 ++ n3), (status_write (rec_id record)
                                (verdict_status exp_ok comp_ok loc_ok) :: lead_ops).
    rewrite Hrun, <- !app_assoc. split; [reflexivity|].
    split; [repeat (apply Forall_app; split); auto|].
    unfold verdict_status in *. destruct (exp_ok && comp_ok && loc_ok).
    + right; right. eauto.
    + right; left. now rewrite Hnil.
  - intros applicant_id reason h resp Hfetch Hnone.
    unfold create_shortlisted_lead, fetch_records.
    rewrite (bind_ok _ _ _ _ _ (request_ok _ _ _ Hfetch)), Hnone. reflexivity.
Qed.

End Aggregator.


(** ** The theorems at work, and where the engine departs from its
    description *)

Lemma verdict_is_conjunction_witness :
  let w := Examples.world Examples.steady Examples.model_google Examples.geocoder_berlin in
  let r1 := check_experience w (VNum 7) [] in
  let r2 := check_compensation w (VNum 7) (snd r1) in
  let r3 := check_location w (VNum 7) (snd r2) in
  rec_fields Examples.applicant !! "Applicant ID" = Some (VNum 7)
  /\ r1 = (Ok (true, "Experience: 5.0 years, Tier-1: No"), snd r1)
  /\ r2 = (Ok (true, "Compensation: $50/hr, 25 hrs/wk"), snd r2)
  /\ r3 = (Ok (true, "Location: None (Allowed)"), snd r3)
  /\ exists status lead_ops,
       snd (process_applicant w Examples.applicant [])
       = snd r3 ++ status_write "recApplicant" status :: lead_ops
       /\ (status = "Shortlisted" <-> true = true /\ true = true /\ true = true)
       /\ (status = "Shortlisted" \/ status = "Not Shortlisted")
       /\ status = "Shortlisted".
Proof.
  intros w r1 r2 r3.
  assert (Hid : rec_fields Examples.applicant !! "Applicant ID" = Some (VNum 7))
    by (vm_compute; reflexivity).
  assert (H1 : r1 = (Ok (true, "Experience: 5.0 years, Tier-1: No"), snd r1))
    by (vm_compute; reflexivity).
  assert (H2 : r2 = (Ok (true, "Compensation: $50/hr, 25 hrs/wk"), snd r2))
    by (vm_compute; reflexivity).
  assert (H3 : r3 = (Ok (true, "Location: None (Allowed)"), snd r3))
    by (vm_compute; reflexivity).
  repeat (split; [assumption|]).
  exact (verdict_is_conjunction w Examples.applicant [] (VNum 7)
           _ _ _ _ _ _ _ _ _ Hid H1 H2 H3).
Defined.

Lemma no_salary_record_not_shortlisted_witness :
  let w := Examples.world Examples.no_salary Examples.model_google Examples.geocoder_berlin in
  let r1 := check_experience w (VNum 7) [] in
  let get := Get SALARY_PREFERENCES_TABLE (applicants_filter (VNum 7)) in
  rec_fields Examples.applicant !! "Applicant ID" = Some (VNum 7)
  /\ r1 = (Ok (true, "Experience: 5.0 years, Tier-1: No"), snd r1)
  /\ http w (snd r1) get = Ok (Some [])
  /\ default [] (Some (@nil record)) = []
  /\ check_compensation w (VNum 7) (snd r1)
     = (Ok (false, "No salary information available."), snd r1 ++ [EvRequest get])
  /\ forall loc_ok loc_reason h3,
       check_location w (VNum 7) (snd r1 ++ [EvRequest get]) = (Ok (loc_ok, loc_reason), h3) ->
       snd (process_applicant w Examples.applicant [])
       = h3 ++ [status_write "recApplicant" "Not Shortlisted"].
Proof.
  intros w r1 get.
  assert (Hid : rec_fields Examples.applicant !! "Applicant ID" = Some (VNum 7))
    by (vm_compute; reflexivity).
  assert (H1 : r1 = (Ok (true, "Experience: 5.0 years, Tier-1: No"), snd r1))
    by (vm_compute; reflexivity).
  assert (Hfetch : http w (snd r1) get = Ok (Some [])) by reflexivity.
  assert (Hnone : default [] (Some (@nil record)) = []) by reflexivity.
  repeat (split; [assumption|]).
  exact (no_salary_record_not_shortlisted w Examples.applicant [] (VNum 7)
           _ _ _ _ Hid H1 Hfetch Hnone).
Defined.

Lemma lead_write_only_on_shortlisted_witness :
  let w := Examples.world Examples.steady Examples.model_google Examples.geocoder_berlin in
  let get := Get SHORTLISTED_LEADS_TABLE ("{Applicants} = " +:+ py_str (VNum 7)) in
  http w [] get = Ok (Some [])
  /\ default [] (Some (@nil record)) = []
  /\ create_shortlisted_lead w (VNum 7) "reason" [] = (Ok tt, [EvRequest get]).
Proof.
  intros w get.
  assert (Hfetch : http w [] get = Ok (Some [])) by reflexivity.
  assert (Hnone : default [] (Some (@nil record)) = []) by reflexivity.
  repeat (split; [assumption|]).
  exact (proj2 (proj2 (lead_write_only_on_shortlisted w)) (VNum 7) "reason" [] _
           Hfetch Hnone).
Defined.

(** C4 as stated fails.  Every attempt on the model fails, so each call
    of the port exhausts its retries and answers [None]; the Experience
    Evaluator still returns, and passes the applicant on the years, and
    the Location Evaluator still returns, and fails the criterion. *)
Lemma classification_failure_does_not_abort :
  let w := Examples.world Examples.lost Examples.model_down Examples.geocoder_berlin in
  fst (classify w (experience_prompt "infosys") []) = Ok None
  /\ fst (check_experience w (VNum 7) [])
     = Ok (true, "Experience: 5.0 years, Tier-1: No")
  /\ fst (check_location w (VNum 7) [])
     = Ok (false, "Location: Atlantis (Not in allowed list)").
Proof. vm_compute. repeat split; reflexivity. Qed.

Lemma classification_failure_is_a_no_witness :
  let w := Examples.world Examples.lost Examples.model_down Examples.geocoder_berlin in
  model_always_fails w
  /\ fst (classify w (experience_prompt "infosys") []) = Ok None
  /\ (exists ok reason,
        fst (check_experience w (VNum 7) []) = Ok (ok, reason)
        /\ (ok = true <->
            (MIN_YEARS_EXPERIENCE
             <= inject_Z (sum_days w (Examples.work Examples.lost)) / (36525 # 100))%Q
            /\ (0 < inject_Z (sum_days w (Examples.work Examples.lost)) / (36525 # 100))%Q))
  /\ fst (check_location w (VNum 7) [])
     = Ok (location_rejected (first_fields (Examples.personal Examples.lost))).
Proof.
  intros w.
  assert (Hdown : model_always_fails w) by (intros h prompt; now exists ServiceError).
  destruct (classification_failure_is_a_no w Hdown (VNum 7)) as (Hport & Hexp & Hloc).
  split; [exact Hdown|]. split; [apply Hport|]. split.
  - apply (Hexp [] (Some (Examples.work Examples.lost)) eq_refl).
    repeat constructor.
  - apply (Hloc [] (Some (Examples.personal Examples.lost)) "Atlantis"
             (location_prompt "atlantis")); reflexivity.
Defined.

(** C6 at a location with braces.  The geocoder finds nothing, and the
    model would answer ["Yes"]; but [str.format] reads [{india}] in the
    prompt as a replacement field and raises, inside the
    [except AttributeError] block.  The evaluator raises without a single
    call of the port. *)
Theorem check_location_braces_raise :
  let w := Examples.world Examples.braces Examples.model_yes Examples.geocoder_berlin in
  let get := Get PERSONAL_DETAILS_TABLE (applicants_filter (VNum 7)) in
  first_fields (Examples.personal Examples.braces) !! "Location"
  = Some (VStr "Remote {India}")
  /\ nominatim w [EvRequest get] "remote {india}" = Ok None
  /\ (forall h prompt, gemini w h prompt = Ok (Some "Yes"))
  /\ check_location w (VNum 7) []
     = (Raise KeyError, [EvRequest get; EvGeocode "remote {india}"])
  /\ classify_calls (snd (check_location w (VNum 7) [])) = 0%nat
  /\ fst (process_applicant w Examples.applicant []) = Raise KeyError.
Proof. vm_compute. repeat split; reflexivity. Qed.

(** C8 on the primary path.  The personal record says ["Berlin"], the
    geocoder resolves it to Germany, and the reason reads ["None"]: the
    branch looks the text up under the key ["location"], which the record
    does not have. *)
Theorem check_location_geocoded_reason_loses_text :
  let w := Examples.world Examples.steady Examples.model_google Examples.geocoder_berlin in
  let get := Get PERSONAL_DETAILS_TABLE (applicants_filter (VNum 7)) in
  first_fields (Examples.personal Examples.steady) !! "Location" = Some (VStr "Berlin")
  /\ check_location w (VNum 7) []
     = (Ok (true, "Location: None (Allowed)"), [EvRequest get; EvGeocode "berlin"]).
Proof. vm_compute. repeat split; reflexivity. Qed.


(** * Further properties of the code *)

(** ** [LLMClient.generate_content]: the retry loop *)

Section Retry.
Context `{rt : PyRuntime} (w : World).
Variables (prompt : string) (backoff_factor : Z).

Lemma attempts_from s m :
  map Z.of_nat (seq s (S m)) = Z.of_nat s :: map Z.of_nat (seq (S s) m).
Proof. reflexivity. Qed.

(** A pause that [time.sleep] takes. *)
Lemma sleep_taken seconds h :
  can_sleep seconds -> sleep seconds h = (Ok tt, h ++ [EvSleep seconds]).
Proof.
  intros [Hlo Hhi]. apply sleep_run. unfold SLEEP_MAX. lia.
Qed.


Lemma of_nat_succ_add (s i : nat) : Z.of_nat (S s + i) = Z.of_nat (s + S i).
Proof. lia. Qed.

(** The loop on the attempts [s, ..., s + m - 1], the last of which is
    attempt [max_retries - 1]: when the first [j] of them fail and the
    next one succeeds, its text is returned. *)
Lemma generate_content_loop_success max_retries text j :
  forall s m h,
    (j < m)%nat ->
    Z.of_nat (s + m) = max_retries ->
    (forall i, (i < j)%nat -> can_sleep (backoff_factor ^ Z.of_nat (s + i))) ->
    (forall i, (i < j)%nat ->
       exists e, gemini w (h ++ failed_attempts prompt backoff_factor (Z.of_nat s) i) prompt
                 = Raise e) ->
    gemini w (h ++ failed_attempts prompt backoff_factor (Z.of_nat s) j) prompt = Ok text ->
    generate_content_loop w prompt max_retries backoff_factor
      (map Z.of_nat (seq s m)) h
    = (Ok text,
       h ++ failed_attempts prompt backoff_factor (Z.of_nat s) j ++ [EvGemini prompt]).
Proof.
  induction j as [|j IH]; intros s m h Hjm Hn Hsleep Hfail Hok.
  - destruct m as [|m]; [lia|]. rewrite attempts_from.
    cbn [generate_content_loop failed_attempts app] in *. rewrite app_nil_r in Hok.
    eff_unfold. now rewrite Hok.
  - destruct m as [|m]; [lia|]. rewrite attempts_from.
    cbn [generate_content_loop]. eff_unfold.
    destruct (Hfail 0%nat ltac:(lia)) as [e He].
    cbn [failed_attempts] in He. rewrite app_nil_r in He. rewrite He.
    replace (Z.of_nat s <? max_retries - 1) with true
      by (symmetry; apply Z.ltb_lt; lia).
    pose proof (Hsleep 0%nat ltac:(lia)) as Hfirst.
    rewrite Nat.add_0_r in Hfirst. rewrite (sleep_taken _ _ Hfirst).
    rewrite (IH (S s) m); try lia.
    + cbn [failed_attempts]. rewrite <- !app_assoc. cbn [app].
      now replace (Z.of_nat (S s)) with (Z.of_nat s + 1) by lia.
    + intros i Hi. rewrite of_nat_succ_add. apply Hsleep. lia.
    + intros i Hi. destruct (Hfail (S i) ltac:(lia)) as [e' He'].
      exists e'. rewrite <- He'. cbn [failed_attempts].
      rewrite <- !app_assoc. cbn [app].
      now replace (Z.of_nat (S s)) with (Z.of_nat s + 1) by lia.
    + rewrite <- Hok. cbn [failed_attempts]. rewrite <- !app_assoc. cbn [app].
      now replace (Z.of_nat (S s)) with (Z.of_nat s + 1) by lia.
Qed.

(** The same loop when every attempt fails: [None], after the last
    attempt and without a pause behind it. *)
Lemma generate_content_loop_exhausted max_retries :
  forall m s h,
    Z.of_nat (s + S m) = max_retries ->
    (forall i, (i < m)%nat -> can_sleep (backoff_factor ^ Z.of_nat (s + i))) ->
    (forall i, (i <= m)%nat ->
       exists e, gemini w (h ++ failed_attempts prompt backoff_factor (Z.of_nat s) i) prompt
                 = Raise e) ->
    generate_content_loop w prompt max_retries backoff_factor
      (map Z.of_nat (seq s (S m))) h
    = (Ok None,
       h ++ failed_attempts prompt backoff_factor (Z.of_nat s) m ++ [EvGemini prompt]).
Proof.
  induction m as [|m IH]; intros s h Hn Hsleep Hfail; rewrite attempts_from;
    cbn [generate_content_loop]; eff_unfold;
    destruct (Hfail 0%nat ltac:(lia)) as [e He];
    cbn [failed_attempts] in He; rewrite app_nil_r in He; rewrite He.
  - replace (Z.of_nat s <? max_retries - 1) with false
      by (symmetry; apply Z.ltb_ge; lia).
    reflexivity.
  - replace (Z.of_nat s <? max_retries - 1) with true
      by (symmetry; apply Z.ltb_lt; lia).
    pose proof (Hsleep 0%nat ltac:(lia)) as Hfirst.
    rewrite Nat.add_0_r in Hfirst. rewrite (sleep_taken _ _ Hfirst).
    rewrite (IH (S s)); try lia.
    + cbn [failed_attempts]. rewrite <- !app_assoc. cbn [app].
      now replace (Z.of_nat (S s)) with (Z.of_nat s + 1) by lia.
    + intros i Hi. rewrite of_nat_succ_add. apply Hsleep. lia.
    + intros i Hi. destruct (Hfail (S i) ltac:(lia)) as [e' He'].
      exists e'. rewrite <- He'. cbn [failed_attempts].
      rewrite <- !app_assoc. cbn [app].
      now replace (Z.of_nat (S s)) with (Z.of_nat s + 1) by lia.
Qed.

(** Whatever the model does, the loop makes at least one attempt and at
    most as many as remain, pauses after each attempt but the last, and
    returns, provided [time.sleep] accepts the pauses. *)
Lemma generate_content_loop_shape max_retries :
  forall m s h,
    Z.of_nat (s + S m) = max_retries ->
    (forall i, (i < m)%nat -> can_sleep (backoff_factor ^ Z.of_nat (s + i))) ->
    exists answer k,
      (k <= m)%nat
      /\ generate_content_loop w prompt max_retries backoff_factor
           (map Z.of_nat (seq s (S m))) h
         = (Ok answer,
            h ++ failed_attempts prompt backoff_factor (Z.of_nat s) k ++ [EvGemini prompt]).
Proof.
  induction m as [|m IH]; intros s h Hn Hsleep; rewrite attempts_from;
    cbn [generate_content_loop]; eff_unfold;
    destruct (gemini w h prompt) as [text|e].
  - exists text, 0%nat. split; [lia|reflexivity].
  - replace (Z.of_nat s <? max_retries - 1) with false
      by (symmetry; apply Z.ltb_ge; lia).
    exists None, 0%nat. split; [lia|reflexivity].
  - exists text, 0%nat. split; [lia|reflexivity].
  - replace (Z.of_nat s <? max_retries - 1) with true
      by (symmetry; apply Z.ltb_lt; lia).
    pose proof (Hsleep 0%nat ltac:(lia)) as Hfirst.
    rewrite Nat.add_0_r in Hfirst. rewrite (sleep_taken _ _ Hfirst).
    destruct (IH (S s) ((h ++ [EvGemini prompt]) ++ [EvSleep (backoff_factor ^ Z.of_nat s)])
                ltac:(lia)
                ltac:(intros i Hi; rewrite of_nat_succ_add; apply Hsleep; lia))
      as (answer & k & Hk & E).
    exists answer, (S k). split; [lia|]. rewrite E.
    cbn [failed_attempts]. rewrite <- !app_assoc. cbn [app].
    now replace (Z.of_nat (S s)) with (Z.of_nat s + 1) by lia.
Qed.


Lemma range_seq (n : nat) : range (Z.of_nat n) = map Z.of_nat (seq 0 n).
Proof. unfold range. now rewrite Nat2Z.id. Qed.

(** X1.  Bounded retries.  A call of [generate_content] with
    [max_retries = n >= 1] and pauses [backoff_factor ** attempt] that
    [time.sleep] takes (none negative, none too long) does not raise
    and makes between one and [n] attempts on the model; every attempt
    but the last is followed by its pause and nothing follows the last
    one. *)
Theorem generate_content_bounded (n : nat) h :
  (1 <= n)%nat ->
  (forall i, (i + 1 < n)%nat -> can_sleep (backoff_factor ^ Z.of_nat i)) ->
  exists answer k,
    (k < n)%nat
    /\ generate_content w prompt (Z.of_nat n) backoff_factor h
       = (Ok answer,
          attempt_history h prompt backoff_factor k ++ [EvGemini prompt]).
Proof.
  intros Hn Hsleep. destruct n as [|m]; [lia|].
  unfold generate_content. eff_unfold. rewrite range_seq.
  destruct (generate_content_loop_shape (Z.of_nat (S m)) m 0%nat
              (h ++ [EvClassify prompt]) eq_refl
              ltac:(intros i Hi; apply Hsleep; lia)) as (answer & k & Hk & E).
  exists answer, k. split; [lia|]. rewrite E. unfold attempt_history.
  rewrite <- !app_assoc. reflexivity.
Qed.

(** X2.  The first success wins.  When the first [j] attempts raise,
    [time.sleep] accepts the [j] pauses behind them and attempt
    [j < max_retries] answers, [generate_content] returns the text of
    that answer after [j + 1] attempts and [j] pauses; later attempts
    are not made. *)
Theorem generate_content_first_success (n j : nat) h text :
  (j < n)%nat ->
  (forall i, (i < j)%nat -> can_sleep (backoff_factor ^ Z.of_nat i)) ->
  (forall i, (i < j)%nat ->
     exists e, gemini w (attempt_history h prompt backoff_factor i) prompt = Raise e) ->
  gemini w (attempt_history h prompt backoff_factor j) prompt = Ok text ->
  generate_content w prompt (Z.of_nat n) backoff_factor h
  = (Ok text, attempt_history h prompt backoff_factor j ++ [EvGemini prompt]).
Proof.
  intros Hj Hsleep Hfail Hok. unfold generate_content. eff_unfold. rewrite range_seq.
  unfold attempt_history in *.
  rewrite (generate_content_loop_success (Z.of_nat n) text j 0%nat n
             (h ++ [EvClassify prompt]) Hj eq_refl Hsleep).
  - now rewrite <- !app_assoc.
  - intros i Hi. destruct (Hfail i Hi) as [e He]. exists e.
    now rewrite <- app_assoc.
  - now rewrite <- app_assoc.
Qed.

(** X3.  Exhaustion.  When all [max_retries] attempts raise and
    [time.sleep] accepts the pauses between them, [generate_content]
    returns [None] after exactly [max_retries] attempts and
    [max_retries - 1] pauses; with [max_retries = 0] it returns [None]
    without calling the model at all. *)
Theorem generate_content_exhausted (n : nat) h :
  (forall i, (i + 1 < n)%nat -> can_sleep (backoff_factor ^ Z.of_nat i)) ->
  (forall i, (i < n)%nat ->
     exists e, gemini w (attempt_history h prompt backoff_factor i) prompt = Raise e) ->
  generate_content w prompt (Z.of_nat n) backoff_factor h
  = (Ok None,
     match n with
     | O => h ++ [EvClassify prompt]
     | S m => attempt_history h prompt backoff_factor m ++ [EvGemini prompt]
     end).
Proof.
  intros Hsleep Hfail. unfold generate_content. eff_unfold. rewrite range_seq.
  destruct n as [|m]; [reflexivity|]. unfold attempt_history in *.
  rewrite (generate_content_loop_exhausted (Z.of_nat (S m)) m 0%nat
             (h ++ [EvClassify prompt]) eq_refl
             ltac:(intros i Hi; apply Hsleep; lia)).
  - now rewrite <- !app_assoc.
  - intros i Hi. destruct (Hfail i ltac:(lia)) as [e He]. exists e.
    now rewrite <- app_assoc.
Qed.


End Retry.


Lemma two_pauses_accepted :
  forall i, (i + 1 < 3)%nat -> can_sleep (2 ^ Z.of_nat i).
Proof.
  intros i Hi. assert (i = 0 \/ i = 1)%nat as [-> | ->] by lia;
    vm_compute; split; discriminate.
Qed.

Lemma generate_content_bounded_witness :
  let w := Examples.world Examples.steady Examples.model_google Examples.geocoder_berlin in
  (1 <= 3)%nat
  /\ (forall i, (i + 1 < 3)%nat -> can_sleep (2 ^ Z.of_nat i))
  /\ exists answer k,
       (k < 3)%nat
       /\ generate_content w "Is it so?" (Z.of_nat 3) 2 []
          = (Ok answer, attempt_history [] "Is it so?" 2 k ++ [EvGemini "Is it so?"]).
Proof.
  intros w. assert (H : (1 <= 3)%nat) by lia. split; [exact H|].
  split; [exact two_pauses_accepted|].
  exact (generate_content_bounded w "Is it so?" 2 3 [] H two_pauses_accepted).
Defined.

Lemma generate_content_first_success_witness :
  let w := MoreExamples.flaky in
  (1 < 3)%nat
  /\ (forall i, (i < 1)%nat -> can_sleep (2 ^ Z.of_nat i))
  /\ (forall i, (i < 1)%nat ->
        exists e, gemini w (attempt_history [] "Is it so?" 2 i) "Is it so?" = Raise e)
  /\ gemini w (attempt_history [] "Is it so?" 2 1) "Is it so?" = Ok (Some "Yes")
  /\ generate_content w "Is it so?" (Z.of_nat 3) 2 []
     = (Ok (Some "Yes"),
        [EvClassify "Is it so?"; EvGemini "Is it so?"; EvSleep 1; EvGemini "Is it so?"]).
Proof.
  intros w.
  assert (Hj : (1 < 3)%nat) by lia.
  assert (Hsleep : forall i, (i < 1)%nat -> can_sleep (2 ^ Z.of_nat i))
    by (intros i Hi; apply two_pauses_accepted; lia).
  assert (Hfail : forall i, (i < 1)%nat ->
            exists e, gemini w (attempt_history [] "Is it so?" 2 i) "Is it so?" = Raise e).
  { intros i Hi. assert (i = 0%nat) as -> by lia. now exists ServiceError. }
  assert (Hok : gemini w (attempt_history [] "Is it so?" 2 1) "Is it so?" = Ok (Some "Yes"))
    by reflexivity.
  repeat (split; [assumption|]).
  exact (generate_content_first_success w "Is it so?" 2 3 1 [] _ Hj Hsleep Hfail Hok).
Defined.

Lemma generate_content_exhausted_witness :
  let w := Examples.world Examples.steady Examples.model_down Examples.geocoder_berlin in
  (forall i, (i + 1 < 3)%nat -> can_sleep (2 ^ Z.of_nat i))
  /\ (forall i, (i < 3)%nat ->
        exists e, gemini w (attempt_history [] "Is it so?" 2 i) "Is it so?" = Raise e)
  /\ generate_content w "Is it so?" (Z.of_nat 3) 2 []
     = (Ok None,
        [EvClassify "Is it so?"; EvGemini "Is it so?"; EvSleep 1; EvGemini "Is it so?";
         EvSleep 2; EvGemini "Is it so?"]).
Proof.
  intros w.
  assert (Hfail : forall i, (i < 3)%nat ->
            exists e, gemini w (attempt_history [] "Is it so?" 2 i) "Is it so?" = Raise e)
    by (intros i _; now exists ServiceError).
  split; [exact two_pauses_accepted|]. split; [exact Hfail|].
  exact (generate_content_exhausted w "Is it so?" 2 3 [] two_pauses_accepted Hfail).
Defined.


(** ** [AirtableClient]: one round-trip, one kind of failure *)

Section Client.
Context `{rt : PyRuntime} (w : World).

(** X4.  [upsert_record] makes exactly one HTTP round-trip: a PATCH of
    the given record when the id is a non-empty text, a POST when the id
    is [None] or empty.  It returns what the server answered, and the
    only exception that leaves it is [AirtableAPIError]. *)
Theorem upsert_record_dispatch table_name record_id fields h :
  let r := match record_id with
           | Some rid => if String.eqb rid EmptyString then Post table_name fields
                         else Patch table_name rid fields
           | None => Post table_name fields
           end in
  upsert_record w table_name record_id fields h
  = (match http w h r with
     | Ok x => Ok x
     | Raise _ => Raise AirtableAPIError
     end, h ++ [EvRequest r]).
Proof.
  intros r. subst r. unfold upsert_record, create_record, update_record.
  destruct record_id as [rid|]; [destruct (String.eqb rid EmptyString)|];
    apply request_run.
Qed.

End Client.


(** ** [check_experience]: calls of the port, edge cases, ill-typed entries *)

Lemma classify_calls_prompts h : classify_calls h = List.length (classify_prompts h).
Proof.
  unfold classify_calls. induction h as [|ev h IH]; [reflexivity|].
  destruct ev; cbn [List.filter classify_prompts List.length]; now rewrite ?IH.
Qed.

Lemma classify_prompts_app h1 h2 :
  classify_prompts (h1 ++ h2) = classify_prompts h1 ++ classify_prompts h2.
Proof.
  induction h1 as [|ev h1 IH]; [reflexivity|].
  destruct ev; cbn [app classify_prompts]; now rewrite IH.
Qed.

Lemma classify_prompts_none h : classify_calls h = 0%nat -> classify_prompts h = [].
Proof.
  rewrite classify_calls_prompts. now destruct (classify_prompts h).
Qed.

Lemma years_not_positive (days : Z) :
  days <= 0 -> Qle_bool (total_years_of days) 0 = true.
Proof.
  intros Hd. apply Qle_bool_iff. unfold total_years_of, Qle, Qdiv, Qmult, Qinv.
  cbn. nia.
Qed.

Lemma years_are_positive (days : Z) :
  0 < days -> Qle_bool (total_years_of days) 0 = false.
Proof.
  intros Hd. destruct (Qle_bool (total_years_of days) 0) eqn:E; [|reflexivity].
  apply Qle_bool_iff in E. unfold total_years_of, Qle, Qdiv, Qmult, Qinv in E.
  cbn in E. nia.
Qed.

Section ExperienceMore.
Context `{rt : PyRuntime} (w : World).

Lemma classify_all_trace experiences :
  forall h, exists new,
    snd (classify_all w h experiences) = h ++ new
    /\ classify_prompts new = map entry_prompt experiences.
Proof.
  induction experiences as [|x xs IH]; intros h.
  - exists []. cbn. now rewrite app_nil_r.
  - destruct (classify_returns w (entry_prompt x) h) as (answer & n1 & E & _ & C).
    rewrite (classify_all_cons w _ _ _ _ _ E). cbn [snd].
    destruct (IH (h ++ EvClassify (entry_prompt x) :: n1)) as (n2 & E2 & P2).
    exists (EvClassify (entry_prompt x) :: n1 ++ n2).
    rewrite E2, <- app_assoc. split; [reflexivity|].
    cbn [classify_prompts map]. rewrite classify_prompts_app, P2.
    now rewrite (classify_prompts_none n1 C).
Qed.

(** X5.  One call of the port per entry.  On a well-typed work history
    the evaluator fetches once and then calls [generate_content] exactly
    once for every entry, in the order of the entries and with the prompt
    of the lower-cased company name, whether or not the entry has usable
    dates. *)
Theorem check_experience_one_call_per_entry applicant_id h resp :
  http w h (Get WORK_EXPERIENCE_TABLE (applicants_filter applicant_id)) = Ok resp ->
  Forall (fun x => entry_wf x = true) (default [] resp) ->
  exists new,
    snd (check_experience w applicant_id h)
    = h ++ EvRequest (Get WORK_EXPERIENCE_TABLE (applicants_filter applicant_id)) :: new
    /\ classify_prompts new = map entry_prompt (default [] resp)
    /\ classify_calls new = List.length (default [] resp).
Proof.
  intros Hfetch Hwf.
  rewrite (check_experience_run w applicant_id h resp Hfetch Hwf). cbn [snd].
  destruct (classify_all_trace (default [] resp)
              (h ++ [EvRequest (Get WORK_EXPERIENCE_TABLE (applicants_filter applicant_id))]))
    as (new & E & P).
  exists new. rewrite E, <- app_assoc. split; [reflexivity|]. split; [exact P|].
  now rewrite classify_calls_prompts, P, length_map.
Qed.

(** X6.  No experience, no pass.  When the days of the entries add up to
    zero or less (no entry, no usable dates, or ends before starts), the
    evaluator fails whatever the port answered, and the reason says
    ["Tier-1: No"]. *)
Theorem check_experience_no_days applicant_id h resp :
  http w h (Get WORK_EXPERIENCE_TABLE (applicants_filter applicant_id)) = Ok resp ->
  Forall (fun x => entry_wf x = true) (default [] resp) ->
  sum_days w (default [] resp) <= 0 ->
  fst (check_experience w applicant_id h)
  = Ok (false,
        "Experience: " +:+ num_fmt1 (total_years_of (sum_days w (default [] resp)))
        +:+ " years (below min), Tier-1: No").
Proof.
  intros Hfetch Hwf Hdays.
  rewrite (check_experience_run w applicant_id h resp Hfetch Hwf). cbn [fst].
  unfold experience_verdict. rewrite observe_total.
  rewrite (years_not_positive _ Hdays). cbn [negb]. now rewrite andb_false_r.
Qed.

(** X7.  Tier-1 stands in for the years.  An applicant whose only entry
    is answered ["Yes"] by the port and lasts at least one day passes,
    however short the entry, and the reason says ["Tier-1: Yes"]. *)
Theorem check_experience_tier_1_only applicant_id h x days :
  let get := Get WORK_EXPERIENCE_TABLE (applicants_filter applicant_id) in
  http w h get = Ok (Some [x]) ->
  entry_wf x = true ->
  fst (classify w (entry_prompt x) (h ++ [EvRequest get])) = Ok (Some "Yes") ->
  entry_span w (rec_fields x) = Some days ->
  0 < days ->
  fst (check_experience w applicant_id h)
  = Ok (true,
        "Experience: " +:+ num_fmt1 (total_years_of days) +:+ " years, Tier-1: Yes").
Proof.
  intros get Hfetch Hwf Hyes Hspan Hpos.
  assert (Hall : Forall (fun x => entry_wf x = true) (default [] (Some [x])))
    by (repeat constructor; exact Hwf).
  rewrite (check_experience_run w applicant_id h _ Hfetch Hall).
  cbn [fst from_option id]. fold get. unfold observe. cbn [classify_all map].
  destruct (classify w (entry_prompt x) (h ++ [EvRequest get])) as [[answer|e] h'];
    cbn [fst] in Hyes; [|discriminate].
  injection Hyes as ->. cbn [fst zip zip_with]. rewrite Hspan.
  unfold experience_fold, experience_verdict. cbn [fold_left experience_step fst snd].
  cbn [exp_init temp_tier_1 total_days worked_at_tier_1 is_yes].
  replace (0 + days) with days by lia.
  rewrite (years_are_positive _ Hpos).
  replace (0 <? days) with true by (symmetry; apply Z.ltb_lt; lia).
  cbn. now rewrite orb_true_r.
Qed.

(** X8.  Ill-typed entries are not skipped.  The [except] clause of the
    loop catches [ValueError] and [TypeError] only.  A first entry whose
    company is not text raises [AttributeError] before the port is
    called; a first entry whose start date parses and whose end date is
    a non-zero number raises [AttributeError] after its call of the
    port.  In both cases the evaluator raises and the later entries are
    not visited. *)
Theorem check_experience_attribute_error applicant_id h x rest :
  let get := Get WORK_EXPERIENCE_TABLE (applicants_filter applicant_id) in
  http w h get = Ok (Some (x :: rest)) ->
  (py_lower (dict_get (rec_fields x) "Company" (VStr EmptyString)) = Raise AttributeError ->
   check_experience w applicant_id h = (Raise AttributeError, h ++ [EvRequest get]))
  /\ (forall company start_date q,
        dict_get (rec_fields x) "Company" (VStr EmptyString) = VStr company ->
        py_strptime (dict_get_none (rec_fields x) "Start") = Ok start_date ->
        truthy (dict_get_none (rec_fields x) "Start") = true ->
        dict_get_none (rec_fields x) "End" = VNum q ->
        ~ (q == 0)%Q ->
        check_experience w applicant_id h
        = (Raise AttributeError,
           snd (classify w (experience_prompt (str_lower company)) (h ++ [EvRequest get])))).
Proof.
  intros get Hfetch. split.
  - intros Hcompany. unfold check_experience, fetch_records.
    rewrite (bind_ok _ _ _ _ _ (request_ok w _ _ _ Hfetch)).
    cbn [from_option id for_each]. unfold experience_body. eff_unfold.
    now rewrite Hcompany.
  - intros company start_date q Hcompany Hstart Htruthy Hend Hq.
    unfold check_experience, fetch_records.
    rewrite (bind_ok _ _ _ _ _ (request_ok w _ _ _ Hfetch)).
    cbn [from_option id for_each]. unfold experience_body. rewrite Hcompany.
    cbn [py_lower]. fold get.
    destruct (classify_returns w (experience_prompt (str_lower company))
                (h ++ [EvRequest get])) as (answer & new & E & _).
    eff_unfold. rewrite E. cbn [snd].
    unfold experience_dates. rewrite Hend, Htruthy. cbn [truthy].
    rewrite (Qeq_bool_false _ _ Hq). cbn [negb orb]. eff_unfold.
    rewrite Hstart. cbn [py_lower is_value_or_type_error]. reflexivity.
Qed.

End ExperienceMore.


Lemma check_experience_attribute_error_witness :
  let get := Get WORK_EXPERIENCE_TABLE (applicants_filter (VNum 7)) in
  let w1 := Examples.career [MoreExamples.numeric_company; Examples.infosys_year] in
  let w2 := Examples.career [MoreExamples.numeric_end; Examples.infosys_year] in
  http w1 [] get = Ok (Some [MoreExamples.numeric_company; Examples.infosys_year])
  /\ http w2 [] get = Ok (Some [MoreExamples.numeric_end; Examples.infosys_year])
  /\ check_experience w1 (VNum 7) [] = (Raise AttributeError, [EvRequest get])
  /\ check_experience w2 (VNum 7) []
     = (Raise AttributeError,
        [EvRequest get; EvClassify (experience_prompt "infosys");
         EvGemini (experience_prompt "infosys")]).
Proof.
  intros get w1 w2.
  assert (H1 : http w1 [] get
               = Ok (Some [MoreExamples.numeric_company; Examples.infosys_year]))
    by reflexivity.
  assert (H2 : http w2 [] get
               = Ok (Some [MoreExamples.numeric_end; Examples.infosys_year]))
    by reflexivity.
  repeat (split; [assumption|]). split.
  - apply (proj1 (check_experience_attribute_error w1 (VNum 7) [] _ _ H1)).
    vm_compute. reflexivity.
  - apply (proj2 (check_experience_attribute_error w2 (VNum 7) [] _ _ H2)
             "Infosys" 737060 2024%Q); try (vm_compute; reflexivity).
    discriminate.
Defined.

Lemma check_experience_one_call_per_entry_witness :
  let get := Get WORK_EXPERIENCE_TABLE (applicants_filter (VNum 7)) in
  let experiences := [Examples.google_no_days; Examples.infosys_year] in
  let w := Examples.career experiences in
  http w [] get = Ok (Some experiences)
  /\ Forall (fun x => entry_wf x = true) experiences
  /\ exists new,
       snd (check_experience w (VNum 7) []) = [] ++ EvRequest get :: new
       /\ classify_prompts new = [experience_prompt "google"; experience_prompt "infosys"]
       /\ classify_calls new = 2%nat.
Proof.
  intros get experiences w.
  assert (Hfetch : http w [] get = Ok (Some experiences)) by reflexivity.
  assert (Hwf : Forall (fun x => entry_wf x = true) experiences) by (repeat constructor).
  repeat (split; [assumption|]).
  exact (check_experience_one_call_per_entry w (VNum 7) [] _ Hfetch Hwf).
Defined.

Lemma check_experience_no_days_witness :
  let get := Get WORK_EXPERIENCE_TABLE (applicants_filter (VNum 7)) in
  let experiences := [MoreExamples.backwards] in
  let w := Examples.career experiences in
  http w [] get = Ok (Some experiences)
  /\ Forall (fun x => entry_wf x = true) experiences
  /\ sum_days w experiences <= 0
  /\ fst (check_experience w (VNum 7) [])
     = Ok (false, "Experience: -1.0 years (below min), Tier-1: No").
Proof.
  intros get experiences w.
  assert (Hfetch : http w [] get = Ok (Some experiences)) by reflexivity.
  assert (Hwf : Forall (fun x => entry_wf x = true) experiences) by (repeat constructor).
  assert (Hdays : sum_days w experiences <= 0) by (vm_compute; discriminate).
  repeat (split; [assumption|]).
  exact (check_experience_no_days w (VNum 7) [] _ Hfetch Hwf Hdays).
Defined.

Lemma check_experience_tier_1_only_witness :
  let get := Get WORK_EXPERIENCE_TABLE (applicants_filter (VNum 7)) in
  let w := Examples.career [MoreExamples.google_year] in
  http w [] get = Ok (Some [MoreExamples.google_year])
  /\ entry_wf MoreExamples.google_year = true
  /\ fst (classify w (entry_prompt MoreExamples.google_year) ([] ++ [EvRequest get]))
     = Ok (Some "Yes")
  /\ entry_span w (rec_fields MoreExamples.google_year) = Some 366
  /\ 0 < 366
  /\ fst (check_experience w (VNum 7) [])
     = Ok (true, "Experience: 1.0 years, Tier-1: Yes").
Proof.
  intros get w.
  assert (Hfetch : http w [] get = Ok (Some [MoreExamples.google_year])) by reflexivity.
  assert (Hwf : entry_wf MoreExamples.google_year = true) by reflexivity.
  assert (Hyes : fst (classify w (entry_prompt MoreExamples.google_year)
                        ([] ++ [EvRequest get])) = Ok (Some "Yes"))
    by (vm_compute; reflexivity).
  assert (Hspan : entry_span w (rec_fields MoreExamples.google_year) = Some 366)
    by (vm_compute; reflexivity).
  assert (Hpos : 0 < 366) by lia.
  repeat (split; [assumption|]).
  exact (check_experience_tier_1_only w (VNum 7) [] _ 366 Hfetch Hwf Hyes Hspan Hpos).
Defined.

(** ** [check_compensation]: values that raise, values that fail *)

Section CompensationMore.
Context `{rt : PyRuntime} (w : World).


(** X10.  A null availability fails, it does not raise.  With a
    numeric rate whose converted value, the float that the division
    gives, is within the maximum and an availability that is an explicit
    null, the test [availability is not None] makes the evaluator
    return a plain failure whose reason names the availability alone.
    Rates are numbers that a float holds exactly. *)
Theorem check_compensation_null_availability applicant_id h resp currency rate :
  let get := Get SALARY_PREFERENCES_TABLE (applicants_filter applicant_id) in
  http w h get = Ok resp ->
  let salary := first_fields (default [] resp) in
  salary !! "Availability (hrs/wk)" = Some VNone ->
  dict_get salary "Currency" (VStr "USD") = VStr currency ->
  dict_get salary "Preferred Rate" (VNum 0) = VNum rate ->
  let conversion := dict_get (CONVERSION_RATES w) (str_upper currency) 1%Q in
  is_binary64 rate = true ->
  is_binary64 conversion = true ->
  ~ (conversion == 0)%Q ->
  within_maximum (converted_rate rate conversion) ->
  check_compensation w applicant_id h
  = (Ok (false, str_strip "Availability Nonehrs (<20)"), h ++ [EvRequest get]).
Proof.
  intros get Hfetch salary Havail Hcur Hrate conversion _ _ Hnz Hle.
  unfold check_compensation, fetch_records.
  rewrite (bind_ok _ _ _ _ _ (request_ok w _ _ _ Hfetch)). fold salary.
  destruct (decide (salary = ∅)) as [E|_].
  { rewrite E, lookup_empty in Havail. discriminate. }
  assert (Ha : dict_get salary "Availability (hrs/wk)" (VNum 0) = VNone)
    by (unfold dict_get; now rewrite Havail).
  rewrite Hcur, Hrate, Ha. cbn [py_upper]. eff_unfold. cbn [py_div is_none py_ge].
  fold conversion. rewrite (Qeq_bool_false _ _ Hnz).
  unfold within_maximum, converted_rate in Hle. rewrite Hle. reflexivity.
Qed.

End CompensationMore.



Lemma check_compensation_null_availability_witness :
  let get := Get SALARY_PREFERENCES_TABLE (applicants_filter (VNum 7)) in
  let w := Examples.world ErrorExamples.null_availability Examples.model_google
             Examples.geocoder_berlin in
  let salary := first_fields (Examples.salary ErrorExamples.null_availability) in
  let conversion := dict_get (CONVERSION_RATES w) (str_upper "USD") 1%Q in
  http w [] get = Ok (Some (Examples.salary ErrorExamples.null_availability))
  /\ salary !! "Availability (hrs/wk)" = Some VNone
  /\ dict_get salary "Currency" (VStr "USD") = VStr "USD"
  /\ dict_get salary "Preferred Rate" (VNum 0) = VNum 50
  /\ is_binary64 50 = true
  /\ is_binary64 conversion = true
  /\ ~ (conversion == 0)%Q
  /\ within_maximum (converted_rate 50 conversion)
  /\ check_compensation w (VNum 7) []
     = (Ok (false, "Availability Nonehrs (<20)"), [EvRequest get]).
Proof.
  intros get w salary conversion.
  assert (Hfetch : http w [] get
                   = Ok (Some (Examples.salary ErrorExamples.null_availability)))
    by reflexivity.
  assert (Ha : salary !! "Availability (hrs/wk)" = Some VNone) by (vm_compute; reflexivity).
  assert (Hc : dict_get salary "Currency" (VStr "USD") = VStr "USD")
    by (vm_compute; reflexivity).
  assert (Hr : dict_get salary "Preferred Rate" (VNum 0) = VNum 50)
    by (vm_compute; reflexivity).
  assert (Hf : is_binary64 50 = true) by (vm_compute; reflexivity).
  assert (Hg : is_binary64 conversion = true) by (vm_compute; reflexivity).
  assert (Hnz : ~ (conversion == 0)%Q) by (vm_compute; discriminate).
  assert (Hle : within_maximum (converted_rate 50 conversion))
    by (vm_compute; reflexivity).
  repeat (split; [assumption|]).
  exact (check_compensation_null_availability w (VNum 7) [] _ "USD" 50
           Hfetch Ha Hc Hr Hf Hg Hnz Hle).
Defined.

(** The converted rate is a float.  138 at the snapshot rate 1.38, which
    in exact decimal arithmetic is 100, converts to 100.00000000000001:
    the applicant is over the maximum. *)
Lemma check_compensation_rounded_quotient :
  converted_rate 138 ErrorExamples.cad_rate = S754_finite false 7036874417766401 (-46)
  /\ fst (check_compensation ErrorExamples.canadian (VNum 7) [])
     = Ok (false, "Compensation: Rate $138 (>100)").
Proof. split; vm_compute; reflexivity. Qed.

(** ** [check_location]: the country, the geocoder's failures, missing data *)

Lemma last_segment_from_comma_free s :
  comma_free s = true -> forall acc, last_segment_from acc s = acc.
Proof.
  induction s as [|c s IH]; intros Hs acc; [reflexivity|].
  cbn [comma_free] in Hs. apply andb_true_iff in Hs as [Hc Hs].
  cbn [last_segment_from]. apply negb_true_iff in Hc. rewrite Hc. now apply IH.
Qed.

Lemma last_segment_from_app prefix rest :
  comma_free rest = true ->
  forall acc, last_segment_from acc (prefix +:+ "," +:+ rest) = rest.
Proof.
  intros Hrest. induction prefix as [|c p IH]; intros acc.
  - change (EmptyString +:+ "," +:+ rest) with (String ","%char rest).
    cbn [last_segment_from]. rewrite Ascii.eqb_refl.
    now apply last_segment_from_comma_free.
  - change (String c p +:+ "," +:+ rest) with (String c (p +:+ "," +:+ rest)).
    cbn [last_segment_from]. destruct (Ascii.eqb c ","%char); apply IH.
Qed.

(** The text after the last comma. *)
Lemma last_segment_app prefix rest :
  comma_free rest = true -> last_segment (prefix +:+ "," +:+ rest) = rest.
Proof. intros H. now apply last_segment_from_app. Qed.

Lemma last_segment_comma_free s : comma_free s = true -> last_segment s = s.
Proof. intros H. now apply last_segment_from_comma_free. Qed.

Section LocationMore.
Context `{rt : PyRuntime} (w : World).

(** X11.  Only the last segment of the address counts.  When the
    geocoder resolves the location, the country is the text after the
    last comma of the address, stripped; the evaluator passes when it is
    in the allow-list and fails otherwise, whatever the earlier segments
    say, and in neither case calls the port. *)
Theorem check_location_country applicant_id h resp text prefix country :
  let get := Get PERSONAL_DETAILS_TABLE (applicants_filter applicant_id) in
  http w h get = Ok resp ->
  let personal := first_fields (default [] resp) in
  dict_get personal "Location" (VStr EmptyString) = VStr text ->
  nominatim w (h ++ [EvRequest get]) (str_lower text)
  = Ok (Some (prefix +:+ "," +:+ country)) ->
  comma_free country = true ->
  check_location w applicant_id h
  = (Ok (if existsb (String.eqb (str_strip country)) ALLOWED_LOCATIONS
         then location_allowed personal "location"
         else location_rejected personal),
     h ++ [EvRequest get; EvGeocode (str_lower text)]).
Proof.
  intros get Hfetch personal Htext Hgeo Hfree.
  unfold check_location, fetch_records.
  rewrite (bind_ok _ _ _ _ _ (request_ok w _ _ _ Hfetch)). fold personal.
  rewrite Htext. cbn [py_lower]. unfold location_geocode. eff_unfold.
  rewrite Hgeo, (last_segment_app _ _ Hfree), <- app_assoc.
  now destruct (existsb _ _).
Qed.

(** X12.  The geocoder's failures.  An exception of the geocoder other
    than [AttributeError] is swallowed: the evaluator fails the location
    without calling the port.  An [AttributeError] raised by the
    geocoder itself is taken for "no address found" and sends the
    evaluator down the fallback: one call of the port decides. *)
Theorem check_location_geocoder_error applicant_id h resp text e :
  let get := Get PERSONAL_DETAILS_TABLE (applicants_filter applicant_id) in
  http w h get = Ok resp ->
  let personal := first_fields (default [] resp) in
  dict_get personal "Location" (VStr EmptyString) = VStr text ->
  let location := str_lower text in
  nominatim w (h ++ [EvRequest get]) location = Raise e ->
  (e <> AttributeError ->
   check_location w applicant_id h
   = (Ok (location_rejected personal), h ++ [EvRequest get; EvGeocode location]))
  /\ (e = AttributeError ->
      forall prompt,
        str_format (location_prompt location) (location_kw location) = Ok prompt ->
        exists answer new,
          classify w prompt (h ++ [EvRequest get; EvGeocode location])
          = (Ok answer, h ++ EvRequest get :: EvGeocode location :: EvClassify prompt :: new)
          /\ classify_calls new = 0%nat
          /\ check_location w applicant_id h
             = (Ok (if is_yes answer then location_allowed personal "Location"
                    else location_rejected personal),
                h ++ EvRequest get :: EvGeocode location :: EvClassify prompt :: new)).
Proof.
  intros get Hfetch personal Htext location Hgeo. split.
  - intros Hne. unfold check_location, fetch_records.
    rewrite (bind_ok _ _ _ _ _ (request_ok w _ _ _ Hfetch)). fold personal.
    rewrite Htext. cbn [py_lower]. unfold location_geocode. eff_unfold.
    fold location. rewrite Hgeo, <- app_assoc.
    destruct e; try reflexivity. now destruct Hne.
  - intros -> prompt Hfmt.
    destruct (classify_returns w prompt (h ++ [EvRequest get; EvGeocode location]))
      as (answer & new & E & _ & C).
    rewrite <- app_assoc in E. cbn [app] in E.
    exists answer, new. split; [exact E|]. split; [exact C|].
    unfold check_location, fetch_records.
    rewrite (bind_ok _ _ _ _ _ (request_ok w _ _ _ Hfetch)). fold personal.
    rewrite Htext. cbn [py_lower]. unfold location_geocode, location_fallback.
    eff_unfold. fold location. rewrite Hgeo. cbn [exn_eqb].
    rewrite Hfmt. rewrite <- app_assoc. cbn [app]. rewrite E.
    now destruct (is_yes answer).
Qed.

(** X13.  A location that is not text.  The lower-casing of the location
    sits outside the [try]: a location that is a number or an explicit
    null raises [AttributeError] out of the evaluator, before the
    geocoder is asked. *)
Theorem check_location_not_text applicant_id h resp v :
  let get := Get PERSONAL_DETAILS_TABLE (applicants_filter applicant_id) in
  http w h get = Ok resp ->
  dict_get (first_fields (default [] resp)) "Location" (VStr EmptyString) = v ->
  (forall s, v <> VStr s) ->
  check_location w applicant_id h = (Raise AttributeError, h ++ [EvRequest get]).
Proof.
  intros get Hfetch Hv Hnot. unfold check_location, fetch_records.
  rewrite (bind_ok _ _ _ _ _ (request_ok w _ _ _ Hfetch)). rewrite Hv.
  destruct v as [|q|s]; [reflexivity|reflexivity|]. now destruct (Hnot s).
Qed.

(** X14.  No personal record.  Without a personal record the evaluator
    does not fail at once: it asks the geocoder about the empty text
    and, when nothing is found, asks the port; the answer ["Yes"] passes
    the applicant.  The reasons then read ["None"] for the location. *)
Theorem check_location_no_record applicant_id h resp prompt :
  let get := Get PERSONAL_DETAILS_TABLE (applicants_filter applicant_id) in
  http w h get = Ok resp ->
  default [] resp = [] ->
  let location := str_lower EmptyString in
  nominatim w (h ++ [EvRequest get]) location = Ok None ->
  str_format (location_prompt location) (location_kw location) = Ok prompt ->
  exists answer,
    fst (classify w prompt (h ++ [EvRequest get; EvGeocode location])) = Ok answer
    /\ fst (check_location w applicant_id h)
       = Ok (if is_yes answer then (true, "Location: None (Allowed)")
             else (false, "Location: None (Not in allowed list)"))
    /\ classify_calls (snd (check_location w applicant_id h)) = S (classify_calls h).
Proof.
  intros get Hfetch Hnone location Hgeo Hfmt.
  assert (Htext : dict_get (first_fields (default [] resp)) "Location" (VStr EmptyString)
                  = VStr EmptyString)
    by (rewrite Hnone; apply dict_get_empty).
  destruct (check_location_fallback w applicant_id h resp EmptyString prompt
              Hfetch Htext Hgeo Hfmt) as (answer & new & E & C & Hrun).
  fold get location in E, Hrun. exists answer.
  rewrite <- !app_assoc in E. cbn [app] in E.
  rewrite <- !app_assoc in Hrun. cbn [app] in Hrun.
  rewrite E, Hrun. cbn [fst snd].
  split; [reflexivity|]. split.
  - rewrite Hnone. now destruct (is_yes answer).
  - rewrite classify_calls_app. unfold classify_calls at 2. cbn [List.filter List.length].
    unfold classify_calls in C. rewrite C. lia.
Qed.

End LocationMore.


Lemma check_location_country_witness :
  let get := Get PERSONAL_DETAILS_TABLE (applicants_filter (VNum 7)) in
  let w := Examples.world ErrorExamples.in_paris Examples.model_yes
             MoreExamples.geocoder_europe in
  let personal := first_fields (Examples.personal ErrorExamples.in_paris) in
  http w [] get = Ok (Some (Examples.personal ErrorExamples.in_paris))
  /\ dict_get personal "Location" (VStr EmptyString) = VStr "Paris"
  /\ nominatim w ([] ++ [EvRequest get]) (str_lower "Paris")
     = Ok (Some ("Paris, Ile-de-France" +:+ "," +:+ " France"))
  /\ comma_free " France" = true
  /\ check_location w (VNum 7) []
     = (Ok (false, "Location: Paris (Not in allowed list)"),
        [EvRequest get; EvGeocode "paris"]).
Proof.
  intros get w personal.
  assert (Hfetch : http w [] get = Ok (Some (Examples.personal ErrorExamples.in_paris)))
    by reflexivity.
  assert (Htext : dict_get personal "Location" (VStr EmptyString) = VStr "Paris")
    by (vm_compute; reflexivity).
  assert (Hgeo : nominatim w ([] ++ [EvRequest get]) (str_lower "Paris")
                 = Ok (Some ("Paris, Ile-de-France" +:+ "," +:+ " France")))
    by (vm_compute; reflexivity).
  assert (Hfree : comma_free " France" = true) by reflexivity.
  repeat (split; [assumption|]).
  exact (check_location_country w (VNum 7) [] _ "Paris" _ _ Hfetch Htext Hgeo Hfree).
Defined.

Lemma check_location_geocoder_error_witness :
  let get := Get PERSONAL_DETAILS_TABLE (applicants_filter (VNum 7)) in
  let w := Examples.world Examples.steady Examples.model_yes MoreExamples.geocoder_down in
  let personal := first_fields (Examples.personal Examples.steady) in
  http w [] get = Ok (Some (Examples.personal Examples.steady))
  /\ dict_get personal "Location" (VStr EmptyString) = VStr "Berlin"
  /\ nominatim w ([] ++ [EvRequest get]) (str_lower "Berlin") = Raise ServiceError
  /\ check_location w (VNum 7) []
     = (Ok (false, "Location: Berlin (Not in allowed list)"),
        [EvRequest get; EvGeocode "berlin"]).
Proof.
  intros get w personal.
  assert (Hfetch : http w [] get = Ok (Some (Examples.personal Examples.steady)))
    by reflexivity.
  assert (Htext : dict_get personal "Location" (VStr EmptyString) = VStr "Berlin")
    by (vm_compute; reflexivity).
  assert (Hgeo : nominatim w ([] ++ [EvRequest get]) (str_lower "Berlin")
                 = Raise ServiceError) by reflexivity.
  repeat (split; [assumption|]).
  apply (proj1 (check_location_geocoder_error w (VNum 7) [] _ "Berlin" ServiceError
                  Hfetch Htext Hgeo)).
  discriminate.
Defined.

Lemma check_location_not_text_witness :
  let get := Get PERSONAL_DETAILS_TABLE (applicants_filter (VNum 7)) in
  let w := Examples.world ErrorExamples.numeric_location Examples.model_yes
             Examples.geocoder_berlin in
  http w [] get = Ok (Some (Examples.personal ErrorExamples.numeric_location))
  /\ dict_get (first_fields (Examples.personal ErrorExamples.numeric_location))
       "Location" (VStr EmptyString) = VNum 10115
  /\ (forall s, VNum 10115 <> VStr s)
  /\ check_location w (VNum 7) [] = (Raise AttributeError, [EvRequest get]).
Proof.
  intros get w.
  assert (Hfetch : http w [] get
                   = Ok (Some (Examples.personal ErrorExamples.numeric_location)))
    by reflexivity.
  assert (Hv : dict_get (first_fields (Examples.personal ErrorExamples.numeric_location))
                 "Location" (VStr EmptyString) = VNum 10115)
    by (vm_compute; reflexivity).
  assert (Hnot : forall s, VNum 10115 <> VStr s) by discriminate.
  repeat (split; [assumption|]).
  exact (check_location_not_text w (VNum 7) [] _ _ Hfetch Hv Hnot).
Defined.

Lemma check_location_no_record_witness :
  let get := Get PERSONAL_DETAILS_TABLE (applicants_filter (VNum 7)) in
  let w := Examples.world (MoreExamples.with_personal []) Examples.model_yes
             Examples.geocoder_berlin in
  http w [] get = Ok (Some [])
  /\ default [] (Some (@nil record)) = []
  /\ nominatim w ([] ++ [EvRequest get]) (str_lower EmptyString) = Ok None
  /\ str_format (location_prompt (str_lower EmptyString)) (location_kw (str_lower EmptyString))
     = Ok (location_prompt EmptyString)
  /\ exists answer,
       fst (classify w (location_prompt EmptyString)
              ([] ++ [EvRequest get; EvGeocode (str_lower EmptyString)])) = Ok answer
       /\ fst (check_location w (VNum 7) [])
          = Ok (if is_yes answer then (true, "Location: None (Allowed)")
                else (false, "Location: None (Not in allowed list)"))
       /\ classify_calls (snd (check_location w (VNum 7) [])) = S (classify_calls []).
Proof.
  intros get w.
  assert (Hfetch : http w [] get = Ok (Some [])) by reflexivity.
  assert (Hnone : default [] (Some (@nil record)) = []) by reflexivity.
  assert (Hgeo : nominatim w ([] ++ [EvRequest get]) (str_lower EmptyString) = Ok None)
    by reflexivity.
  assert (Hfmt : str_format (location_prompt (str_lower EmptyString))
                   (location_kw (str_lower EmptyString))
                 = Ok (location_prompt EmptyString)) by (vm_compute; reflexivity).
  repeat (split; [assumption|]).
  exact (check_location_no_record w (VNum 7) [] _ _ Hfetch Hnone Hgeo Hfmt).
Defined.

(** ** [main] and one iteration of its loop *)

Lemma for_each_app {S A} (body : S -> A -> eff S) l1 l2 st h st' h' :
  for_each body l1 st h = (Ok st', h') ->
  for_each body (l1 ++ l2) st h = for_each body l2 st' h'.
Proof.
  revert st h. induction l1 as [|x l1 IH]; intros st h E.
  - cbn in E. injection E as -> ->. reflexivity.
  - cbn [app for_each] in *. eff_unfold.
    destruct (body st x h) as [[st1|e] h1]; [|discriminate]. now apply IH.
Qed.

Section MainLoop.
Context `{rt : PyRuntime} (w : World).

Lemma main_run h resp :
  http w h (Get APPLICANTS_TABLE pending_filter) = Ok resp ->
  main w h
  = (Ok tt,
     snd (for_each (fun _ record => process_applicant w record) (default [] resp) tt
            (h ++ [EvRequest (Get APPLICANTS_TABLE pending_filter)]))).
Proof.
  intros Hfetch. unfold main, fetch_records, try_except.
  rewrite (bind_ok _ _ _ _ _ (request_ok w _ _ _ Hfetch)).
  set (h1 := h ++ _).
  assert (E : (match default [] resp with
               | [] => ret tt
               | _ :: _ => for_each (fun _ record => process_applicant w record)
                             (default [] resp) tt
               end) h1
              = for_each (fun _ record => process_applicant w record)
                  (default [] resp) tt h1)
    by now destruct (default [] resp).
  rewrite E.
  destruct (for_each _ _ tt h1) as [[[]|e] h2]; reflexivity.
Qed.

(** X15.  Nothing to review.  When the fetch of the pending applicants
    fails, or returns no record, [main] makes that one request, nothing
    else, and returns normally. *)
Theorem main_nothing_to_review h :
  let get := Get APPLICANTS_TABLE pending_filter in
  (exists e, http w h get = Raise e)
  \/ (exists resp, http w h get = Ok resp /\ default [] resp = []) ->
  main w h = (Ok tt, h ++ [EvRequest get]).
Proof.
  intros get [[e He]|(resp & Hresp & Hnone)]; subst get.
  - unfold main, fetch_records, try_except.
    rewrite (bind_raise _ _ _ AirtableAPIError
               (h ++ [EvRequest (Get APPLICANTS_TABLE pending_filter)])).
    + reflexivity.
    + now rewrite request_run, He.
  - rewrite (main_run h resp Hresp), Hnone. reflexivity.
Qed.

(** X16.  The batch stops at the first failure.  When the applicants
    before one are processed without exception and that one raises,
    [main] swallows the exception and returns normally; its history ends
    where the failing applicant stopped, so the applicants after it are
    not evaluated and get no status. *)
Theorem main_stops_at_first_failure h resp done failing remaining h2 e h3 :
  let h1 := h ++ [EvRequest (Get APPLICANTS_TABLE pending_filter)] in
  http w h (Get APPLICANTS_TABLE pending_filter) = Ok resp ->
  default [] resp = done ++ failing :: remaining ->
  for_each (fun _ record => process_applicant w record) done tt h1 = (Ok tt, h2) ->
  process_applicant w failing h2 = (Raise e, h3) ->
  main w h = (Ok tt, h3).
Proof.
  intros h1 Hfetch Hsplit Hdone Hfail.
  rewrite (main_run h resp Hfetch), Hsplit. fold h1.
  rewrite (for_each_app _ _ _ _ _ _ _ Hdone). cbn [for_each].
  now rewrite (bind_raise _ _ _ _ _ Hfail).
Qed.

(** X17.  The rationale goes to the first matching lead.  For an
    applicant whom the three evaluators pass, once the status write has
    succeeded, the engine sleeps 5 seconds, looks the lead up by the
    applicant id, and patches the first record found, and only that one,
    with a ["Score Reason"] that lists the three reasons in the order
    experience, compensation, location. *)
Theorem process_applicant_writes_rationale record h applicant_id
      exp_reason h1 comp_reason h2 loc_reason h3 written resp lead others :
  rec_fields record !! "Applicant ID" = Some applicant_id ->
  check_experience w applicant_id h = (Ok (true, exp_reason), h1) ->
  check_compensation w applicant_id h1 = (Ok (true, comp_reason), h2) ->
  check_location w applicant_id h2 = (Ok (true, loc_reason), h3) ->
  http w h3 (Patch APPLICANTS_TABLE (rec_id record) (status_fields "Shortlisted"))
  = Ok written ->
  let lookup := Get SHORTLISTED_LEADS_TABLE ("{Applicants} = " +:+ py_str applicant_id) in
  let h5 := h3 ++ [status_write (rec_id record) "Shortlisted"; EvSleep 5] in
  http w h5 lookup = Ok resp ->
  default [] resp = lead :: others ->
  let rationale :=
    "Candidate Shortlisted for the following reasons:" +:+ nl
    +:+ "- " +:+ exp_reason +:+ nl +:+ "- " +:+ comp_reason +:+ nl
    +:+ "- " +:+ loc_reason in
  let patch := Patch SHORTLISTED_LEADS_TABLE (rec_id lead)
                 {[ "Score Reason" := VStr rationale ]} in
  process_applicant w record h
  = (match http w (h5 ++ [EvRequest lookup]) patch with
     | Ok _ => Ok tt
     | Raise _ => Raise AirtableAPIError
     end,
     h5 ++ [EvRequest lookup; EvRequest patch]).
Proof.
  intros Hid He Hc Hl Hwrite lookup h5 Hlookup Hlead rationale patch.
  unfold process_applicant. rewrite Hid.
  rewrite (bind_ok (ret applicant_id) _ h applicant_id h eq_refl).
  rewrite (bind_ok _ _ _ _ _ He). cbn beta iota.
  rewrite (bind_ok _ _ _ _ _ Hc). cbn beta iota.
  rewrite (bind_ok _ _ _ _ _ Hl). cbn beta iota.
  unfold update_record. cbn [verdict_status andb].
  rewrite (bind_ok _ _ _ _ _ (request_ok w _ _ _ Hwrite)).
  cbn [String.eqb Ascii.eqb Bool.eqb].
  rewrite (bind_ok _ _ _ tt h5).
  2:{ rewrite sleep_run by (unfold SLEEP_MAX; lia).
      unfold h5, status_write, status_fields. now rewrite <- app_assoc. }
  unfold create_shortlisted_lead, fetch_records.
  rewrite (bind_ok _ _ _ _ _ (request_ok w _ _ _ Hlookup)), Hlead.
  unfold update_record, _request. eff_unfold. subst patch rationale.
  unfold final_reason_of.
  destruct (http w (h5 ++ [EvRequest lookup]) _); rewrite <- ?app_assoc; reflexivity.
Qed.

(** X18.  A failed status write ends the iteration.  When Airtable
    refuses the status update, the iteration raises [AirtableAPIError]
    right after the attempt: no pause and no lead operation follow, even
    for an applicant who passed the three criteria. *)
Theorem process_applicant_status_write_fails record h applicant_id
      exp_ok exp_reason h1 comp_ok comp_reason h2 loc_ok loc_reason h3 e :
  rec_fields record !! "Applicant ID" = Some applicant_id ->
  check_experience w applicant_id h = (Ok (exp_ok, exp_reason), h1) ->
  check_compensation w applicant_id h1 = (Ok (comp_ok, comp_reason), h2) ->
  check_location w applicant_id h2 = (Ok (loc_ok, loc_reason), h3) ->
  let status := if exp_ok && comp_ok && loc_ok then "Shortlisted" else "Not Shortlisted" in
  http w h3 (Patch APPLICANTS_TABLE (rec_id record) (status_fields status)) = Raise e ->
  process_applicant w record h
  = (Raise AirtableAPIError, h3 ++ [status_write (rec_id record) status]).
Proof.
  intros Hid He Hc Hl status Hwrite.
  unfold process_applicant. rewrite Hid.
  rewrite (bind_ok (ret applicant_id) _ h applicant_id h eq_refl).
  rewrite (bind_ok _ _ _ _ _ He). cbn beta iota.
  rewrite (bind_ok _ _ _ _ _ Hc). cbn beta iota.
  rewrite (bind_ok _ _ _ _ _ Hl). cbn beta iota.
  unfold update_record, verdict_status. fold status.
  rewrite (bind_raise _ _ _ AirtableAPIError
             (h3 ++ [status_write (rec_id record) status])); [reflexivity|].
  now rewrite request_run, Hwrite.
Qed.

(** X19.  Evaluators run in order and the first exception ends the
    iteration.  A record without ["Applicant ID"] raises [KeyError]
    before any service is called; an exception of the Experience
    Evaluator leaves the salary and personal tables unread; an exception
    of the Compensation Evaluator leaves the personal table unread and
    the geocoder unasked; and after an exception of any evaluator no
    status is written. *)
Theorem process_applicant_fails_fast record h :
  (rec_fields record !! "Applicant ID" = None ->
   process_applicant w record h = (Raise KeyError, h))
  /\ (forall applicant_id e h1,
        rec_fields record !! "Applicant ID" = Some applicant_id ->
        check_experience w applicant_id h = (Raise e, h1) ->
        process_applicant w record h = (Raise e, h1))
  /\ (forall applicant_id exp e h1 h2,
        rec_fields record !! "Applicant ID" = Some applicant_id ->
        check_experience w applicant_id h = (Ok exp, h1) ->
        check_compensation w applicant_id h1 = (Raise e, h2) ->
        process_applicant w record h = (Raise e, h2))
  /\ (forall applicant_id exp comp e h1 h2 h3,
        rec_fields record !! "Applicant ID" = Some applicant_id ->
        check_experience w applicant_id h = (Ok exp, h1) ->
        check_compensation w applicant_id h1 = (Ok comp, h2) ->
        check_location w applicant_id h2 = (Raise e, h3) ->
        process_applicant w record h = (Raise e, h3)).
Proof.
  unfold process_applicant. repeat split.
  - intros ->. reflexivity.
  - intros applicant_id e h1 -> He.
    rewrite (bind_ok (ret applicant_id) _ h applicant_id h eq_refl).
    now rewrite (bind_raise _ _ _ _ _ He).
  - intros applicant_id [exp_ok exp_reason] e h1 h2 -> He Hc.
    rewrite (bind_ok (ret applicant_id) _ h applicant_id h eq_refl).
    rewrite (bind_ok _ _ _ _ _ He). cbn beta iota.
    now rewrite (bind_raise _ _ _ _ _ Hc).
  - intros applicant_id [exp_ok exp_reason] [comp_ok comp_reason] e h1 h2 h3 -> He Hc Hl.
    rewrite (bind_ok (ret applicant_id) _ h applicant_id h eq_refl).
    rewrite (bind_ok _ _ _ _ _ He). cbn beta iota.
    rewrite (bind_ok _ _ _ _ _ Hc). cbn beta iota.
    now rewrite (bind_raise _ _ _ _ _ Hl).
Qed.

End MainLoop.


Lemma main_nothing_to_review_witness :
  let get := Get APPLICANTS_TABLE pending_filter in
  ((exists e, http MoreExamples.offline [] get = Raise e)
   \/ (exists resp, http MoreExamples.offline [] get = Ok resp /\ default [] resp = []))
  /\ main MoreExamples.offline [] = (Ok tt, [EvRequest get]).
Proof.
  intros get.
  assert (H : (exists e, http MoreExamples.offline [] get = Raise e)
              \/ (exists resp, http MoreExamples.offline [] get = Ok resp
                               /\ default [] resp = []))
    by (left; now exists ServiceError).
  split; [exact H|].
  exact (main_nothing_to_review MoreExamples.offline [] H).
Defined.

Lemma main_stops_at_first_failure_witness :
  let w := BatchExamples.batch in
  let get := Get APPLICANTS_TABLE pending_filter in
  let first := for_each (fun _ record => process_applicant w record)
                 [Examples.applicant] tt [EvRequest get] in
  http w [] get = Ok (Some [Examples.applicant; BatchExamples.no_id; Examples.applicant])
  /\ first = (Ok tt, snd first)
  /\ process_applicant w BatchExamples.no_id (snd first) = (Raise KeyError, snd first)
  /\ main w [] = (Ok tt, snd first).
Proof.
  intros w get first.
  assert (Hfetch : http w [] get
                   = Ok (Some [Examples.applicant; BatchExamples.no_id; Examples.applicant]))
    by reflexivity.
  assert (Hdone : first = (Ok tt, snd first)) by (vm_compute; reflexivity).
  assert (Hfail : process_applicant w BatchExamples.no_id (snd first)
                  = (Raise KeyError, snd first)) by reflexivity.
  repeat (split; [assumption|]).
  exact (main_stops_at_first_failure w [] _ [Examples.applicant] BatchExamples.no_id
           [Examples.applicant] _ _ _ Hfetch eq_refl Hdone Hfail).
Defined.

Lemma process_applicant_writes_rationale_witness :
  let w := Examples.world Examples.with_lead Examples.model_google Examples.geocoder_berlin in
  let r1 := check_experience w (VNum 7) [] in
  let r2 := check_compensation w (VNum 7) (snd r1) in
  let r3 := check_location w (VNum 7) (snd r2) in
  let h5 := snd r3 ++ [status_write "recApplicant" "Shortlisted"; EvSleep 5] in
  let lookup := Get SHORTLISTED_LEADS_TABLE "{Applicants} = 7" in
  let patch :=
    Patch SHORTLISTED_LEADS_TABLE "recLead"
      {[ "Score Reason" :=
           VStr ("Candidate Shortlisted for the following reasons:" +:+ nl
                 +:+ "- " +:+ "Experience: 5.0 years, Tier-1: No" +:+ nl
                 +:+ "- " +:+ "Compensation: $50/hr, 25 hrs/wk" +:+ nl
                 +:+ "- " +:+ "Location: None (Allowed)") ]} in
  rec_fields Examples.applicant !! "Applicant ID" = Some (VNum 7)
  /\ r1 = (Ok (true, "Experience: 5.0 years, Tier-1: No"), snd r1)
  /\ r2 = (Ok (true, "Compensation: $50/hr, 25 hrs/wk"), snd r2)
  /\ r3 = (Ok (true, "Location: None (Allowed)"), snd r3)
  /\ http w (snd r3) (Patch APPLICANTS_TABLE "recApplicant" (status_fields "Shortlisted"))
     = Ok None
  /\ http w h5 lookup = Ok (Some (Examples.leads Examples.with_lead))
  /\ process_applicant w Examples.applicant []
     = (Ok tt, h5 ++ [EvRequest lookup; EvRequest patch]).
Proof.
  intros w r1 r2 r3 h5 lookup patch.
  assert (Hid : rec_fields Examples.applicant !! "Applicant ID" = Some (VNum 7))
    by (vm_compute; reflexivity).
  assert (H1 : r1 = (Ok (true, "Experience: 5.0 years, Tier-1: No"), snd r1))
    by (vm_compute; reflexivity).
  assert (H2 : r2 = (Ok (true, "Compensation: $50/hr, 25 hrs/wk"), snd r2))
    by (vm_compute; reflexivity).
  assert (H3 : r3 = (Ok (true, "Location: None (Allowed)"), snd r3))
    by (vm_compute; reflexivity).
  assert (Hwrite : http w (snd r3)
                     (Patch APPLICANTS_TABLE "recApplicant" (status_fields "Shortlisted"))
                   = Ok None) by reflexivity.
  assert (Hlookup : http w h5 lookup = Ok (Some (Examples.leads Examples.with_lead)))
    by reflexivity.
  repeat (split; [assumption|]).
  exact (process_applicant_writes_rationale w Examples.applicant [] (VNum 7)
           _ _ _ _ _ _ _ _ _ _ Hid H1 H2 H3 Hwrite Hlookup eq_refl).
Defined.

Lemma process_applicant_status_write_fails_witness :
  let w := MoreExamples.read_only Examples.steady in
  let r1 := check_experience w (VNum 7) [] in
  let r2 := check_compensation w (VNum 7) (snd r1) in
  let r3 := check_location w (VNum 7) (snd r2) in
  rec_fields Examples.applicant !! "Applicant ID" = Some (VNum 7)
  /\ r1 = (Ok (true, "Experience: 5.0 years, Tier-1: Yes"), snd r1)
  /\ r2 = (Ok (true, "Compensation: $50/hr, 25 hrs/wk"), snd r2)
  /\ r3 = (Ok (true, "Location: None (Allowed)"), snd r3)
  /\ http w (snd r3) (Patch APPLICANTS_TABLE "recApplicant" (status_fields "Shortlisted"))
     = Raise ServiceError
  /\ process_applicant w Examples.applicant []
     = (Raise AirtableAPIError, snd r3 ++ [status_write "recApplicant" "Shortlisted"]).
Proof.
  intros w r1 r2 r3.
  assert (Hid : rec_fields Examples.applicant !! "Applicant ID" = Some (VNum 7))
    by (vm_compute; reflexivity).
  assert (H1 : r1 = (Ok (true, "Experience: 5.0 years, Tier-1: Yes"), snd r1))
    by (vm_compute; reflexivity).
  assert (H2 : r2 = (Ok (true, "Compensation: $50/hr, 25 hrs/wk"), snd r2))
    by (vm_compute; reflexivity).
  assert (H3 : r3 = (Ok (true, "Location: None (Allowed)"), snd r3))
    by (vm_compute; reflexivity).
  assert (Hwrite : http w (snd r3)
                     (Patch APPLICANTS_TABLE "recApplicant" (status_fields "Shortlisted"))
                   = Raise ServiceError) by reflexivity.
  repeat (split; [assumption|]).
  exact (process_applicant_status_write_fails w Examples.applicant [] (VNum 7)
           _ _ _ _ _ _ _ _ _ _ Hid H1 H2 H3 Hwrite).
Defined.

Lemma process_applicant_fails_fast_witness :
  let w := Examples.world ErrorExamples.null_rate Examples.model_google
             Examples.geocoder_berlin in
  let r1 := check_experience w (VNum 7) [] in
  let get := Get SALARY_PREFERENCES_TABLE (applicants_filter (VNum 7)) in
  rec_fields Examples.applicant !! "Applicant ID" = Some (VNum 7)
  /\ r1 = (Ok (true, "Experience: 5.0 years, Tier-1: No"), snd r1)
  /\ check_compensation w (VNum 7) (snd r1) = (Raise TypeError, snd r1 ++ [EvRequest get])
  /\ process_applicant w Examples.applicant []
     = (Raise TypeError, snd r1 ++ [EvRequest get]).
Proof.
  intros w r1 get.
  assert (Hid : rec_fields Examples.applicant !! "Applicant ID" = Some (VNum 7))
    by (vm_compute; reflexivity).
  assert (H1 : r1 = (Ok (true, "Experience: 5.0 years, Tier-1: No"), snd r1))
    by (vm_compute; reflexivity).
  assert (H2 : check_compensation w (VNum 7) (snd r1)
               = (Raise TypeError, snd r1 ++ [EvRequest get]))
    by (vm_compute; reflexivity).
  repeat (split; [assumption|]).
  exact (proj1 (proj2 (proj2 (process_applicant_fails_fast w Examples.applicant [])))
           (VNum 7) _ TypeError _ _ Hid H1 H2).
Defined.


(** ** [llm_evaluate.py]: parsing the answer of the model *)

Module ParseFacts.
Import LLMEvaluate.

Lemma append_cons c p r : String c p +:+ r = String c (p +:+ r).
Proof. reflexivity. Qed.

Lemma append_nl r : nl +:+ r = String (ascii_of_nat 10) r.
Proof. reflexivity. Qed.

Lemma search_here {A} (m : string -> option A) s x :
  m s = Some x -> search m s = Some x.
Proof. intros E. destruct s; cbn [search]; now rewrite E. Qed.

Lemma search_step {A} (m : string -> option A) c s :
  m (String c s) = None -> search m (String c s) = search m s.
Proof. intros E. cbn [search]. now rewrite E. Qed.

(** A label without a newline is not found across a newline. *)
Lemma starts_with_before_newline label :
  one_line label = true ->
  forall t r x,
    starts_with label (t +:+ String (ascii_of_nat 10) r) = Some x ->
    exists y, starts_with label t = Some y.
Proof.
  induction label as [|a l IH]; intros Hl t r x E.
  - now exists t.
  - cbn [one_line] in Hl. apply andb_true_iff in Hl as [Ha Hl].
    destruct t as [|b t].
    + change (EmptyString +:+ String (ascii_of_nat 10) r)
        with (String (ascii_of_nat 10) r) in E.
      cbn [starts_with] in E. unfold is_newline in Ha.
      apply negb_true_iff in Ha. now rewrite Ha in E.
    + rewrite append_cons in E. cbn [starts_with] in *.
      destruct (Ascii.eqb a b); [|discriminate]. now apply (IH Hl t r x).
Qed.

(** A matcher that needs its label skips a text in which the label does
    not occur, when a newline follows. *)
Lemma search_skip {A} (m : string -> option A) label :
  (forall s, starts_with label s = None -> m s = None) ->
  one_line label = true ->
  forall p r,
    occurs label p = false ->
    search m (p +:+ String (ascii_of_nat 10) r)
    = search m (String (ascii_of_nat 10) r).
Proof.
  intros Hm Hl. induction p as [|c p IH]; intros r Hp; [reflexivity|].
  cbn [occurs] in Hp.
  destruct (starts_with label (String c p)) as [y|] eqn:Ey; [discriminate|].
  rewrite append_cons, search_step; [now apply IH|].
  apply Hm. rewrite <- append_cons.
  destruct (starts_with label (String c p +:+ String (ascii_of_nat 10) r))
    as [x|] eqn:Ex; [|reflexivity].
  destruct (starts_with_before_newline label Hl _ _ _ Ex) as [y Hy]. congruence.
Qed.

Lemma search_absent {A} (m : string -> option A) label :
  (forall s, starts_with label s = None -> m s = None) ->
  forall s, occurs label s = false -> search m s = None.
Proof.
  intros Hm. induction s as [|c s IH]; intros Hs; cbn [occurs] in Hs.
  - destruct (starts_with label EmptyString) eqn:E; [discriminate|].
    cbn [search]. now rewrite (Hm _ E).
  - destruct (starts_with label (String c s)) eqn:E; [discriminate|].
    cbn [search]. rewrite (Hm _ E). now apply IH.
Qed.

Lemma match_line_needs_label label s :
  starts_with label s = None -> match_line label s = None.
Proof. intros E. unfold match_line. now rewrite E. Qed.

Lemma match_score_needs_label s :
  starts_with "Score: " s = None -> match_score s = None.
Proof. intros E. unfold match_score. now rewrite E. Qed.

Lemma match_follow_ups_needs_label s :
  starts_with "Follow-Ups:" s = None -> match_follow_ups s = None.
Proof. intros E. unfold match_follow_ups. now rewrite E. Qed.

Lemma starts_with_app label r : starts_with label (label +:+ r) = Some r.
Proof.
  induction label as [|a l IH]; [reflexivity|].
  rewrite append_cons. cbn [starts_with]. now rewrite Ascii.eqb_refl.
Qed.

Lemma take_line_app line r :
  one_line line = true ->
  take_line (line +:+ String (ascii_of_nat 10) r) = (line, true).
Proof.
  induction line as [|c l IH]; intros Hl.
  - reflexivity.
  - cbn [one_line] in Hl. apply andb_true_iff in Hl as [Hc Hl].
    rewrite append_cons. cbn [take_line]. apply negb_true_iff in Hc.
    now rewrite Hc, (IH Hl).
Qed.

Lemma take_digits_app ds r :
  digits_only ds = true ->
  take_digits (ds +:+ String (ascii_of_nat 10) r) = (ds, String (ascii_of_nat 10) r).
Proof.
  induction ds as [|c l IH]; intros Hd.
  - reflexivity.
  - cbn [digits_only] in Hd. apply andb_true_iff in Hd as [Hc Hd].
    rewrite append_cons. cbn [take_digits]. now rewrite Hc, (IH Hd).
Qed.

Lemma match_line_app label line r :
  one_line line = true -> line <> EmptyString ->
  match_line label (label +:+ line +:+ String (ascii_of_nat 10) r) = Some line.
Proof.
  intros Hl Hne. unfold match_line. rewrite starts_with_app, (take_line_app _ _ Hl).
  now destruct line.
Qed.

Lemma match_score_app ds r :
  digits_only ds = true -> ds <> EmptyString ->
  match_score ("Score: " +:+ ds +:+ String (ascii_of_nat 10) r) = Some ds.
Proof.
  intros Hd Hne. unfold match_score.
  rewrite starts_with_app, (take_digits_app _ _ Hd).
  now destruct ds.
Qed.

Lemma dollar_trim_id s : ends_with_newline s = false -> dollar_trim s = s.
Proof.
  induction s as [|c s IH]; [reflexivity|]. intros He.
  destruct s as [|d s]; [reflexivity|].
  destruct s as [|e s].
  - cbn [ends_with_newline] in He. cbn [dollar_trim]. now rewrite He.
  - cbn [dollar_trim]. f_equal. now apply IH.
Qed.

(** A label that starts with a letter does not occur in a run of digits. *)
Lemma occurs_digits a l ds :
  Runtime.is_digit a = false -> digits_only ds = true ->
  occurs (String a l) ds = false.
Proof.
  intros Ha. induction ds as [|c ds IH]; intros Hd; [reflexivity|].
  cbn [digits_only] in Hd. apply andb_true_iff in Hd as [Hc Hd].
  cbn [occurs starts_with].
  destruct (Ascii.eqb a c) eqn:E; [|now apply IH].
  apply Ascii.eqb_eq in E. subst c. congruence.
Qed.

Lemma occurs_cons_miss label c s :
  starts_with label (String c s) = None ->
  occurs label (String c s) = occurs label s.
Proof. intros E. cbn [occurs]. now rewrite E. Qed.


Lemma append_assoc (a b c : string) : (a +:+ b) +:+ c = a +:+ b +:+ c.
Proof.
  induction a as [|x a IH]; [reflexivity|]. rewrite !append_cons. now rewrite IH.
Qed.

Lemma append_nil r : EmptyString +:+ r = r.
Proof. reflexivity. Qed.

(** Put a text that starts with a literal in constructor form. *)
Ltac in_cons_form := rewrite ?append_cons, ?append_nil.

(** None of the later labels is found in the summary line. *)
Lemma occurs_summary_line label summary :
  label = "Score: " \/ label = "Issues: " \/ label = "Follow-Ups:" ->
  occurs label summary = false ->
  occurs label ("Summary: " +:+ summary) = false.
Proof.
  intros Hl Hs. in_cons_form.
  destruct Hl as [-> | [-> | ->]];
    repeat (rewrite occurs_cons_miss by reflexivity); exact Hs.
Qed.

Lemma occurs_score_line label score :
  label = "Issues: " \/ label = "Follow-Ups:" ->
  digits_only score = true ->
  occurs label ("Score: " +:+ score) = false.
Proof.
  intros Hl Hd. in_cons_form.
  destruct Hl as [-> | ->];
    repeat (rewrite occurs_cons_miss by reflexivity);
    now apply occurs_digits.
Qed.

Lemma occurs_issues_line issues :
  occurs "Follow-Ups:" issues = false ->
  occurs "Follow-Ups:" ("Issues: " +:+ issues) = false.
Proof.
  intros Hs. in_cons_form.
  repeat (rewrite occurs_cons_miss by reflexivity). exact Hs.
Qed.

Section RoundTrip.
Variables summary score issues follow_ups : string.
Hypothesis Hsummary : one_line summary = true.
Hypothesis Hsummary_ne : summary <> EmptyString.
Hypothesis Hscore : digits_only score = true.
Hypothesis Hscore_ne : score <> EmptyString.
Hypothesis Hissues : one_line issues = true.
Hypothesis Hissues_ne : issues <> EmptyString.
Hypothesis Hfollow_ne : follow_ups <> EmptyString.
Hypothesis Hno_score : occurs "Score: " summary = false.
Hypothesis Hno_issues : occurs "Issues: " summary = false.
Hypothesis Hno_follow : occurs "Follow-Ups:" summary = false.
Hypothesis Hno_follow' : occurs "Follow-Ups:" issues = false.

Let text := render_response summary score issues follow_ups.
Let tail3 := "Follow-Ups:" +:+ follow_ups.
Let tail2 := "Issues: " +:+ issues +:+ String (ascii_of_nat 10) tail3.
Let tail1 := "Score: " +:+ score +:+ String (ascii_of_nat 10) tail2.

Lemma render_blocks :
  text = ("Summary: " +:+ summary) +:+ String (ascii_of_nat 10) tail1
  /\ tail1 = ("Score: " +:+ score) +:+ String (ascii_of_nat 10) tail2
  /\ tail2 = ("Issues: " +:+ issues) +:+ String (ascii_of_nat 10) tail3.
Proof.
  unfold text, tail1, tail2, tail3, render_response.
  rewrite !append_assoc, !append_nl. auto.
Qed.

Lemma search_summary : search (match_line "Summary: ") text = Some summary.
Proof.
  apply search_here. destruct render_blocks as (-> & _ & _).
  rewrite append_assoc. now apply match_line_app.
Qed.

Lemma search_score : search match_score text = Some score.
Proof.
  destruct render_blocks as (-> & _ & _).
  rewrite (search_skip match_score "Score: " match_score_needs_label eq_refl)
    by (apply occurs_summary_line; auto).
  rewrite search_step by reflexivity.
  apply search_here. now apply match_score_app.
Qed.

Lemma search_issues : search (match_line "Issues: ") text = Some issues.
Proof.
  destruct render_blocks as (-> & E1 & _).
  rewrite (search_skip _ "Issues: " (match_line_needs_label "Issues: ") eq_refl)
    by (apply occurs_summary_line; auto).
  rewrite search_step by reflexivity. rewrite E1.
  rewrite (search_skip _ "Issues: " (match_line_needs_label "Issues: ") eq_refl)
    by (apply occurs_score_line; auto).
  rewrite search_step by reflexivity.
  apply search_here. now apply match_line_app.
Qed.

Lemma search_follow_ups :
  search match_follow_ups text = Some (dollar_trim follow_ups).
Proof.
  destruct render_blocks as (-> & E1 & E2).
  rewrite (search_skip _ "Follow-Ups:" match_follow_ups_needs_label eq_refl)
    by (apply occurs_summary_line; auto).
  rewrite search_step by reflexivity. rewrite E1.
  rewrite (search_skip _ "Follow-Ups:" match_follow_ups_needs_label eq_refl)
    by (apply occurs_score_line; auto).
  rewrite search_step by reflexivity. rewrite E2.
  rewrite (search_skip _ "Follow-Ups:" match_follow_ups_needs_label eq_refl)
    by (now apply occurs_issues_line).
  rewrite search_step by reflexivity.
  apply search_here. unfold tail3, match_follow_ups.
  rewrite starts_with_app. now destruct follow_ups.
Qed.

End RoundTrip.

End ParseFacts.

Section Parse.
Context `{rt : PyRuntime}.

(** X20.  An answer in the requested format is read back.  For an
    answer made of a one-line summary, a score of at most 4300 digits, a
    one-line list of issues and follow-up questions, in that order and
    each under its label, with no later label occurring in an earlier
    line, [parse_llm_response] returns the summary, the score as a
    number, and the follow-ups with the issues appended in
    parentheses. *)
Theorem parse_llm_response_round_trip summary score issues follow_ups n :
  one_line summary = true -> summary <> EmptyString ->
  digits_only score = true -> score <> EmptyString ->
  LLMEvaluate.py_int score = Ok n ->
  one_line issues = true -> issues <> EmptyString ->
  follow_ups <> EmptyString -> ends_with_newline follow_ups = false ->
  occurs "Score: " summary = false ->
  occurs "Issues: " summary = false ->
  occurs "Follow-Ups:" summary = false ->
  occurs "Follow-Ups:" issues = false ->
  str_strip (render_response summary score issues follow_ups)
  = render_response summary score issues follow_ups ->
  LLMEvaluate.parse_llm_response (render_response summary score issues follow_ups)
  = Some (<[ "LLM Follow-Ups" :=
               VStr (str_strip follow_ups +:+ nl +:+ "(Issues: " +:+ issues +:+ ")") ]>
            (<[ "LLM Score" := VNum (inject_Z n) ]>
               (<[ "LLM Summary" := VStr summary ]> ∅))).
Proof.
  intros Hs Hsn Hd Hdn Hint Hi Hin Hfn Hfe H1 H2 H3 H4 Hstrip.
  unfold LLMEvaluate.parse_llm_response, LLMEvaluate.parsed_fields.
  rewrite Hstrip.
  rewrite (ParseFacts.search_summary summary score issues follow_ups Hs Hsn).
  rewrite (ParseFacts.search_score summary score issues follow_ups Hd Hdn H1).
  rewrite (ParseFacts.search_issues summary score issues follow_ups Hd Hi Hin H2).
  rewrite (ParseFacts.search_follow_ups summary score issues follow_ups
             Hd Hfn H3 H4).
  rewrite Hint, (ParseFacts.dollar_trim_id _ Hfe). reflexivity.
Qed.

End Parse.


Lemma parse_llm_response_round_trip_witness :
  one_line "Strong backend engineer." = true
  /\ "Strong backend engineer." <> EmptyString
  /\ digits_only "8" = true /\ "8" <> EmptyString
  /\ LLMEvaluate.py_int "8" = Ok 8
  /\ one_line "None" = true /\ "None" <> EmptyString
  /\ " - Why leave?" <> EmptyString /\ ends_with_newline " - Why leave?" = false
  /\ occurs "Score: " "Strong backend engineer." = false
  /\ occurs "Issues: " "Strong backend engineer." = false
  /\ occurs "Follow-Ups:" "Strong backend engineer." = false
  /\ occurs "Follow-Ups:" "None" = false
  /\ str_strip EvaluateExamples.answer = EvaluateExamples.answer
  /\ LLMEvaluate.parse_llm_response EvaluateExamples.answer
     = Some (<[ "LLM Follow-Ups" := VStr ("- Why leave?" +:+ nl +:+ "(Issues: None)") ]>
               (<[ "LLM Score" := VNum 8 ]>
                  (<[ "LLM Summary" := VStr "Strong backend engineer." ]> ∅))).
Proof.
  assert (H1 : one_line "Strong backend engineer." = true) by reflexivity.
  assert (H2 : "Strong backend engineer." <> EmptyString) by discriminate.
  assert (H3 : digits_only "8" = true) by reflexivity.
  assert (H4 : "8" <> EmptyString) by discriminate.
  assert (H5 : LLMEvaluate.py_int "8" = Ok 8) by reflexivity.
  assert (H6 : one_line "None" = true) by reflexivity.
  assert (H7 : "None" <> EmptyString) by discriminate.
  assert (H8 : " - Why leave?" <> EmptyString) by discriminate.
  assert (H9 : ends_with_newline " - Why leave?" = false) by reflexivity.
  assert (H10 : occurs "Score: " "Strong backend engineer." = false) by reflexivity.
  assert (H11 : occurs "Issues: " "Strong backend engineer." = false) by reflexivity.
  assert (H12 : occurs "Follow-Ups:" "Strong backend engineer." = false) by reflexivity.
  assert (H13 : occurs "Follow-Ups:" "None" = false) by reflexivity.
  assert (H14 : str_strip EvaluateExamples.answer = EvaluateExamples.answer)
    by (vm_compute; reflexivity).
  repeat (split; [assumption|]).
  exact (parse_llm_response_round_trip "Strong backend engineer." "8" "None"
           " - Why leave?" 8 H1 H2 H3 H4 H5 H6 H7 H8 H9 H10 H11 H12 H13 H14).
Defined.

Section Evaluate.
Context `{rt : PyRuntime} (w : World).

Lemma parse_error_fields_not_empty : LLMEvaluate.parse_error_fields <> ∅.
Proof.
  intros E. assert (H : LLMEvaluate.parse_error_fields !! "LLM Summary" = None)
    by (rewrite E; apply lookup_empty).
  unfold LLMEvaluate.parse_error_fields in H. now rewrite lookup_singleton_eq in H.
Qed.

Lemma evaluation_fields_not_empty answer : evaluation_fields answer <> ∅.
Proof.
  unfold evaluation_fields. destruct answer as [text|];
    [|apply parse_error_fields_not_empty].
  destruct (LLMEvaluate.is_empty text); [apply parse_error_fields_not_empty|].
  destruct (LLMEvaluate.parse_llm_response text) as [d|];
    [|apply parse_error_fields_not_empty].
  destruct (decide (d = ∅)); [apply parse_error_fields_not_empty|assumption].
Qed.

(** One iteration of [main] on a record with a profile, in terms of the
    answer of [generate_content]. *)
Lemma evaluate_record_run record h json prompt answer h' :
  dict_get_none (rec_fields record) "Compressed JSON" = json ->
  truthy json = true ->
  str_format LLMEvaluate.PROMPT_TEMPLATE [("json_data", py_str json)] = Ok prompt ->
  generate_content w prompt 3 2 h = (Ok answer, h') ->
  let patch := Patch APPLICANTS_TABLE (rec_id record) (evaluation_fields answer) in
  LLMEvaluate.evaluate_record w record h
  = (match http w h' patch with
     | Ok _ => Ok tt
     | Raise _ => Raise AirtableAPIError
     end, h' ++ [EvRequest patch]).
Proof.
  intros Hjson Htruthy Hfmt Hgen patch.
  unfold LLMEvaluate.evaluate_record. rewrite Hjson, Htruthy. cbn [negb].
  unfold LLMEvaluate.evaluate_applicant, LLMEvaluate.with_template.
  rewrite Hfmt. unfold update_record, _request. eff_unfold. rewrite Hgen.
  subst patch. unfold evaluation_fields, LLMEvaluate.usable.
  destruct answer as [text|]; [|now destruct (http w h' _)].
  destruct (LLMEvaluate.is_empty text); [now destruct (http w h' _)|].
  destruct (LLMEvaluate.parse_llm_response text) as [d|];
    [|now destruct (http w h' _)].
  destruct (decide (d = ∅)); now destruct (http w h' _).
Qed.

(** A text that [generate_content] returns is one that the model
    gave. *)
Lemma generate_content_loop_answer prompt max_retries backoff_factor attempts :
  forall h text h',
    generate_content_loop w prompt max_retries backoff_factor attempts h
    = (Ok (Some text), h') ->
    exists h0, gemini w h0 prompt = Ok (Some text).
Proof.
  induction attempts as [|attempt rest IH]; intros h text h' E;
    cbn [generate_content_loop] in E; eff_unfold; [discriminate|].
  destruct (gemini w h prompt) as [answer|e] eqn:G.
  - injection E as -> _. now exists h.
  - destruct (attempt <? max_retries - 1); [|discriminate].
    unfold sleep, raise, perform in E.
    destruct ((backoff_factor ^ attempt <? - SLEEP_MAX)
              || (SLEEP_MAX <? backoff_factor ^ attempt)); [discriminate|].
    destruct (backoff_factor ^ attempt <? 0); [discriminate|].
    exact (IH _ _ _ E).
Qed.

(** X21.  One write per profile, never an empty one.  For a record with
    a profile and a model that answers in ASCII text, one iteration of
    [llm_evaluate.main] calls the port once and then patches the
    applicant exactly once, with the parsed fields when the answer
    yields at least one, and with the marker
    "Error: Failed to parse LLM response." when the port gave no text,
    an empty text, or a text in which nothing was found.  A record
    without a profile causes no call and no write. *)
Theorem evaluate_record_one_write record h :
  let json := dict_get_none (rec_fields record) "Compressed JSON" in
  (truthy json = false -> LLMEvaluate.evaluate_record w record h = (Ok tt, h))
  /\ (forall prompt,
        truthy json = true ->
        str_format LLMEvaluate.PROMPT_TEMPLATE [("json_data", py_str json)] = Ok prompt ->
        (forall h0 text, gemini w h0 prompt = Ok (Some text) -> ascii_text text = true) ->
        exists answer new,
          generate_content w prompt 3 2 h = (Ok answer, h ++ EvClassify prompt :: new)
          /\ (forall text, answer = Some text -> ascii_text text = true)
          /\ classify_calls new = 0%nat
          /\ snd (LLMEvaluate.evaluate_record w record h)
             = h ++ EvClassify prompt :: new
                 ++ [EvRequest (Patch APPLICANTS_TABLE (rec_id record)
                                  (evaluation_fields answer))]
          /\ evaluation_fields answer <> ∅).
Proof.
  intros json. split.
  - intros Hfalsy. unfold LLMEvaluate.evaluate_record. fold json. now rewrite Hfalsy.
  - intros prompt Htruthy Hfmt Hascii.
    destruct (classify_returns w prompt h) as (answer & new & E & _ & C).
    unfold classify in E. exists answer, new. split; [exact E|]. split.
    { intros text ->. unfold generate_content in E. eff_unfold.
      destruct (generate_content_loop_answer _ _ _ _ _ _ _ E) as [h0 G].
      exact (Hascii h0 text G). }
    split; [exact C|].
    rewrite (evaluate_record_run record h json prompt answer _ eq_refl Htruthy Hfmt E).
    cbn [snd]. rewrite <- app_assoc. split; [reflexivity|].
    apply evaluation_fields_not_empty.
Qed.

(** X22.  A model that does not answer leaves the marker.  When the three
    attempts on the model raise, the iteration makes them with pauses of
    1 and 2 seconds and then writes the error marker on the applicant;
    the applicant is not skipped and the batch goes on. *)
Theorem evaluate_record_model_down record h prompt :
  let json := dict_get_none (rec_fields record) "Compressed JSON" in
  truthy json = true ->
  str_format LLMEvaluate.PROMPT_TEMPLATE [("json_data", py_str json)] = Ok prompt ->
  (forall i, (i < 3)%nat ->
     exists e, gemini w (attempt_history h prompt 2 i) prompt = Raise e) ->
  let h' := h ++ [EvClassify prompt; EvGemini prompt; EvSleep 1; EvGemini prompt;
                  EvSleep 2; EvGemini prompt] in
  let patch := Patch APPLICANTS_TABLE (rec_id record) LLMEvaluate.parse_error_fields in
  LLMEvaluate.evaluate_record w record h
  = (match http w h' patch with
     | Ok _ => Ok tt
     | Raise _ => Raise AirtableAPIError
     end, h' ++ [EvRequest patch]).
Proof.
  intros json Htruthy Hfmt Hfail h' patch.
  assert (Hgen : generate_content w prompt 3 2 h = (Ok None, h')).
  { unfold generate_content. eff_unfold.
    change (range 3) with (map Z.of_nat (seq 0 3)).
    rewrite (generate_content_loop_exhausted w prompt 2 3 2 0%nat
               (h ++ [EvClassify prompt]) eq_refl
               ltac:(intros i Hi; apply two_pauses_accepted; lia)).
    - unfold h'. now rewrite <- !app_assoc.
    - intros i Hi. destruct (Hfail i ltac:(lia)) as [e He]. exists e.
      unfold attempt_history in He. now rewrite <- app_assoc. }
  exact (evaluate_record_run record h json prompt None h' eq_refl Htruthy Hfmt Hgen).
Qed.

(** X23.  An answer without labels counts as a failure.  When the
    stripped answer contains none of the labels ["Summary: "],
    ["Score: "] and ["Follow-Ups:"], [parse_llm_response] returns an
    empty dictionary, issues or not, and [main] writes the error marker
    in its place. *)
Theorem parse_llm_response_no_label text :
  occurs "Summary: " (str_strip text) = false ->
  occurs "Score: " (str_strip text) = false ->
  occurs "Follow-Ups:" (str_strip text) = false ->
  LLMEvaluate.parse_llm_response text = Some ∅
  /\ evaluation_fields (Some text) = LLMEvaluate.parse_error_fields.
Proof.
  intros H1 H2 H3.
  assert (E : LLMEvaluate.parse_llm_response text = Some ∅).
  { unfold LLMEvaluate.parse_llm_response, LLMEvaluate.parsed_fields.
    rewrite (ParseFacts.search_absent _ "Summary: "
               (ParseFacts.match_line_needs_label "Summary: ") _ H1).
    rewrite (ParseFacts.search_absent _ "Score: "
               ParseFacts.match_score_needs_label _ H2).
    rewrite (ParseFacts.search_absent _ "Follow-Ups:"
               ParseFacts.match_follow_ups_needs_label _ H3).
    reflexivity. }
  split; [exact E|]. unfold evaluation_fields. rewrite E.
  destruct (LLMEvaluate.is_empty text); [reflexivity|].
  destruct (decide (∅ = ∅)) as [_|Hne]; [reflexivity|now destruct Hne].
Qed.

End Evaluate.


Lemma evaluate_record_one_write_witness :
  let w := EvaluateExamples.desk (fun _ => Ok (Some EvaluateExamples.answer)) in
  let prompt := LLMEvaluate.PROMPT_HEAD +:+ "{}" +:+ LLMEvaluate.PROMPT_TAIL in
  truthy (dict_get_none (rec_fields EvaluateExamples.profile) "Compressed JSON") = true
  /\ str_format LLMEvaluate.PROMPT_TEMPLATE
       [("json_data",
         py_str (dict_get_none (rec_fields EvaluateExamples.profile) "Compressed JSON"))]
     = Ok prompt
  /\ (forall h0 text, gemini w h0 prompt = Ok (Some text) -> ascii_text text = true)
  /\ exists answer new,
       generate_content w prompt 3 2 [] = (Ok answer, [] ++ EvClassify prompt :: new)
       /\ (forall text, answer = Some text -> ascii_text text = true)
       /\ classify_calls new = 0%nat
       /\ snd (LLMEvaluate.evaluate_record w EvaluateExamples.profile [])
          = [] ++ EvClassify prompt :: new
              ++ [EvRequest (Patch APPLICANTS_TABLE "recNew" (evaluation_fields answer))]
       /\ evaluation_fields answer <> ∅.
Proof.
  intros w prompt.
  assert (Ht : truthy (dict_get_none (rec_fields EvaluateExamples.profile)
                         "Compressed JSON") = true) by (vm_compute; reflexivity).
  assert (Hf : str_format LLMEvaluate.PROMPT_TEMPLATE
                 [("json_data",
                   py_str (dict_get_none (rec_fields EvaluateExamples.profile)
                             "Compressed JSON"))]
               = Ok prompt) by (vm_compute; reflexivity).
  assert (Ha : forall h0 text, gemini w h0 prompt = Ok (Some text) ->
                 ascii_text text = true).
  { intros h0 text G. cbn in G. injection G as <-. vm_compute. reflexivity. }
  repeat (split; [assumption|]).
  exact (proj2 (evaluate_record_one_write w EvaluateExamples.profile []) prompt Ht Hf Ha).
Defined.

Lemma evaluate_record_model_down_witness :
  let w := EvaluateExamples.desk Examples.model_down in
  let prompt := LLMEvaluate.PROMPT_HEAD +:+ "{}" +:+ LLMEvaluate.PROMPT_TAIL in
  let h' := [EvClassify prompt; EvGemini prompt; EvSleep 1; EvGemini prompt;
             EvSleep 2; EvGemini prompt] in
  truthy (dict_get_none (rec_fields EvaluateExamples.profile) "Compressed JSON") = true
  /\ str_format LLMEvaluate.PROMPT_TEMPLATE
       [("json_data",
         py_str (dict_get_none (rec_fields EvaluateExamples.profile) "Compressed JSON"))]
     = Ok prompt
  /\ (forall i, (i < 3)%nat ->
        exists e, gemini w (attempt_history [] prompt 2 i) prompt = Raise e)
  /\ LLMEvaluate.evaluate_record w EvaluateExamples.profile []
     = (Ok tt,
        h' ++ [EvRequest (Patch APPLICANTS_TABLE "recNew" LLMEvaluate.parse_error_fields)]).
Proof.
  intros w prompt h'.
  assert (Ht : truthy (dict_get_none (rec_fields EvaluateExamples.profile)
                         "Compressed JSON") = true) by (vm_compute; reflexivity).
  assert (Hf : str_format LLMEvaluate.PROMPT_TEMPLATE
                 [("json_data",
                   py_str (dict_get_none (rec_fields EvaluateExamples.profile)
                             "Compressed JSON"))]
               = Ok prompt) by (vm_compute; reflexivity).
  assert (Hd : forall i, (i < 3)%nat ->
                 exists e, gemini w (attempt_history [] prompt 2 i) prompt = Raise e)
    by (intros i _; now exists ServiceError).
  repeat (split; [assumption|]).
  exact (evaluate_record_model_down w EvaluateExamples.profile [] prompt Ht Hf Hd).
Defined.

Lemma parse_llm_response_no_label_witness :
  let text := "Issues: no email" +:+ nl +:+ "I cannot help with that." in
  occurs "Summary: " (str_strip text) = false
  /\ occurs "Score: " (str_strip text) = false
  /\ occurs "Follow-Ups:" (str_strip text) = false
  /\ LLMEvaluate.parse_llm_response text = Some ∅
  /\ evaluation_fields (Some text) = LLMEvaluate.parse_error_fields.
Proof.
  intros text.
  assert (H1 : occurs "Summary: " (str_strip text) = false) by (vm_compute; reflexivity).
  assert (H2 : occurs "Score: " (str_strip text) = false) by (vm_compute; reflexivity).
  assert (H3 : occurs "Follow-Ups:" (str_strip text) = false) by (vm_compute; reflexivity).
  repeat (split; [assumption|]).
  exact (parse_llm_response_no_label text H1 H2 H3).
Defined.


(** ** [decompress.py]: looking records up, replacing them, paging *)

Section DecompressFacts.
Import Decompress.

Ltac io_unfold :=
  unfold raise_for_status, request in *;
  unfold mbind, io_mbind, mret, io_mret, io_bind, io_ret, io_lift in *.

Lemma find_existing_record_skip applicant_id before rest :
  Forall (other_applicant applicant_id) before ->
  find_existing_record (before ++ rest) applicant_id
  = find_existing_record rest applicant_id.
Proof.
  induction 1 as [|x before (first & Hf & Hne) _ IH]; [reflexivity|].
  cbn [app find_existing_record]. now rewrite Hf, Hne.
Qed.

Lemma find_existing_record_found applicant_id before found after :
  Forall (other_applicant applicant_id) before ->
  same_applicant applicant_id found ->
  find_existing_record (before ++ found :: after) applicant_id = inr (Some found).
Proof.
  intros Hbefore (first & Hf & He).
  rewrite (find_existing_record_skip _ _ _ Hbefore).
  cbn [find_existing_record]. now rewrite Hf, He.
Qed.

Lemma find_existing_record_none applicant_id records :
  Forall (other_applicant applicant_id) records ->
  find_existing_record records applicant_id = inr None.
Proof.
  intros Hall. rewrite <- (app_nil_r records).
  now rewrite (find_existing_record_skip _ _ _ Hall).
Qed.

(** X24.  The first linked record wins.  [find_existing_record] returns
    the first record of the list whose first linked applicant equals the
    id, whatever follows it, and [None] when every record is linked to
    another applicant. *)
Theorem find_existing_record_first applicant_id before found after :
  Forall (other_applicant applicant_id) before ->
  (same_applicant applicant_id found ->
   find_existing_record (before ++ found :: after) applicant_id = inr (Some found))
  /\ find_existing_record before applicant_id = inr None.
Proof.
  intros Hbefore. split.
  - intros Hsame. now apply find_existing_record_found.
  - now apply find_existing_record_none.
Qed.

(** X25.  Missing and empty links.  A record without an ["Applicants"]
    field is read as linked to [None] and is passed over when an
    applicant id is looked for; a record whose ["Applicants"] list is
    empty raises [IndexError], even when a matching record comes later
    in the list. *)
Theorem find_existing_record_links applicant_id before record after :
  Forall (other_applicant applicant_id) before ->
  (record_fields record !! "Applicants" = None ->
   applicant_id <> JNull ->
   find_existing_record (before ++ record :: after) applicant_id
   = find_existing_record after applicant_id)
  /\ (record_fields record !! "Applicants" = Some (JList []) ->
      find_existing_record (before ++ record :: after) applicant_id = inl IndexError).
Proof.
  intros Hbefore. rewrite (find_existing_record_skip _ _ _ Hbefore).
  cbn [find_existing_record]. unfold first_applicant, dict_get. split.
  - intros -> Hid. cbn. now destruct applicant_id.
  - intros ->. reflexivity.
Qed.

Section Effects.
Variable airtable : server.

(** X26.  Updates are not checked, creations are.  When a present
    record is linked to the applicant, [upsert_single_record] sends one
    PATCH to the first such record and returns normally whatever the
    status of the answer, for it does not call [raise_for_status];
    when none is, it sends one POST and raises [HTTPError] on an error
    status. *)
Theorem upsert_single_record_cases table_name applicant_record applicant_id others
      before found after h :
  applicant_record !! "Applicants" = Some (JList (applicant_id :: others)) ->
  Forall (other_applicant applicant_id) before ->
  (same_applicant applicant_id found ->
   let c := PATCH table_name (record_id found) applicant_record in
   upsert_single_record airtable table_name (before ++ found :: after)
     applicant_record h
   = (match airtable h c with
      | inr _ => inr tt
      | inl e => inl e
      end, h ++ [c]))
  /\ (let c := POST table_name applicant_record in
      upsert_single_record airtable table_name before applicant_record h
      = (match airtable h c with
         | inr r => if ok r then inr tt else inl HTTPError
         | inl e => inl e
         end, h ++ [c])).
Proof.
  intros Happ Hbefore.
  pose proof (find_existing_record_none applicant_id before Hbefore) as Hnone.
  split.
  - intros Hsame c. unfold upsert_single_record. rewrite Happ. io_unfold.
    cbn [subscript0].
    rewrite (find_existing_record_found applicant_id before found after
               Hbefore Hsame). fold c.
    now destruct (airtable h c).
  - intros c. unfold upsert_single_record. rewrite Happ. io_unfold.
    cbn [subscript0]. rewrite Hnone. fold c.
    destruct (airtable h c) as [e|r]; [reflexivity|]. now destruct (ok r).
Qed.

Hypothesis Haccepts : always_ok airtable.

Lemma delete_work_experience_run applicant_id work_experiences :
  Forall readable work_experiences ->
  forall h,
    delete_work_experience_for_applicant airtable work_experiences applicant_id h
    = (inr tt,
       h ++ map (fun record => DELETE WORK_EXPERIENCE_TABLE (record_id record))
              (List.filter (linked_to applicant_id) work_experiences)).
Proof.
  induction 1 as [|x l (first & Hf) _ IH]; intros h.
  - cbn. now rewrite app_nil_r.
  - cbn [delete_work_experience_for_applicant List.filter]. unfold linked_to at 1.
    rewrite Hf. io_unfold. destruct (jvalue_eqb first applicant_id).
    + destruct (Haccepts h (DELETE WORK_EXPERIENCE_TABLE (record_id x)))
        as (r & -> & ->).
      cbv beta iota. rewrite IH. cbn [map]. now rewrite <- app_assoc.
    + apply IH.
Qed.

Lemma post_each_run applicant_records :
  forall h,
    post_each airtable applicant_records h
    = (inr tt, h ++ map (POST WORK_EXPERIENCE_TABLE) applicant_records).
Proof.
  induction applicant_records as [|x l IH]; intros h.
  - cbn. now rewrite app_nil_r.
  - cbn [post_each map]. io_unfold.
    destruct (Haccepts h (POST WORK_EXPERIENCE_TABLE x)) as (r & -> & ->).
    cbv beta iota. rewrite IH. now rewrite <- app_assoc.
Qed.

(** X27.  Work experience is replaced, not merged.  On a server that
    accepts every call, [upsert_work_experience] first deletes every
    present work record linked to the applicant, in the order of the
    list and leaving the records of other applicants alone, and then
    creates one record for each new entry, in order. *)
Theorem upsert_work_experience_replaces applicant_id present applicant_records h :
  Forall readable present ->
  upsert_work_experience airtable applicant_id present applicant_records h
  = (inr tt,
     h ++ map (fun record => DELETE WORK_EXPERIENCE_TABLE (record_id record))
            (List.filter (linked_to applicant_id) present)
       ++ map (POST WORK_EXPERIENCE_TABLE) applicant_records).
Proof.
  intros Hread. unfold upsert_work_experience. io_unfold.
  rewrite (delete_work_experience_run applicant_id present Hread h).
  rewrite post_each_run. now rewrite <- app_assoc.
Qed.

End Effects.

Lemma get_all_records_loop_pages airtable table_name pages :
  forall fuel params records h,
    serves airtable table_name h params pages ->
    (List.length pages <= fuel)%nat ->
    get_all_records_loop airtable fuel table_name params records h
    = (inr (Some (records ++ page_records pages)),
       h ++ page_queries table_name params pages).
Proof.
  induction pages as [|page later IH]; intros fuel params records h Hs Hfuel;
    [destruct Hs|].
  destruct fuel as [|fuel]; [cbn in Hfuel; lia|].
  cbn [serves] in Hs. destruct Hs as (Hget & Hok & Hlater).
  cbn [get_all_records_loop]. io_unfold. rewrite Hget, Hok.
  destruct later as [|next later].
  - rewrite Hlater. cbn. now rewrite app_nil_r.
  - destruct Hlater as [Ht Hs]. rewrite Ht. cbn [negb].
    rewrite (IH fuel _ _ _ Hs) by (cbn in *; lia).
    unfold page_records. cbn [map concat page_queries].
    now rewrite <- !app_assoc.
Qed.

(** X28.  Paging.  When the server lists a table in pages, every page
    but the last carrying an offset, [get_all_records] asks for each
    page once, repeats the offset of a page in the query for the next
    one while keeping the filter and the field list, stops at the first
    page without an offset, and returns the records of all the pages in
    order. *)
Theorem get_all_records_pages airtable fuel table_name filterByFormula fields pages h :
  let params :=
    (if truthy fields then <[ "fields[]" := fields ]> else id)
      ((if truthy filterByFormula then <[ "filterByFormula" := filterByFormula ]>
        else id) ∅) in
  serves airtable table_name h params pages ->
  (List.length pages <= fuel)%nat ->
  get_all_records airtable fuel table_name filterByFormula fields h
  = (inr (Some (page_records pages)), h ++ page_queries table_name params pages).
Proof.
  intros params Hs Hfuel. unfold get_all_records.
  replace (if truthy fields then _ else _) with params
    by (subst params; destruct (truthy fields), (truthy filterByFormula); reflexivity).
  exact (get_all_records_loop_pages airtable table_name pages fuel params [] h Hs Hfuel).
Qed.

End DecompressFacts.


Lemma find_existing_record_first_witness :
  let before := [Decompress.linked "rec1" "recB"; Decompress.unlinked "rec2"] in
  let found := Decompress.linked "rec3" "recA" in
  let after := [Decompress.linked "rec4" "recA"] in
  Forall (Decompress.other_applicant (Decompress.JStr "recA")) before
  /\ Decompress.same_applicant (Decompress.JStr "recA") found
  /\ Decompress.find_existing_record (before ++ found :: after) (Decompress.JStr "recA")
     = inr (Some found)
  /\ Decompress.find_existing_record before (Decompress.JStr "recA") = inr None.
Proof.
  intros before found after.
  assert (Hb : Forall (Decompress.other_applicant (Decompress.JStr "recA")) before).
  { repeat constructor.
    - exists (Decompress.JStr "recB"). split; reflexivity.
    - exists Decompress.JNull. split; reflexivity. }
  assert (Hf : Decompress.same_applicant (Decompress.JStr "recA") found)
    by (exists (Decompress.JStr "recA"); split; reflexivity).
  split; [exact Hb|]. split; [exact Hf|].
  destruct (find_existing_record_first
              (Decompress.JStr "recA") before found after Hb) as [H1 H2].
  split; [exact (H1 Hf)|exact H2].
Defined.

Lemma find_existing_record_links_witness :
  let before := [Decompress.linked "rec1" "recB"] in
  let after := [Decompress.linked "rec4" "recA"] in
  Forall (Decompress.other_applicant (Decompress.JStr "recA")) before
  /\ Decompress.find_existing_record
       (before ++ Decompress.unlinked "rec2" :: after) (Decompress.JStr "recA")
     = Decompress.find_existing_record after (Decompress.JStr "recA")
  /\ Decompress.find_existing_record
       (before ++ Decompress.empty_link "rec2" :: after) (Decompress.JStr "recA")
     = inl Decompress.IndexError.
Proof.
  intros before after.
  assert (Hb : Forall (Decompress.other_applicant (Decompress.JStr "recA")) before).
  { repeat constructor. exists (Decompress.JStr "recB"). split; reflexivity. }
  split; [exact Hb|]. split.
  - apply (proj1 (find_existing_record_links
                    (Decompress.JStr "recA") before (Decompress.unlinked "rec2") after Hb));
      [reflexivity|discriminate].
  - apply (proj2 (find_existing_record_links
                    (Decompress.JStr "recA") before (Decompress.empty_link "rec2") after Hb)).
    reflexivity.
Defined.

Lemma upsert_single_record_cases_witness :
  let payload : gmap string Decompress.jvalue :=
    <[ "Applicants" := Decompress.JList [Decompress.JStr "recA"] ]>
      {[ "Email" := Decompress.JStr "ada@example.org" ]} in
  let before := [Decompress.linked "rec1" "recB"] in
  let found := Decompress.linked "rec3" "recA" in
  payload !! "Applicants" = Some (Decompress.JList [Decompress.JStr "recA"])
  /\ Forall (Decompress.other_applicant (Decompress.JStr "recA")) before
  /\ Decompress.same_applicant (Decompress.JStr "recA") found
  /\ Decompress.upsert_single_record Decompress.refusing "Personal Details"
       (before ++ [found]) payload []
     = (inr tt, [Decompress.PATCH "Personal Details" "rec3" payload])
  /\ Decompress.upsert_single_record Decompress.refusing "Personal Details"
       before payload []
     = (inl Decompress.HTTPError, [Decompress.POST "Personal Details" payload]).
Proof.
  intros payload before found.
  assert (Hp : payload !! "Applicants" = Some (Decompress.JList [Decompress.JStr "recA"]))
    by (vm_compute; reflexivity).
  assert (Hb : Forall (Decompress.other_applicant (Decompress.JStr "recA")) before).
  { repeat constructor. exists (Decompress.JStr "recB"). split; reflexivity. }
  assert (Hf : Decompress.same_applicant (Decompress.JStr "recA") found)
    by (exists (Decompress.JStr "recA"); split; reflexivity).
  repeat (split; [assumption|]).
  destruct (upsert_single_record_cases Decompress.refusing
              "Personal Details" payload (Decompress.JStr "recA") [] before found [] []
              Hp Hb) as [H1 H2].
  split; [exact (H1 Hf)|exact H2].
Defined.

Lemma upsert_work_experience_replaces_witness :
  let present := [Decompress.linked "rec1" "recA"; Decompress.linked "rec2" "recB";
                  Decompress.unlinked "rec3"; Decompress.linked "rec4" "recA"] in
  let entry : gmap string Decompress.jvalue :=
    {[ "Applicants" := Decompress.JList [Decompress.JStr "recA"] ]} in
  Decompress.always_ok Decompress.accepting
  /\ Forall Decompress.readable present
  /\ Decompress.upsert_work_experience Decompress.accepting (Decompress.JStr "recA")
       present [entry] []
     = (inr tt,
        [Decompress.DELETE "Work Experience" "rec1";
         Decompress.DELETE "Work Experience" "rec4";
         Decompress.POST "Work Experience" entry]).
Proof.
  intros present entry.
  assert (Ha : Decompress.always_ok Decompress.accepting)
    by (intros h c; eexists; split; reflexivity).
  assert (Hr : Forall Decompress.readable present)
    by (repeat constructor; eexists; reflexivity).
  split; [exact Ha|]. split; [exact Hr|].
  exact (upsert_work_experience_replaces Decompress.accepting Ha
           (Decompress.JStr "recA") present [entry] [] Hr).
Defined.

Lemma get_all_records_pages_witness :
  let formula := Decompress.JStr "{Shortlist Status} = ''" in
  let params : gmap string Decompress.jvalue := {[ "filterByFormula" := formula ]} in
  let pages := [Decompress.page_one; Decompress.page_two] in
  Decompress.serves Decompress.paging "Applicants" []
    ((if Decompress.truthy Decompress.JNull then <[ "fields[]" := Decompress.JNull ]> else id)
       ((if Decompress.truthy formula then <[ "filterByFormula" := formula ]> else id) ∅))
    pages
  /\ (List.length pages <= 5)%nat
  /\ Decompress.get_all_records Decompress.paging 5 "Applicants" formula Decompress.JNull []
     = (inr (Some [Decompress.linked "rec1" "recA"; Decompress.linked "rec2" "recB";
                   Decompress.linked "rec3" "recA"]),
        [Decompress.GET "Applicants" params;
         Decompress.GET "Applicants" (<[ "offset" := Decompress.JStr "itr2" ]> params)]).
Proof.
  intros formula params pages.
  assert (Hs : Decompress.serves Decompress.paging "Applicants" []
                 ((if Decompress.truthy Decompress.JNull
                   then <[ "fields[]" := Decompress.JNull ]> else id)
                    ((if Decompress.truthy formula
                      then <[ "filterByFormula" := formula ]> else id) ∅))
                 pages)
    by (repeat split; vm_compute; reflexivity).
  assert (Hl : (List.length pages <= 5)%nat) by (cbn; lia).
  split; [exact Hs|]. split; [exact Hl|].
  exact (get_all_records_pages Decompress.paging 5 "Applicants"
           formula Decompress.JNull pages [] Hs Hl).
Defined.
